(** * WISPER ORACLES: calibration and uncertainty pipeline

    A shallow embedding of

    - [apply_cal+QC/scripts/pic2_fullcal.py]: the 2016 calibration of
      Picarro-2 ([pic2_cal16]) and its 2017/2018 cross-calibration onto
      Picarro-1 ([pic2_cal1718]);
    - [apply_cal+QC/uncertainty_estimation.py]: the Monte Carlo uncertainty
      runs and the polynomial surrogate fit.

    Numbers.  The scripts compute with IEEE-754 doubles through numpy and
    pandas.  A double is modelled by the real number it denotes, by an
    infinity or by [NaN]; rounding, overflow and the sign of zero are
    abstracted away: an operation on numbers yields the number that exact
    arithmetic gives, and an infinity arises only where the operation itself
    is infinite ([np.log(0)], a zero base with a negative exponent).

    Effects.  A script prints, reads and writes data files and may raise; a
    computation is a function of the world that returns an outcome and the
    world it leaves.  Plotting and the creation of the output directory at
    import time leave no trace in that world and are not modelled, beyond
    the columns a plot reads.  Code of other modules ([mc_sampler],
    [precisions], statsmodels' regression) enters as a parameter. *)

From Stdlib Require Import Reals Lra R_Ifp.
From stdpp Require Import gmap strings list pretty.

Local Open Scope R_scope.

(** ** Floating-point values *)

Inductive float : Type :=
  | NaN
  | Num (r : R)
  | Inf (negative : bool).

Declare Scope float_scope.
Delimit Scope float_scope with flt.
Bind Scope float_scope with float.

Definition is_nan (x : float) : bool :=
  match x with NaN => true | _ => false end.

Definition is_finite (x : float) : bool :=
  match x with Num _ => true | _ => false end.

Definition is_inf (x : float) : bool :=
  match x with Inf _ => true | _ => false end.

(** The sign of a number that is not zero: [true] when negative. *)
Definition is_negative (a : R) : bool :=
  if Rlt_dec a 0 then true else false.

(** Opposite infinities cancel to [NaN]. *)
Definition fadd (x y : float) : float :=
  match x, y with
  | Num a, Num b => Num (a + b)
  | Num _, Inf s => Inf s
  | Inf s, Num _ => Inf s
  | Inf s, Inf t => if Bool.eqb s t then Inf s else NaN
  | _, _ => NaN
  end.

Definition fsub (x y : float) : float :=
  match x, y with
  | Num a, Num b => Num (a - b)
  | Num _, Inf s => Inf (negb s)
  | Inf s, Num _ => Inf s
  | Inf s, Inf t => if Bool.eqb s t then NaN else Inf s
  | _, _ => NaN
  end.

(** Zero times an infinity is [NaN]. *)
Definition fmul (x y : float) : float :=
  match x, y with
  | Num a, Num b => Num (a * b)
  | Num a, Inf s => if Req_dec_T a 0 then NaN else Inf (xorb (is_negative a) s)
  | Inf s, Num a => if Req_dec_T a 0 then NaN else Inf (xorb s (is_negative a))
  | Inf s, Inf t => Inf (xorb s t)
  | _, _ => NaN
  end.

(** A double divided by a count that is not zero. *)
Definition fdiv_count (x : float) (n : nat) : float :=
  match x with
  | Num a => Num (a / INR n)
  | Inf s => Inf s
  | NaN => NaN
  end.

(** Unary plus ([float.__pos__], [np.positive]) returns its operand. *)
Definition fpos (x : float) : float := x.

(** The logarithm of one double: minus infinity at zero, [NaN] on negative
    numbers. *)
Definition flog (x : float) : float :=
  match x with
  | Num r =>
      if Rlt_dec 0 r then Num (ln r)
      else if Req_dec_T r 0 then Inf true
      else NaN
  | Inf false => Inf false
  | Inf true => NaN
  | NaN => NaN
  end.

(** A real is integral when it equals its integer part. *)
Definition is_integer (y : R) : bool :=
  if Req_dec_T (IZR (Int_part y)) y then true else false.

(** [**] on doubles (C [pow]): [x ** 0] is [1] for every [x], [NaN]
    included; [1 ** y] is [1] for every [y]; a negative base needs an
    integral exponent, whose parity gives the sign; a zero base with a
    negative exponent is infinite; an infinite base or exponent gives zero
    or an infinity. *)
Definition fpow (x y : float) : float :=
  match x, y with
  | _, Num b =>
      if Req_dec_T b 0 then Num 1
      else match x with
           | NaN => NaN
           | Num a =>
               if Rlt_dec 0 a then Num (Rpower a b)
               else if Req_dec_T a 0 then
                 (if Rlt_dec 0 b then Num 0 else Inf false)
               else if is_integer b then
                 (if Z.odd (Int_part b) then Num (- Rpower (- a) b)
                  else Num (Rpower (- a) b))
               else NaN
           | Inf false => if Rlt_dec 0 b then Inf false else Num 0
           | Inf true =>
               if Rlt_dec 0 b then
                 (if is_integer b && Z.odd (Int_part b) then Inf true
                  else Inf false)
               else Num 0
           end
  | Num a, NaN => if Req_dec_T a 1 then Num 1 else NaN
  | Num a, Inf s =>
      if Req_dec_T a 1 then Num 1
      else if Req_dec_T a (-1) then Num 1
      else if Rlt_dec (Rabs a) 1 then (if s then Inf false else Num 0)
      else (if s then Num 0 else Inf false)
  | Inf _, Inf s => if s then Num 0 else Inf false
  | _, _ => NaN
  end.

Notation "x + y" := (fadd x y) : float_scope.
Notation "x - y" := (fsub x y) : float_scope.
Notation "x * y" := (fmul x y) : float_scope.
Notation "x ** y" := (fpow x y) (at level 30, right associativity) : float_scope.

(** ** numpy operands: scalars and one-dimensional arrays

    The formulas of the scripts are duck-typed: the same function body is
    applied to Python scalars and to whole columns.  An operand is either,
    and a binary operator broadcasts a scalar over an array.  The columns of
    one data frame share their index, so two arrays meet element by
    element. *)

Abbreviation Series := (list float).

Inductive operand : Type :=
  | Scalar (x : float)
  | Vector (s : Series).

Declare Scope operand_scope.
Delimit Scope operand_scope with op.
Bind Scope operand_scope with operand.

Definition broadcast (f : float -> float -> float) (x y : operand) : operand :=
  match x, y with
  | Scalar a, Scalar b => Scalar (f a b)
  | Scalar a, Vector t => Vector (map (f a) t)
  | Vector s, Scalar b => Vector (map (fun v => f v b) s)
  | Vector s, Vector t => Vector (zip_with f s t)
  end.

Definition ufunc (f : float -> float) (x : operand) : operand :=
  match x with
  | Scalar a => Scalar (f a)
  | Vector s => Vector (map f s)
  end.

Notation "x + y" := (broadcast fadd x y) : operand_scope.
Notation "x - y" := (broadcast fsub x y) : operand_scope.
Notation "x * y" := (broadcast fmul x y) : operand_scope.
Notation "x ** y" := (broadcast fpow x y) (at level 30, right associativity) : operand_scope.

(** The value an operand contributes at position [i]. *)
Definition at_index (x : operand) (i : nat) : option float :=
  match x with
  | Scalar a => Some a
  | Vector s => s !! i
  end.

(** [np.log]. *)
Definition np_log (x : operand) : operand := ufunc flog x.

(** Python literals and scalars used as operands. *)
Coercion Scalar : float >-> operand.

(** ** Calibration formulas of [pic2_cal16] *)

(** [qdep_correction(logq, a, b)], nested in [q_dep_cal]. *)
Definition qdep_correction (logq a b : operand) : operand :=
  (a * (np_log (Num 50000) - logq) ** b)%op.

(** [q_dep_cal(deltavals, qvals, a, b)]. *)
Definition q_dep_cal (deltavals qvals a b : operand) : operand :=
  let correction := qdep_correction (np_log qvals) a b in
  (deltavals - correction)%op.

(** [abscal_line(x, m, k)]. *)
Definition abscal_line (x m k : operand) : operand :=
  (m * x + k)%op.

(** ** Data frames, files and exceptions *)

(** A [pandas.DataFrame]: its columns by name. *)
Abbreviation DataFrame := (gmap string Series).

Inductive key : Type :=
  | KStr (s : string)
  | KInt (n : Z).

Inductive exn : Type :=
  | KeyError (k : key)
  | IndexError
  | FileNotFoundError (path : string)
  | UnboundLocalError (name : string)
  | NameError (name : string)
  | ValueError (msg : string)
  | MissingDataError (msg : string).

Inductive outcome (A : Type) : Type :=
  | Returns (a : A)
  | Raises (e : exn).
Arguments Returns {A} a.
Arguments Raises {A} e.

(** What [print] wrote: a text, or the representation of a number. *)
Inductive printed : Type :=
  | Text (s : string)
  | Number (x : float).

(** What a script can observe and change: what it printed (oldest first),
    the data files on disk, each held as the frame it parses to, and the
    state of numpy's global random generator. *)
Record world : Type := World {
  stdout : list printed;
  files : gmap string (gmap string Series);
  rng : N
}.

(** A computation with effects: it may raise, and what it printed and wrote
    before raising stays. *)
Definition io (A : Type) : Type := world -> outcome A * world.

Definition raise {A} (e : exn) : io A := fun w => (Raises e, w).

#[global] Instance outcome_ret : MRet outcome := fun A a => Returns a.

#[global] Instance outcome_bind : MBind outcome := fun A B k m =>
  match m with
  | Returns a => k a
  | Raises e => Raises e
  end.

#[global] Instance io_ret : MRet io := fun A a w => (Returns a, w).

#[global] Instance io_bind : MBind io := fun A B k m w =>
  match m w with
  | (Returns a, w') => k a w'
  | (Raises e, w') => (Raises e, w')
  end.

(** [print(s)]. *)
Definition print (x : printed) : io unit :=
  fun w => (Returns tt, World (stdout w ++ [x]) (files w) (rng w)).

(** [pd.read_csv(path)]. *)
Definition read_csv (path : string) : io DataFrame :=
  fun w =>
    match files w !! path with
    | Some df => (Returns df, w)
    | None => (Raises (FileNotFoundError path), w)
    end.

(** [data.to_csv(path)]. *)
Definition to_csv (data : DataFrame) (path : string) : io unit :=
  fun w => (Returns tt, World (stdout w) (<[path := data]> (files w)) (rng w)).

(** [data[key]]. *)
Definition getitem (data : DataFrame) (name : string) : io Series :=
  match data !! name with
  | Some s => mret s
  | None => raise (KeyError (KStr name))
  end.

(** Number of rows of a frame (all its columns have that length). *)
Definition nrows (data : DataFrame) : nat :=
  match map_to_list data with
  | (_, s) :: _ => length s
  | [] => 0%nat
  end.

(** [data[key] = value]; a scalar fills the column. *)
Definition setitem (name : string) (value : operand) (data : DataFrame) : DataFrame :=
  match value with
  | Vector s => <[name := s]> data
  | Scalar a => <[name := replicate (nrows data) a]> data
  end.

(** The missing-value flag of the data files. *)
Definition missing_flag : R := -9999.

Definition flag_to_nan (v : float) : float :=
  match v with
  | Num r => if Req_dec_T r missing_flag then NaN else v
  | _ => v
  end.

(** [data.replace(-9999, np.nan, inplace=True)]: every cell of every
    column. *)
Definition replace_flag (data : DataFrame) : DataFrame :=
  map flag_to_nan <$> data.

(** [for x in xs: body(x)]. *)
Fixpoint for_each {A} (body : A -> io unit) (xs : list A) : io unit :=
  match xs with
  | [] => mret tt
  | x :: xs' => body x ;; for_each body xs'
  end.

Definition path_timesync_dir : string := "../WISPER_data/time_sync/".
Definition path_pic1cal_dir : string := "../WISPER_data/pic1_cal/".
Definition path_pic2cal_dir : string := "../WISPER_data/pic2_cal/".

(** ** [pic2_cal16]: parameters *)

(** The local names the two [if pic==...] blocks bind and the loop reads. *)
Record locals16 : Type := Locals16 {
  aD : float; bD : float; a18O : float; b18O : float;
  mD : float; kD : float; m18O : float; k18O : float;
  mq : float; kq : float
}.

(** Body of [if pic=='Mako':]. *)
Definition mako_block : locals16 :=
  let aD := Num (-0.365) in let bD := Num 3.031 in
  let a18O := Num (-0.00581) in let b18O := Num 4.961 in
  let mD := Num 1.056412 in let kD := Num (-5.957469) in
  let m18O := Num 1.051851 in let k18O := Num (-1.041851) in
  let ff := Num 3.5 in let k18O := (k18O + ff)%flt in
  let mq := Num 0.8512 in let kq := Num 0 in
  Locals16 aD bD a18O b18O mD kD m18O k18O mq kq.

(** Body of [if pic=='Gulper':]. *)
Definition gulper_block : locals16 :=
  let aD := Num 0.035 in let bD := Num 4.456 in
  let a18O := Num 0.06707 in let b18O := Num 1.889 in
  let mD := Num 1.094037184 in
  let m18O := Num 1.06831472 in
  let pD_M := Num (-75) in
  let pD_G := Num (-94) in
  let p18O_M := Num (-11.5) in
  let p18O_G := Num (-16.7) in
  let kD := (pD_M - mD * pD_G)%flt in
  let k18O := (p18O_M - m18O * p18O_G)%flt in
  let mq := Num 0.9085 in let kq := Num 0 in
  Locals16 aD bD a18O b18O mD kD m18O k18O mq kq.

(** The two [if] statements in sequence.  [None]: neither ran, and the
    parameter names are unbound. *)
Definition bind_parameters (pic : string) : option locals16 :=
  let env := None in
  let env := if decide (pic = "Mako") then Some mako_block else env in
  let env := if decide (pic = "Gulper") then Some gulper_block else env in
  env.

(** Reading a local name. *)
Definition local (name : string) (field : locals16 -> float)
    (env : option locals16) : io operand :=
  match env with
  | Some e => mret (Scalar (field e))
  | None => raise (UnboundLocalError name)
  end.

(** ** [pic2_cal16]: the loop over flights *)

(** One iteration of [for date in dates:]. *)
Definition cal16_flight (env : option locals16) (date : string) : io unit :=
  print (Text date);;
  let fname := "WISPER_" +:+ date +:+ "_time-sync.ict" in
  data ← read_csv (path_timesync_dir +:+ fname) ;
  let data := replace_flag data in
  (* Humidity dependence corrections *)
  d ← getitem data "dD_tot2" ; q ← getitem data "h2o_tot2" ;
  a ← local "aD" aD env ; b ← local "bD" bD env ;
  let data := setitem "dD_tot2" (q_dep_cal (Vector d) (Vector q) a b) data in
  d ← getitem data "d18O_tot2" ; q ← getitem data "h2o_tot2" ;
  a ← local "a18O" a18O env ; b ← local "b18O" b18O env ;
  let data := setitem "d18O_tot2" (q_dep_cal (Vector d) (Vector q) a b) data in
  (* Isotope ratio absolute calibration *)
  x ← getitem data "dD_tot2" ;
  m ← local "mD" mD env ; k ← local "kD" kD env ;
  let data := setitem "dD_tot2" (abscal_line (Vector x) m k) data in
  x ← getitem data "d18O_tot2" ;
  m ← local "m18O" m18O env ; k ← local "k18O" k18O env ;
  let data := setitem "d18O_tot2" (abscal_line (Vector x) m k) data in
  (* Humidity absolute calibration *)
  x ← getitem data "h2o_tot2" ;
  m ← local "mq" mq env ; k ← local "kq" kq env ;
  let data := setitem "h2o_tot2" (abscal_line (Vector x) m k) data in
  (* Save *)
  let fname_save := "WISPER_" +:+ date +:+ "_pic2-cal.ict" in
  to_csv data (path_pic2cal_dir +:+ fname_save).

(** [pic2_cal16(dates, pic)]. *)
Definition pic2_cal16 (dates : list string) (pic : string) : io unit :=
  let env := bind_parameters pic in
  for_each (cal16_flight env) dates.

(** ** Moving average: [Series.rolling(window).mean()]

    pandas slides a window over the column, keeping the number of
    observations (values that are not [NaN]) in it and their sum, to which
    a value is added when it enters the window and from which it is
    subtracted when it leaves; the window ending at position [i] starts at
    [i - window + 1], and the mean is emitted once the window holds at least
    [min_periods] observations, which for an integer window is the window
    length itself.  Before the pass pandas replaces the infinite values of
    the column by [NaN] ([_prep_values]).  The compensation term of the
    summation and the shortcuts for windows of one sign or of one value are
    rounding devices and are left out. *)

Record mean_state : Type := MeanState { nobs : nat; sum_x : float }.

Definition add_mean (v : float) (st : mean_state) : mean_state :=
  match v with
  | NaN => st
  | _ => MeanState (S (nobs st)) (sum_x st + v)%flt
  end.

Definition remove_mean (v : float) (st : mean_state) : mean_state :=
  match v with
  | NaN => st
  | _ => MeanState (Nat.pred (nobs st)) (sum_x st - v)%flt
  end.

Definition calc_mean (minp : nat) (st : mean_state) : float :=
  if decide (minp ≤ nobs st ∧ 0 < nobs st)%nat
  then fdiv_count (sum_x st) (nobs st)
  else NaN.

(** The pass over positions [i, i+1, ...] of [values], [todo] being the
    values from position [i] on. *)
Fixpoint roll_mean (values : Series) (window minp i : nat) (todo : Series)
    (st : mean_state) : Series :=
  match todo with
  | [] => []
  | v :: todo' =>
      let st :=
        if decide (window ≤ i)%nat then
          match values !! (i - window)%nat with
          | Some u => remove_mean u st
          | None => st
          end
        else st in
      let st := add_mean v st in
      calc_mean minp st :: roll_mean values window minp (S i) todo' st
  end.

(** [_prep_values]: the column with its infinite values replaced by
    [NaN]. *)
Definition prep_values (s : Series) : Series :=
  map (fun v => if is_inf v then NaN else v) s.

Definition rolling_mean (window : nat) (s : Series) : Series :=
  let values := prep_values s in
  roll_mean values window window 0 values (MeanState 0 (Num 0)).

(** ** [pic2_cal1718]: cross-calibration formulas *)

(** One row of each sheet of [calibration_fits.xlsx], as the dictionary
    [dict(params.loc[year])] the formulas index; a field per key read. *)
Record row_h2o : Type := RowH2O {
  p_h2o_tot2 : float                      (* 'h2o_tot2' *)
}.

Record row_dD : Type := RowDD {
  pD_logq3 : float;                       (* 'logq^3' *)
  pD_logq2 : float;                       (* 'logq^2' *)
  pD_logq1 : float;                       (* 'logq^1' *)
  pD_dD1 : float;                         (* 'dD^1' *)
  pD_dD2 : float;                         (* 'dD^2' *)
  pD_dD3 : float;                         (* 'dD^3' *)
  pD_cross1 : float;                      (* '(dD*logq)^1' *)
  pD_cross2 : float;                      (* '(dD*logq)^2' *)
  pD_cross3 : float;                      (* '(dD*logq)^3' *)
  pD_const : float                        (* 'const' *)
}.

Record row_d18O : Type := RowD18O {
  pO_logq3 : float;                       (* 'logq^3' *)
  pO_logq2 : float;                       (* 'logq^2' *)
  pO_logq1 : float;                       (* 'logq^1' *)
  pO_d18O1 : float;                       (* 'd18O^1' *)
  pO_d18O2 : float;                       (* 'd18O^2' *)
  pO_d18O3 : float;                       (* 'd18O^3' *)
  pO_cross1 : float;                      (* '(d18O*logq)^1' *)
  pO_cross2 : float;                      (* '(d18O*logq)^2' *)
  pO_cross3 : float;                      (* '(d18O*logq)^3' *)
  pO_const : float                        (* 'const' *)
}.

(** [xcal_h2o(q, p)]. *)
Definition xcal_h2o (q : operand) (p : row_h2o) : operand :=
  (p_h2o_tot2 p * q)%op.

(** [xcal_dD(logq, dD, p)]. *)
Definition xcal_dD (logq dD : operand) (p : row_dD) : operand :=
  (pD_logq3 p * logq ** Num 3 + pD_logq2 p * logq ** Num 2
   + pD_logq1 p * logq ** Num 1 + pD_dD1 p * dD ** Num 1
   + pD_dD2 p * dD ** Num 2 + pD_dD3 p * dD ** Num 3
   + pD_cross1 p * (dD * logq) ** Num 1
   + pD_cross2 p * (dD * logq) ** Num 2
   + pD_cross3 p * (dD * logq) ** Num 3
   + pD_const p)%op.

(** [xcal_d18O(logq, d18O, p)].  The source has [+ + p['d18O^3']*...]: a
    binary plus followed by a unary plus on the coefficient. *)
Definition xcal_d18O (logq d18O : operand) (p : row_d18O) : operand :=
  (pO_logq3 p * logq ** Num 3 + pO_logq2 p * logq ** Num 2
   + pO_logq1 p * logq ** Num 1 + pO_d18O1 p * d18O ** Num 1
   + pO_d18O2 p * d18O ** Num 2 + ufunc fpos (pO_d18O3 p) * d18O ** Num 3
   + pO_cross1 p * (d18O * logq) ** Num 1
   + pO_cross2 p * (d18O * logq) ** Num 2
   + pO_cross3 p * (d18O * logq) ** Num 3
   + pO_const p)%op.

(** ** [pic2_cal1718]: the loop over flights *)

(** The three sheets after [set_index('year')]. *)
Record caltable : Type := Caltable {
  params_h2o : gmap Z row_h2o;
  params_dD : gmap Z row_dD;
  params_d18O : gmap Z row_d18O
}.

(** [params.loc[year]]. *)
Definition loc {A} (params : gmap Z A) (year : Z) : io A :=
  match params !! year with
  | Some row => mret row
  | None => raise (KeyError (KInt year))
  end.

(** [data[names]]: the named columns, in order. *)
Fixpoint getitems (data : DataFrame) (names : list string) : io (list Series) :=
  match names with
  | [] => mret []
  | n :: names' =>
      s ← getitem data n; ss ← getitems data names'; mret (s :: ss)
  end.

(** [data[names] = columns]. *)
Definition setitems (names : list string) (columns : list Series)
    (data : DataFrame) : DataFrame :=
  foldl (fun d nc => <[nc.1 := nc.2]> d) data (zip names columns).

Definition vars2smooth : list string :=
  ["dD_tot1"; "dD_tot2"; "d18O_tot1"; "d18O_tot2"].

(** The [if testplots:] block.  Drawing has no effect on the data; the
    columns the plots read must exist, and the four isotope columns are
    replaced by their moving averages. *)
Definition test_plots (data : DataFrame) : io DataFrame :=
  _ ← getitem data "h2o_tot2"; _ ← getitem data "h2o_tot1";
  _ ← getitem data "h2o_tot1";
  cols ← getitems data vars2smooth;
  let data := setitems vars2smooth (map (rolling_mean 10) cols) data in
  _ ← getitem data "Start_UTC"; _ ← getitem data "dD_tot1";
  _ ← getitem data "Start_UTC"; _ ← getitem data "dD_tot2";
  _ ← getitem data "Start_UTC";
  _ ← getitem data "Start_UTC"; _ ← getitem data "d18O_tot1";
  _ ← getitem data "Start_UTC"; _ ← getitem data "d18O_tot2";
  _ ← getitem data "Start_UTC";
  mret data.

(** One iteration of [for date in dates:]. *)
Definition cal1718_flight (tables : caltable) (year : Z) (testplots : bool)
    (date : string) : io unit :=
  print (Text date);;
  let fname := "WISPER_" +:+ date +:+ "_pic1-cal.ict" in
  data ← read_csv (path_pic1cal_dir +:+ fname);
  let data := replace_flag data in
  (* Corrected H2O *)
  q ← getitem data "h2o_tot2"; p ← loc (params_h2o tables) year;
  let h2o_corrected := xcal_h2o (Vector q) p in
  (* Calibrations dD and d18O *)
  q ← getitem data "h2o_tot2"; d ← getitem data "dD_tot2";
  p ← loc (params_dD tables) year;
  let dD_corrected :=
    xcal_dD (np_log (Vector q)) (Vector (rolling_mean 10 d)) p in
  q ← getitem data "h2o_tot2"; d ← getitem data "d18O_tot2";
  p ← loc (params_d18O tables) year;
  let d18O_corrected :=
    xcal_d18O (np_log (Vector q)) (Vector (rolling_mean 10 d)) p in
  (* Optional test plots *)
  data ← (if testplots then test_plots data else mret data);
  (* Save calibrated data *)
  let data := setitem "h2o_tot2" h2o_corrected data in
  let data := setitem "dD_tot2" dD_corrected data in
  let data := setitem "d18O_tot2" d18O_corrected data in
  let fname_save := "WISPER_" +:+ date +:+ "_pic2-cal.ict" in
  to_csv data (path_pic2cal_dir +:+ fname_save).

(** [pic2_cal1718(year, dates, testplots)], given the workbook's sheets. *)
Definition pic2_cal1718 (tables : caltable) (year : Z) (dates : list string)
    (testplots : bool) : io unit :=
  for_each (cal1718_flight tables year testplots) dates.

(** ** The script body of [pic2_fullcal.py] *)

Definition dates2016_good_mako : list string :=
  ["20160830"; "20160831"; "20160902"; "20160904"].
Definition dates2016_good_gulper : list string :=
  ["20160910"; "20160912"; "20160914"; "20160918";
   "20160920"; "20160924"; "20160925"].

Definition newline : string := String (Ascii.ascii_of_nat 10) EmptyString.

Definition banner (year : string) : string :=
  "========================" +:+ newline
  +:+ "Pic2 calibration for " +:+ year +:+ newline
  +:+ "========================" +:+ newline.

(** The calls for 2017 and 2018 are commented out in the script. *)
Definition main : io unit :=
  print (Text (banner "2016"));;
  pic2_cal16 dates2016_good_mako "Mako";;
  pic2_cal16 dates2016_good_gulper "Gulper";;
  print (Text (banner "2017"));;
  print (Text (banner "2018")).

(** ** [uncertainty_estimation.py] *)

(** In this script an array of any shape is held by its row-major
    flattening: every formula is elementwise, and [flatten()] is the
    identity on that representation. *)

Module pic1_cal.

(** Modelled from the spec: [pic1_cal.q_dep_cal], of a module that is not
    among the sources.  The spec's humidityDependenceCorrection
    "subtracts a * (ln(50000) - ln(q))^b from each delta value". *)
Definition q_dep_cal (deltavals qvals a b : operand) : operand :=
  (deltavals - a * (np_log (Num 50000) - np_log qvals) ** b)%op.

(** Modelled from the spec: [pic1_cal.abs_cal], of the same module.  The
    spec's absoluteCalibration is "slope*x + intercept". *)
Definition abs_cal (x m k : operand) : operand :=
  (m * x + k)%op.

End pic1_cal.

(** [xs[i]] on a list or array. *)
Definition index {A} (xs : list A) (i : nat) : outcome A :=
  match xs !! i with
  | Some x => Returns x
  | None => Raises IndexError
  end.

(** A calibration function handed to the sampler. *)
Abbreviation calfun := (operand -> operand -> list float -> outcome operand).

(** [pic1_isoratio_fullcal(d, q, calparams)], nested in
    [wisper_uncertainties_MC]. *)
Definition pic1_isoratio_fullcal : calfun := fun d q calparams =>
  c0 ← index calparams 0; c1 ← index calparams 1;
  let d_qdep_correct := pic1_cal.q_dep_cal d q (Scalar c0) (Scalar c1) in
  c2 ← index calparams 2; c3 ← index calparams 3;
  let d_abscal := pic1_cal.abs_cal d_qdep_correct (Scalar c2) (Scalar c3) in
  mret d_abscal.

(** The arguments of one call of [mc.mc_normalsampler]. *)
Record sampler_call : Type := SamplerCall {
  sc_f : calfun;
  sc_inputvars : list operand;
  sc_params : list float;
  sc_sig_params : list float;
  sc_N : Z;
  sc_sig_inputvars : option (list operand);
  sc_return_agg : option bool             (* [None]: left to its default *)
}.

(** What the least-squares solver behind [sm.OLS(...).fit()] yields: a
    coefficient for each column of [exog], by position, and the coefficient
    of determination. *)
Record ols_solution : Type := OLSSolution {
  coefficient : nat -> float;
  solution_rsquared : float
}.

(** The fitted model as the scripts read it: [fit.params], labelled by the
    columns of [exog], and [fit.rsquared]. *)
Record ols_result : Type := OLSResult {
  ols_params : list (string * float);
  rsquared : float
}.

(** Plus infinity, minus infinity. *)
Definition is_pinf (x : float) : bool :=
  match x with Inf false => true | _ => false end.

Definition is_ninf (x : float) : bool :=
  match x with Inf true => true | _ => false end.

(** [not np.isfinite(np.max(col))] for a column that holds a value and no
    [NaN]: the column holds plus infinity, or nothing but minus
    infinity. *)
Definition max_not_finite (col : Series) : bool :=
  existsb is_pinf col || forallb is_ninf col.

(** [np.linspace(start, stop, num)]. *)
Definition linspace (start stop : R) (num : nat) : list R :=
  let step := (stop - start) / INR (num - 1) in
  map (fun i => start + INR i * step) (seq 0 num).

(** [np.meshgrid(x, y)], both results flattened: each is [length y] rows of
    [length x] values, the first repeating [x] in every row and the second
    holding one value of [y] per row. *)
Definition meshgrid (x y : list R) : operand * operand :=
  (Vector (mjoin (map (fun _ => map Num x) y)),
   Vector (mjoin (map (fun yj => map (fun _ => Num yj) x) y))).

(** [np.zeros(np.shape(q))]. *)
Definition zeros_like (q : operand) : operand :=
  ufunc (fun _ => Num 0) q.

(** [np.ones(n)]. *)
Definition np_ones (n : nat) : operand := Vector (replicate n (Num 1)).

(** Rounding to the nearest integer, halves to the even one. *)
Definition rint (r : R) : Z :=
  let n := Int_part r in
  let f := frac_part r in
  if Rlt_dec f (1 / 2) then n
  else if Rlt_dec (1 / 2) f then (n + 1)%Z
  else if Z.even n then n else (n + 1)%Z.

(** [np.round(x, decimals)]. *)
Definition np_round (x : float) (decimals : nat) : float :=
  match x with
  | Num r => Num (IZR (rint (r * 10 ^ decimals)) / 10 ^ decimals)
  | _ => x
  end.

(** [np.compress]: the entries of [l] where [mask] holds. *)
Fixpoint compress {A} (mask : list bool) (l : list A) : list A :=
  match mask, l with
  | b :: mask', x :: l' =>
      if b then x :: compress mask' l' else compress mask' l'
  | _, _ => []
  end.

(** [missing='drop']: the observations where the response and every
    predictor are present. *)
Definition complete_cases (endog : Series) (exog : list (string * Series)) : list bool :=
  foldr (fun c mask => zip_with andb (map (fun v => negb (is_nan v)) c.2) mask)
        (map (fun v => negb (is_nan v)) endog) exog.

(** [pd.DataFrame({...})] from named one-dimensional arrays, which must
    have one length. *)
Definition make_frame (columns : list (string * Series)) : io DataFrame :=
  match columns with
  | [] => mret ∅
  | (_, s0) :: _ =>
      if decide (Forall (fun c => length c.2 = length s0) columns)
      then mret (list_to_map columns)
      else raise (ValueError "All arrays must be of the same length")
  end.

(** A [for] loop that updates a local variable. *)
Fixpoint for_fold {A S} (body : A -> S -> io S) (xs : list A) (s : S) : io S :=
  match xs with
  | [] => mret s
  | x :: xs' => s' ← body x s; for_fold body xs' s'
  end.

(** [str(p)] for the exponents used. *)
Definition str (p : Z) : string := pretty p.

(** Lifting a computation that only returns or raises. *)
Definition lift {A} (o : outcome A) : io A := fun w => (o, w).

Section Uncertainty.

(** [mc.mc_normalsampler], of module [mc_sampler], which is not among the
    sources: it draws from the random generator and returns a sequence of
    arrays. *)
Variable mc_normalsampler : sampler_call -> io (list operand).

(** [precisions.dD_precision_pic1] and [precisions.d18O_precision_pic1],
    of module [precisions], which is not among the sources. *)
Variable dD_precision_pic1 : operand -> operand.
Variable d18O_precision_pic1 : operand -> operand.

(** The solver of [sm.OLS(endog, exog).fit()] of statsmodels, on
    observations that statsmodels has accepted: at least one, none with a
    [NaN], and the maximum of every predictor finite; it may raise. *)
Variable OLS_fit : Series -> list (string * Series) -> outcome ols_solution.

(** [sm.OLS(endog, exog, missing='drop').fit()]: the observations where the
    response or a predictor is [NaN] are dropped, an infinity is not.
    statsmodels then takes the maximum of every predictor, which numpy
    refuses when no observation is left, and refuses the predictors when
    one of these maxima is not finite; then it solves. *)
Definition OLS_drop_fit (endog : Series) (exog : list (string * Series))
    : outcome ols_result :=
  let keep := complete_cases endog exog in
  let endog := compress keep endog in
  let exog := map (fun c => (c.1, compress keep c.2)) exog in
  match endog with
  | [] =>
      Raises (ValueError "zero-size array to reduction operation maximum which has no identity")
  | _ :: _ =>
      if existsb (fun c => max_not_finite c.2) exog
      then Raises (MissingDataError "exog contains inf or nans")
      else
        sol ← OLS_fit endog exog;
        mret (OLSResult (imap (fun k c => (c.1, coefficient sol k)) exog)
                        (solution_rsquared sol))
  end.

(** [wisper_uncertainties_MC(d, q, calparams, sig_calparams, sig_d=None)]. *)
Definition wisper_uncertainties_MC (d q : operand)
    (calparams sig_calparams : list float) (sig_d : option operand)
    : io (list operand) :=
  match sig_d with
  | Some sig_d =>
      let sig_q := zeros_like q in
      mc_normalsampler
        (SamplerCall pic1_isoratio_fullcal [d; q] calparams sig_calparams
                     6000 (Some [sig_d; sig_q]) (Some true))
  | None =>
      mc_normalsampler
        (SamplerCall pic1_isoratio_fullcal [d; q] calparams sig_calparams
                     6000 None (Some true))
  end.

(** [fit_poly(q, d, sig_d)].  In the source the assignment of the [const]
    column sits inside the loop over the exponents. *)
Definition fit_poly (q d sig_d : Series) : io (list (string * float)) :=
  df_forfit ← make_frame [("logq", map flog q); ("d", d); ("sig_d", sig_d)];
  df_forfit ← for_fold (fun p df =>
      logq ← getitem df "logq";
      let df := setitem ("logq^" +:+ str p) (Vector logq ** Num (IZR p))%op df in
      let df := setitem "const" (np_ones (nrows df)) df in
      mret df) [2; 3; 4]%Z df_forfit;
  let predictorvars := ["const"; "logq"; "logq^2"; "logq^3"; "logq^4"; "d"] in
  endog ← getitem df_forfit "sig_d";
  exog ← getitems df_forfit predictorvars;
  fit ← lift (OLS_drop_fit endog (zip predictorvars exog));
  print (Number (np_round (rsquared fit) 2));;
  mret (ols_params fit).

(** Names that code nested in [pic1_uncertainties] can resolve to a
    calibration function.  There is none: the [def pic1_isoratio_fullcal]
    in the body of [pic1_uncertainties] is commented out, the module binds
    no such global, and the function of that name above is local to
    [wisper_uncertainties_MC]. *)
Definition scope_of_pic1_uncertainties : gmap string calfun := ∅.

(** Evaluating a name. *)
Definition name_lookup (scope : gmap string calfun) (name : string) : io calfun :=
  match scope !! name with
  | Some f => mret f
  | None => raise (NameError name)
  end.

(** [a.flatten()]. *)
Definition flatten (a : operand) : Series :=
  match a with
  | Vector s => s
  | Scalar x => [x]
  end.

(** The regression that ends [sigma_with_fit_dD] and [sigma_with_fit_d18O],
    [iso] being the column label ['dD'] or ['d18O']. *)
Definition fit_section (iso : string) (q d : operand) (results : list operand)
    : io (list (string * float)) :=
  sig ← lift (index results 1);
  df_forfit ← make_frame [("logq", map flog (flatten q)); (iso, flatten d);
                          ("sig_" +:+ iso, flatten sig)];
  df_forfit ← for_fold (fun p df =>
      logq ← getitem df "logq";
      mret (setitem ("logq^" +:+ str p) (Vector logq ** Num (IZR p))%op df))
    [2; 3; 4]%Z df_forfit;
  let df_forfit := setitem "const" (np_ones (nrows df_forfit)) df_forfit in
  let predictorvars := ["const"; "logq"; "logq^2"; "logq^3"; "logq^4"; iso] in
  endog ← getitem df_forfit ("sig_" +:+ iso);
  exog ← getitems df_forfit predictorvars;
  fit ← lift (OLS_drop_fit endog (zip predictorvars exog));
  print (Number (np_round (rsquared fit) 2));;
  mret (ols_params fit).

(** [sigma_with_fit_dD(params, sig_params, sig_inputvars=False,
    ax_cax=None)], nested in [pic1_uncertainties]; [ax_cax] tells whether
    axes were passed, the plot itself having no effect on the data. *)
Definition sigma_with_fit_dD (params sig_params : list float)
    (sig_inputvars ax_cax : bool) : io (list (string * float)) :=
  let '(q, d) := meshgrid (linspace 1500 22000 100) (linspace (-300) (-60) 150) in
  results ←
    (if sig_inputvars then
       let sig_q := zeros_like q in
       let sig_dD := dD_precision_pic1 q in
       f ← name_lookup scope_of_pic1_uncertainties "pic1_isoratio_fullcal";
       mc_normalsampler
         (SamplerCall f [d; q] params sig_params 6000 (Some [sig_dD; sig_q]) None)
     else
       f ← name_lookup scope_of_pic1_uncertainties "pic1_isoratio_fullcal";
       mc_normalsampler (SamplerCall f [d; q] params sig_params 6000 None None));
  (if ax_cax then _ ← lift (index results 1); mret tt else mret tt);;
  fit_section "dD" q d results.

(** [sigma_with_fit_d18O(params, sig_params, sig_inputvars=False,
    ax_cax=None)], nested in [pic1_uncertainties]. *)
Definition sigma_with_fit_d18O (params sig_params : list float)
    (sig_inputvars ax_cax : bool) : io (list (string * float)) :=
  let '(q, d) := meshgrid (linspace 1500 22000 100) (linspace (-30) (-8) 150) in
  results ←
    (if sig_inputvars then
       let sig_q := zeros_like q in
       let sig_d18O := d18O_precision_pic1 q in
       f ← name_lookup scope_of_pic1_uncertainties "pic1_isoratio_fullcal";
       mc_normalsampler
         (SamplerCall f [d; q] params sig_params 6000 (Some [sig_d18O; sig_q]) None)
     else
       f ← name_lookup scope_of_pic1_uncertainties "pic1_isoratio_fullcal";
       mc_normalsampler (SamplerCall f [d; q] params sig_params 6000 None None));
  (if ax_cax then _ ← lift (index results 1); mret tt else mret tt);;
  fit_section "d18O" q d results.

(** One line of [qdependence_fit_results.csv] and the parsed file. *)
Record fit_row : Type := FitRow {
  picarro : string;
  year : Z;
  cells : gmap string float
}.

Record qdep_table : Type := QdepTable {
  header : list string;
  rows : list fit_row
}.

(** [frame[names].values]: the named columns of the given rows. *)
Definition select_values (t : qdep_table) (rs : list fit_row) (names : list string)
    : outcome (list (list float)) :=
  match list_find (fun n => n ∉ header t) names with
  | Some (_, n) => Raises (KeyError (KStr n))
  | None => Returns (map (fun r => map (fun n => default NaN (cells r !! n)) names) rs)
  end.

(** Reading a local name bound in one of two [if] blocks. *)
Definition bound {A} (name : string) (v : option A) : outcome A :=
  match v with
  | Some x => Returns x
  | None => Raises (UnboundLocalError name)
  end.

(** [get_calparams(iso, sig_absoffset)], given the parsed fit table. *)
Definition get_calparams (pars_qdep : qdep_table) (iso : string)
    (sig_absoffset : float) : outcome (list float * list float) :=
  let pars_qdep_16 :=
    filter (fun r => picarro r = "Mako" ∧ year r = 2016%Z) (rows pars_qdep) in
  vals ← select_values pars_qdep pars_qdep_16 ["a" +:+ iso; "b" +:+ iso];
  pars_qdep0 ← index vals 0;
  let mk := None in
  let mk := if decide (iso = "D")
            then Some (Num 1.0564, Num (-5.957469671)) else mk in
  let mk := if decide (iso = "18O")
            then Some (Num 1.051851852, Num (-1.041851852)) else mk in
  mk ← bound "m" mk;
  let pars := pars_qdep0 ++ [mk.1; mk.2] in
  vals ← select_values pars_qdep pars_qdep_16 ["sig_aD"; "sig_bD"];
  sigpars_qdep ← index vals 0;
  let sigmk := None in
  let sigmk := if decide (iso = "D")
               then Some (Num (0.0564 / 2), sig_absoffset) else sigmk in
  let sigmk := if decide (iso = "18O")
               then Some (Num (0.05185 / 2), sig_absoffset) else sigmk in
  sigmk ← bound "sigm" sigmk;
  let sigpars := sigpars_qdep ++ [sigmk.1; sigmk.2] in
  mret (pars, sigpars).

(** [wisper_sig_formula(q, d, pars)]. *)
Definition wisper_sig_formula (q d : operand) (pars : list float) : outcome operand :=
  p0 ← index pars 0; p1 ← index pars 1; p2 ← index pars 2;
  p3 ← index pars 3; p4 ← index pars 4; p5 ← index pars 5;
  mret (Scalar p0 + Scalar p1 * np_log q + Scalar p2 * np_log q ** Num 2
        + Scalar p3 * np_log q ** Num 3 + Scalar p4 * np_log q ** Num 4
        + Scalar p5 * d)%op.

(** [wisper_uncertainties_with_fit()], given the parsed fit table. *)
Definition wisper_uncertainties_with_fit (pars_qdep : qdep_table) : io unit :=
  let '(q, d) := meshgrid (linspace 1500 22000 100) (linspace (-300) (-60) 150) in
  let std_absoffset := Num 1 in
  calparams ← lift (get_calparams pars_qdep "D" std_absoffset);
  results ← wisper_uncertainties_MC d q calparams.1 calparams.2 None;
  sigWISP2_D ← lift (index results 1);
  parsD_fit2 ← fit_poly (flatten q) (flatten d) (flatten sigWISP2_D);
  _ ← lift (wisper_sig_formula q d (map snd parsD_fit2));
  mret tt.

End Uncertainty.

(** The cell of a frame at a column and a row. *)
Definition cell (data : gmap string Series) (name : string) (i : nat)
    : option float :=
  s ← data !! name; s !! i.

(** A cell is missing when it is not-a-number or carries the flag. *)
Definition is_missing (v : float) : Prop := v = NaN \/ v = Num missing_flag.

(** ** Formulas as the specification writes them

    These follow the specification's wording, sample by sample, to be
    compared with the functions embedded from the source. *)

(** fullCalibration: [m*(d - a*(ln(50000) - ln(q))^b) + k]. *)
Definition spec_fullCalibration (d q a b m k : float) : float :=
  (m * (d - a * (flog (Num 50000) - flog q) ** b) + k)%flt.

(** The two steps in the other order: absolute calibration first. *)
Definition swapped_fullCalibration (d q a b m k : float) : float :=
  ((m * d + k) - a * (flog (Num 50000) - flog q) ** b)%flt.

(** crossCalibrateIsotopeRatio: the ten-term cubic polynomial in the
    log-humidity and the isotope ratio. *)
Definition spec_crossCalibrateIsotopeRatio
    (c_logq3 c_logq2 c_logq1 c_d1 c_d2 c_d3 c_cross1 c_cross2 c_cross3 const
     logQ delta : float) : float :=
  (c_logq3 * logQ ** Num 3 + c_logq2 * logQ ** Num 2 + c_logq1 * logQ
   + c_d1 * delta + c_d2 * delta ** Num 2 + c_d3 * delta ** Num 3
   + c_cross1 * (delta * logQ) + c_cross2 * (delta * logQ) ** Num 2
   + c_cross3 * (delta * logQ) ** Num 3 + const)%flt.

(** The polynomial with the coefficients of a row of the dD sheet, and of
    the d18O sheet. *)
Definition poly_dD (p : row_dD) : float -> float -> float :=
  spec_crossCalibrateIsotopeRatio
    (pD_logq3 p) (pD_logq2 p) (pD_logq1 p) (pD_dD1 p) (pD_dD2 p) (pD_dD3 p)
    (pD_cross1 p) (pD_cross2 p) (pD_cross3 p) (pD_const p).

Definition poly_d18O (p : row_d18O) : float -> float -> float :=
  spec_crossCalibrateIsotopeRatio
    (pO_logq3 p) (pO_logq2 p) (pO_logq1 p) (pO_d18O1 p) (pO_d18O2 p)
    (pO_d18O3 p) (pO_cross1 p) (pO_cross2 p) (pO_cross3 p) (pO_const p).

(** The observations of a stretch of a column: its values that are
    present. *)
Definition observations (l : Series) : list R :=
  omap (fun v => match v with Num r => Some r | _ => None end) l.

Definition Rsum (xs : list R) : R := foldr Rplus 0 xs.

(** A column without infinite values: numbers and [NaN] only. *)
Definition no_infinity (s : Series) : Prop :=
  Forall (fun v => is_inf v = false) s.

(** The state of the sliding mean for a given window content, in a column
    without infinite values. *)
Definition window_state (win : Series) : mean_state :=
  MeanState (length (observations win)) (Num (Rsum (observations win))).

(** The arithmetic mean of the samples [i-window+1 .. i] of a column, when
    there are [window] of them and all are present; missing otherwise. *)
Definition spec_movingAverage (window : nat) (s : Series) (i : nat) : float :=
  let win := drop (S i - window) (take (S i) s) in
  if decide (length (observations win) = window ∧ 0 < window)%nat
  then Num (Rsum (observations win) / INR window)
  else NaN.

(** The frame a flight of [pic2_cal16] writes, assignment by assignment,
    when the frame read is [raw] and [dD], [q], [dO] are its columns
    [dD_tot2], [h2o_tot2], [d18O_tot2]. *)
Definition cal16_frame (e : locals16) (raw : gmap string Series)
    (dD q dO : Series) : gmap string Series :=
  let dD' := map flag_to_nan dD in
  let q' := map flag_to_nan q in
  let dO' := map flag_to_nan dO in
  <["h2o_tot2" := map (fun v => mq e * v + kq e)%flt q']>
  (<["d18O_tot2" := map (fun v => m18O e * v + k18O e)%flt
       (zip_with (fun dv qv =>
          dv - a18O e * (flog (Num 50000) - flog qv) ** b18O e)%flt dO' q')]>
  (<["dD_tot2" := map (fun v => mD e * v + kD e)%flt
       (zip_with (fun dv qv =>
          dv - aD e * (flog (Num 50000) - flog qv) ** bD e)%flt dD' q')]>
  (<["d18O_tot2" := zip_with (fun dv qv =>
          dv - a18O e * (flog (Num 50000) - flog qv) ** b18O e)%flt dO' q']>
  (<["dD_tot2" := zip_with (fun dv qv =>
          dv - aD e * (flog (Num 50000) - flog qv) ** bD e)%flt dD' q']>
  (replace_flag raw))))).

(** The frame the [if testplots:] block leaves: the four isotope columns
    smoothed ([dD1], [dO1] being the columns [dD_tot1], [d18O_tot1]). *)
Definition plotted_frame (data : gmap string Series) (dD1 dD dO1 dO : Series)
    : gmap string Series :=
  <["d18O_tot2" := rolling_mean 10 dO]>
  (<["d18O_tot1" := rolling_mean 10 dO1]>
  (<["dD_tot2" := rolling_mean 10 dD]>
  (<["dD_tot1" := rolling_mean 10 dD1]> data))).

(** The three columns a flight of [pic2_cal1718] overwrites, computed from
    the humidity [q] and the isotope columns [dD], [dO] as read (flags
    replaced). *)
Definition cal1718_columns (ph : row_h2o) (pD : row_dD) (pO : row_d18O)
    (q dD dO : Series) (data : gmap string Series) : gmap string Series :=
  <["d18O_tot2" := zip_with (poly_d18O pO) (map flog q) (rolling_mean 10 dO)]>
  (<["dD_tot2" := zip_with (poly_dD pD) (map flog q) (rolling_mean 10 dD)]>
  (<["h2o_tot2" := map (fun v => p_h2o_tot2 ph * v)%flt q]> data)).

(** The observations of the surrogate fit: humidity, isotope ratio and
    standard deviation, point by point. *)
Abbreviation fit_point := (float * float * float)%type.

Definition point_logq (r : fit_point) : float := flog r.1.1.
Definition point_d (r : fit_point) : float := r.1.2.
Definition point_sig (r : fit_point) : float := r.2.

(** The points the fit keeps: those where the log-humidity, the isotope
    ratio and the standard deviation are all present. *)
Definition fit_points (q d sig_d : Series) : list fit_point :=
  filter (fun r => is_nan (point_logq r) = false ∧ is_nan (point_d r) = false
                   ∧ is_nan (point_sig r) = false)
         (zip (zip q d) sig_d).

(** The six predictors of the surrogate model
    [const + a1*ln(q) + a2*ln(q)^2 + a3*ln(q)^3 + a4*ln(q)^4 + a5*delta],
    [iso] labelling the isotope ratio. *)
Definition spec_design (iso : string) (points : list fit_point)
    : list (string * Series) :=
  [("const", map (fun _ => Num 1) points);
   ("logq", map point_logq points);
   ("logq^2", map (fun r => point_logq r ** Num 2)%flt points);
   ("logq^3", map (fun r => point_logq r ** Num 3)%flt points);
   ("logq^4", map (fun r => point_logq r ** Num 4)%flt points);
   (iso, map point_d points)].

(** A point with a predictor that is plus infinity: its log-humidity is
    infinite (at a zero humidity it is minus infinity, and its even powers
    are plus infinity) or its isotope ratio is plus infinity. *)
Definition infinite_predictor (r : fit_point) : bool :=
  is_inf (point_logq r) || is_pinf (point_d r).

(** The points statsmodels refuses: one has a predictor that is plus
    infinity, or the isotope ratio is minus infinity at all of them. *)
Definition refused_points (points : list fit_point) : bool :=
  existsb infinite_predictor points
  || forallb (fun r => is_ninf (point_d r)) points.

(** A point whose log-humidity and isotope ratio are numbers. *)
Definition finite_predictors (r : fit_point) : bool :=
  is_finite (point_logq r) && is_finite (point_d r).

(** [fit.params] for the six predictors: the coefficients of the solver,
    labelled by predictor. *)
Definition fit_params (iso : string) (sol : ols_solution) : list (string * float) :=
  [("const", coefficient sol 0); ("logq", coefficient sol 1);
   ("logq^2", coefficient sol 2); ("logq^3", coefficient sol 3);
   ("logq^4", coefficient sol 4); (iso, coefficient sol 5)].

(** The error that ends the first flight when no parameter is bound. *)
Definition first_flight_error (date : string) (w : world) : exn :=
  let path := path_timesync_dir +:+ "WISPER_" +:+ date +:+ "_time-sync.ict" in
  match files w !! path with
  | None => FileNotFoundError path
  | Some raw =>
      match raw !! "dD_tot2" with
      | None => KeyError (KStr "dD_tot2")
      | Some _ =>
          match raw !! "h2o_tot2" with
          | None => KeyError (KStr "h2o_tot2")
          | Some _ => UnboundLocalError "aD"
          end
      end
  end.

(** ** Sample data *)

(** A two-sample flight: the second humidity is flagged missing. *)
Definition sample_frame : gmap string Series :=
  <["dD_tot2" := [Num (-70); Num (-100)]]>
  (<["h2o_tot2" := [Num 15000; Num (-9999)]]>
  (<["d18O_tot2" := [Num (-10); Num (-14)]]>
  (<["Start_UTC" := [Num 36000; Num 36001]]> ∅))).

Definition sample_world : world :=
  World [] {[ "../WISPER_data/time_sync/WISPER_20160830_time-sync.ict"
              := sample_frame ]} 0.

(** A flight file of 2017 and a parameter workbook with a row for that
    year. *)
Definition sample_world_2017 : world :=
  World [] {[ "../WISPER_data/pic1_cal/WISPER_20170815_pic1-cal.ict"
              := sample_frame ]} 0.

Definition sample_tables : caltable :=
  Caltable
    {[ 2017%Z := RowH2O (Num 0.9) ]}
    {[ 2017%Z := RowDD (Num 0) (Num 0) (Num 0) (Num 1) (Num 0) (Num 0)
                       (Num 0) (Num 0) (Num 0) (Num 2) ]}
    {[ 2017%Z := RowD18O (Num 0) (Num 0) (Num 0) (Num 1) (Num 0) (Num 0)
                         (Num 0) (Num 0) (Num 0) (Num 0.5) ]}.

(** Two flight files of 2016. *)
Definition sample_world_two_flights : world :=
  World []
    (<["../WISPER_data/time_sync/WISPER_20160830_time-sync.ict" := sample_frame]>
       {[ "../WISPER_data/time_sync/WISPER_20160831_time-sync.ict"
          := sample_frame ]})
    0.

(** A stand-in for the regression library that labels one coefficient per
    predictor, and three grid points, the second without humidity. *)
Definition sample_OLS (endog : Series) (exog : list (string * Series))
    : outcome ols_solution :=
  Returns (OLSSolution (fun _ => Num 0) (Num 0.5)).

Definition sample_q : Series := [Num 1500; NaN; Num 22000].
Definition sample_d : Series := [Num (-300); Num (-180); Num (-60)].
Definition sample_sig : Series := [Num 9; Num 6; Num 3].

(** ** Files of a run *)

(** The file a flight is read from and the file it is written to. *)
Definition timesync_file (date : string) : string :=
  path_timesync_dir +:+ "WISPER_" +:+ date +:+ "_time-sync.ict".

Definition pic1cal_file (date : string) : string :=
  path_pic1cal_dir +:+ "WISPER_" +:+ date +:+ "_pic1-cal.ict".

Definition pic2cal_file (date : string) : string :=
  path_pic2cal_dir +:+ "WISPER_" +:+ date +:+ "_pic2-cal.ict".

(** The frame a flight of [pic2_cal16] writes for the frame it reads, when
    that holds the three Picarro-2 columns. *)
Definition calibrated16 (e : locals16) (raw : gmap string Series)
    : option (gmap string Series) :=
  dD ← raw !! "dD_tot2"; q ← raw !! "h2o_tot2"; dO ← raw !! "d18O_tot2";
  Some (cal16_frame e raw dD q dO).

(** The frame a flight of [pic2_cal1718] writes for the frame it reads, when
    that holds the columns the flight reads. *)
Definition calibrated1718 (ph : row_h2o) (pD : row_dD) (pO : row_d18O)
    (testplots : bool) (raw : gmap string Series)
    : option (gmap string Series) :=
  q ← raw !! "h2o_tot2"; dD ← raw !! "dD_tot2"; dO ← raw !! "d18O_tot2";
  data ← (if testplots then
            _ ← raw !! "h2o_tot1"; dD1 ← raw !! "dD_tot1";
            dO1 ← raw !! "d18O_tot1"; _ ← raw !! "Start_UTC";
            Some (plotted_frame (replace_flag raw)
                    (map flag_to_nan dD1) (map flag_to_nan dD)
                    (map flag_to_nan dO1) (map flag_to_nan dO))
          else Some (replace_flag raw));
  Some (cal1718_columns ph pD pO (map flag_to_nan q) (map flag_to_nan dD)
          (map flag_to_nan dO) data).

(** What a flight writes in a given world: the result for the frame found
    in its input file. *)
Definition flight_output (infile : string -> string)
    (result : gmap string Series -> option (gmap string Series))
    (w : world) (date : string) : option (gmap string Series) :=
  raw ← files w !! infile date; result raw.

(** The error that ends a flight of [pic2_cal16] with bound parameters
    when its file or one of its three columns is missing. *)
Definition flight_error16 (w : world) (date : string) : exn :=
  match files w !! timesync_file date with
  | None => FileNotFoundError (timesync_file date)
  | Some raw =>
      match raw !! "dD_tot2" with
      | None => KeyError (KStr "dD_tot2")
      | Some _ =>
          match raw !! "h2o_tot2" with
          | None => KeyError (KStr "h2o_tot2")
          | Some _ => KeyError (KStr "d18O_tot2")
          end
      end
  end.

(** The coefficients of a row of the dD sheet and of the d18O sheet, in
    the order the polynomials use them. *)
Definition coefficients_dD (p : row_dD) : list float :=
  [pD_logq3 p; pD_logq2 p; pD_logq1 p; pD_dD1 p; pD_dD2 p; pD_dD3 p;
   pD_cross1 p; pD_cross2 p; pD_cross3 p; pD_const p].

Definition coefficients_d18O (p : row_d18O) : list float :=
  [pO_logq3 p; pO_logq2 p; pO_logq1 p; pO_d18O1 p; pO_d18O2 p; pO_d18O3 p;
   pO_cross1 p; pO_cross2 p; pO_cross3 p; pO_const p].

(** The humidity of row [i] is usable: a positive number. *)
Definition humidity_present (q : Series) (i : nat) : Prop :=
  exists x : R, q !! i = Some (Num x) /\ 0 < x.

(** The ten samples [i-9 .. i] of a column exist and each is a number
    other than the flag. *)
Definition window_present (s : Series) (i : nat) : Prop :=
  (9 ≤ i)%nat /\
  forall j, (i - 9 ≤ j ≤ i)%nat ->
    exists r, s !! j = Some (Num r) /\ r <> missing_flag.

(** A flight file that also holds the Picarro-1 columns, and a world with
    it. *)
Definition sample_frame_plots : gmap string Series :=
  <["h2o_tot1" := [Num 15100; Num 14000]]>
  (<["dD_tot1" := [Num (-71); Num (-99)]]>
  (<["d18O_tot1" := [Num (-10.5); Num (-13.5)]]> sample_frame)).

Definition sample_world_plots : world :=
  World [] {[ "../WISPER_data/pic1_cal/WISPER_20170815_pic1-cal.ict"
              := sample_frame_plots ]} 0.

(** Every flight file of the 2016 dates of the script. *)
Definition sample_world_2016 : world :=
  World []
    (list_to_map
       (map (fun d => (timesync_file d, sample_frame))
            (dates2016_good_mako ++ dates2016_good_gulper)))
    0.

(** The value of the surrogate model at one observation: the parameters
    times the predictors, term by term in the order of the predictors. *)
Definition model_value (pars row : list float) : float :=
  foldl (fun acc pr => acc + pr.1 * pr.2)%flt (Num 0) (zip pars row).

(** Row [i] of a design: the value of each predictor at observation [i]. *)
Definition design_row (design : list (string * Series)) (i : nat) : list float :=
  map (fun c => default NaN (c.2 !! i)) design.

(** A fit table with one line for Mako in 2016. *)
Definition sample_qdep_table : qdep_table :=
  QdepTable ["picarro"; "year"; "aD"; "bD"; "a18O"; "b18O";
             "sig_aD"; "sig_bD"; "sig_a18O"; "sig_b18O"]
    [FitRow "Gulper" 2016 ∅;
     FitRow "Mako" 2016
       (<["aD" := Num (-0.365)]> (<["bD" := Num 3.031]>
       (<["a18O" := Num (-0.00581)]> (<["b18O" := Num 4.961]>
       (<["sig_aD" := Num 0.02]> (<["sig_bD" := Num 0.1]>
       (<["sig_a18O" := Num 0.001]> (<["sig_b18O" := Num 0.2]> ∅))))))))].

(** A frame of [n] rows: every column has [n] cells. *)
Definition has_rows (n : nat) (data : gmap string Series) : Prop :=
  map_Forall (fun _ s => length s = n) data.

(** A fit table whose only line is for Gulper. *)
Definition sample_qdep_table_gulper : qdep_table :=
  QdepTable ["picarro"; "year"; "aD"; "bD"; "sig_aD"; "sig_bD"]
    [FitRow "Gulper" 2016
       (<["aD" := Num 0.035]> (<["bD" := Num 4.456]>
       (<["sig_aD" := Num 0.01]> (<["sig_bD" := Num 0.1]> ∅))))].

(** A flight of eleven samples, the second humidity flagged missing, and
    cross-calibration sheets whose polynomials depend on the log-humidity
    and on the isotope ratio. *)
Definition sample_long_h2o : Series :=
  [Num 15000; Num (-9999); Num 15200; Num 15300; Num 15400; Num 15500;
   Num 15600; Num 15700; Num 15800; Num 15900; Num 16000].

Definition sample_long_dD : Series :=
  [Num (-100); Num (-71); Num (-72); Num (-73); Num (-74); Num (-75);
   Num (-76); Num (-77); Num (-78); Num (-79); Num (-80)].

Definition sample_long_d18O : Series :=
  [Num (-14); Num (-10.1); Num (-10.2); Num (-10.3); Num (-10.4);
   Num (-10.5); Num (-10.6); Num (-10.7); Num (-10.8); Num (-10.9);
   Num (-11)].

Definition sample_frame_long : gmap string Series :=
  <["dD_tot2" := sample_long_dD]>
  (<["h2o_tot2" := sample_long_h2o]>
  (<["d18O_tot2" := sample_long_d18O]> ∅)).

Definition sample_world_long : world :=
  World [] {[ "../WISPER_data/pic1_cal/WISPER_20170817_pic1-cal.ict"
              := sample_frame_long ]} 0.

Definition sample_tables_logq : caltable :=
  Caltable
    {[ 2017%Z := RowH2O (Num 0.9) ]}
    {[ 2017%Z := RowDD (Num 0) (Num 0) (Num 1) (Num 1) (Num 0) (Num 0)
                       (Num 0) (Num 0) (Num 0) (Num 2) ]}
    {[ 2017%Z := RowD18O (Num 0) (Num 0) (Num 1) (Num 1) (Num 0) (Num 0)
                         (Num 0) (Num 0) (Num 0) (Num 0.5) ]}.

(** * Properties *)

(** ** Arithmetic of doubles *)

Lemma fpow_zero (x : float) : (x ** Num 0)%flt = Num 1.
Proof.
  unfold fpow. destruct x; destruct (Req_dec_T 0 0); congruence.
Qed.

Lemma is_integer_IZR (z : Z) : is_integer (IZR z) = true.
Proof.
  unfold is_integer.
  assert (H : Int_part (IZR z) = z).
  { symmetry. apply Int_part_spec. lra. }
  rewrite H. destruct (Req_dec_T (IZR z) (IZR z)); congruence.
Qed.

Lemma Int_part_IZR (z : Z) : Int_part (IZR z) = z.
Proof. symmetry. apply Int_part_spec. lra. Qed.

Lemma fpow_one (x : float) : (x ** Num 1)%flt = x.
Proof.
  unfold fpow. destruct x as [|a|[|]].
  - destruct (Req_dec_T 1 0); [lra | reflexivity].
  - destruct (Req_dec_T 1 0); [lra |].
    destruct (Rlt_dec 0 a).
    + f_equal. apply Rpower_1. assumption.
    + destruct (Req_dec_T a 0).
      * destruct (Rlt_dec 0 1); [congruence | lra].
      * rewrite (is_integer_IZR 1), (Int_part_IZR 1). simpl.
        f_equal. rewrite Rpower_1; lra.
  - destruct (Req_dec_T 1 0); [lra |].
    destruct (Rlt_dec 0 1); [|lra].
    rewrite (is_integer_IZR 1), (Int_part_IZR 1). reflexivity.
  - destruct (Req_dec_T 1 0); [lra |].
    destruct (Rlt_dec 0 1); [reflexivity | lra].
Qed.

Lemma fpow_nan_l (b : R) : b <> 0 -> (NaN ** Num b)%flt = NaN.
Proof.
  intros Hb. unfold fpow. destruct (Req_dec_T b 0); [contradiction | reflexivity].
Qed.

Lemma fadd_nan_l (y : float) : (NaN + y)%flt = NaN.
Proof. reflexivity. Qed.

Lemma fadd_nan_r (x : float) : (x + NaN)%flt = NaN.
Proof. destruct x; reflexivity. Qed.

Lemma fsub_nan_l (y : float) : (NaN - y)%flt = NaN.
Proof. reflexivity. Qed.

Lemma fsub_nan_r (x : float) : (x - NaN)%flt = NaN.
Proof. destruct x; reflexivity. Qed.

Lemma fmul_nan_l (y : float) : (NaN * y)%flt = NaN.
Proof. reflexivity. Qed.

Lemma fmul_nan_r (x : float) : (x * NaN)%flt = NaN.
Proof. destruct x; reflexivity. Qed.

Lemma flog_pos (q : R) : 0 < q -> flog (Num q) = Num (ln q).
Proof.
  intros Hq. unfold flog. destruct (Rlt_dec 0 q); [reflexivity | contradiction].
Qed.

Lemma is_nan_fpow_IZR (x : float) (z : Z) :
  (0 < z)%Z -> is_nan (x ** Num (IZR z))%flt = is_nan x.
Proof.
  intros Hz. assert (Hz' : 0 < IZR z) by (apply IZR_lt; lia).
  unfold fpow. destruct (Req_dec_T (IZR z) 0); [lra |].
  destruct x as [|a|[|]]; [reflexivity | | |].
  - destruct (Rlt_dec 0 a); [reflexivity |].
    destruct (Req_dec_T a 0).
    + destruct (Rlt_dec 0 (IZR z)); [reflexivity | contradiction].
    + rewrite is_integer_IZR. destruct (Z.odd _); reflexivity.
  - destruct (Rlt_dec 0 (IZR z)); [|contradiction].
    destruct (_ && _); reflexivity.
  - destruct (Rlt_dec 0 (IZR z)); [reflexivity | contradiction].
Qed.

Lemma is_finite_fpow_IZR (x : float) (z : Z) :
  (0 < z)%Z -> is_finite (x ** Num (IZR z))%flt = is_finite x.
Proof.
  intros Hz. assert (Hz' : 0 < IZR z) by (apply IZR_lt; lia).
  unfold fpow. destruct (Req_dec_T (IZR z) 0); [lra |].
  destruct x as [|a|[|]]; [reflexivity | | |].
  - destruct (Rlt_dec 0 a); [reflexivity |].
    destruct (Req_dec_T a 0).
    + destruct (Rlt_dec 0 (IZR z)); [reflexivity | contradiction].
    + rewrite is_integer_IZR. destruct (Z.odd _); reflexivity.
  - destruct (Rlt_dec 0 (IZR z)); [|contradiction].
    destruct (_ && _); reflexivity.
  - destruct (Rlt_dec 0 (IZR z)); [reflexivity | contradiction].
Qed.

(** ** Position-wise reading of operands *)

Lemma at_index_broadcast f (x y : operand) (i : nat) :
  at_index (broadcast f x y) i =
    a ← at_index x i; b ← at_index y i; Some (f a b).
Proof.
  destruct x as [a|s], y as [b|t]; simpl.
  - reflexivity.
  - rewrite list_lookup_fmap. destruct (t !! i); reflexivity.
  - rewrite list_lookup_fmap. destruct (s !! i); reflexivity.
  - apply lookup_zip_with.
Qed.

Lemma at_index_ufunc f (x : operand) (i : nat) :
  at_index (ufunc f x) i = f <$> at_index x i.
Proof.
  destruct x as [a|s]; simpl; [reflexivity | apply list_lookup_fmap].
Qed.

(** ** The humidity-dependence correction at exponent zero *)

Lemma q_dep_cal_exponent_zero (d q a : float) :
  q_dep_cal d q a (Num 0) = Scalar (d - a * Num 1)%flt.
Proof.
  unfold q_dep_cal, qdep_correction, np_log. cbn [broadcast ufunc].
  rewrite fpow_zero. reflexivity.
Qed.

(** C7, as stated, fails: with [b = 0] and [a = 1] the correction of
    [d = 0] at [q = 1] is [-1], not [0]. *)
Lemma C7_counterexample :
  q_dep_cal (Num 0) (Num 1) (Num 1) (Num 0) = Scalar (Num (-1)) /\
  q_dep_cal (Num 0) (Num 1) (Num 1) (Num 0) <> Scalar (Num 0).
Proof.
  rewrite q_dep_cal_exponent_zero. cbn [fmul fsub].
  split.
  - do 2 f_equal. lra.
  - intros H. injection H as H. lra.
Qed.

(** C7, amended: for every humidity [q > 0], delta value [d] and coefficient
    [a], the humidity-dependence correction with exponent [b = 0] returns
    [d - a]; with [a = 0] it returns [d] itself. *)
Theorem C7_exponent_zero_subtracts_a (q d a : R) :
  0 < q ->
  q_dep_cal (Num d) (Num q) (Num a) (Num 0) = Scalar (Num (d - a)) /\
  (a = 0 -> q_dep_cal (Num d) (Num q) (Num a) (Num 0) = Scalar (Num d)).
Proof.
  intros _. rewrite q_dep_cal_exponent_zero. cbn [fmul fsub].
  replace (d - a * 1) with (d - a) by lra.
  split; [reflexivity |].
  intros ->. do 2 f_equal. lra.
Qed.

Lemma C7_exponent_zero_witness :
  0 < 15000 /\
  q_dep_cal (Num (-70)) (Num 15000) (Num (-0.365)) (Num 0)
    = Scalar (Num (-70 - -0.365)).
Proof.
  split; [lra |].
  apply (C7_exponent_zero_subtracts_a 15000 (-70) (-0.365)). lra.
Defined.

(** ** Running effectful code *)

Lemma run_bind {A B} (m : io A) (k : A -> io B) w a w' :
  m w = (Returns a, w') -> (m ≫= k) w = k a w'.
Proof. intros H. unfold mbind, io_bind. rewrite H. reflexivity. Qed.

Lemma run_bind_raises {A B} (m : io A) (k : A -> io B) w e w' :
  m w = (Raises e, w') -> (m ≫= k) w = (Raises e, w').
Proof. intros H. unfold mbind, io_bind. rewrite H. reflexivity. Qed.

Lemma run_getitem (data : gmap string Series) name s w :
  data !! name = Some s -> getitem data name w = (Returns s, w).
Proof. intros H. unfold getitem. rewrite H. reflexivity. Qed.

Lemma run_local name field e w :
  local name field (Some e) w = (Returns (Scalar (field e)), w).
Proof. reflexivity. Qed.

Lemma run_read_csv path df w :
  files w !! path = Some df -> read_csv path w = (Returns df, w).
Proof. intros H. unfold read_csv. rewrite H. reflexivity. Qed.

Lemma lookup_replace_flag (data : gmap string Series) name :
  replace_flag data !! name = map flag_to_nan <$> data !! name.
Proof. unfold replace_flag. apply lookup_fmap. Qed.

(** ** The full calibration, column by column *)

Lemma fullcal_columns (d q : Series) (a b m k : float) :
  abscal_line (q_dep_cal (Vector d) (Vector q) a b) m k =
    Vector (zip_with (fun dv qv => spec_fullCalibration dv qv a b m k) d q).
Proof.
  unfold abscal_line, q_dep_cal, qdep_correction, np_log.
  cbn [broadcast ufunc]. f_equal.
  apply list_eq. intros i.
  rewrite !list_lookup_fmap, !lookup_zip_with, !list_lookup_fmap.
  destruct (d !! i) as [dv|]; [|reflexivity].
  destruct (q !! i) as [qv|]; reflexivity.
Qed.

Lemma abscal_column (x : Series) (m k : float) :
  abscal_line (Vector x) m k = Vector (map (fun v => m * v + k)%flt x).
Proof.
  unfold abscal_line. cbn [broadcast]. f_equal.
  rewrite map_map. reflexivity.
Qed.

Lemma q_dep_cal_column (d q : Series) (a b : float) :
  q_dep_cal (Vector d) (Vector q) a b =
    Vector (zip_with (fun dv qv =>
              dv - a * (flog (Num 50000) - flog qv) ** b)%flt d q).
Proof.
  unfold q_dep_cal, qdep_correction, np_log.
  cbn [broadcast ufunc]. f_equal.
  apply list_eq. intros i.
  rewrite !lookup_zip_with, !list_lookup_fmap.
  destruct (d !! i) as [dv|]; [|reflexivity].
  destruct (q !! i) as [qv|]; reflexivity.
Qed.

Lemma cal16_flight_returns e date w (raw : gmap string Series) dD q dO :
  files w !! (path_timesync_dir +:+ "WISPER_" +:+ date +:+ "_time-sync.ict")
    = Some raw ->
  raw !! "dD_tot2" = Some dD ->
  raw !! "h2o_tot2" = Some q ->
  raw !! "d18O_tot2" = Some dO ->
  cal16_flight (Some e) date w =
    (Returns tt,
     World (stdout w ++ [Text date])
           (<[path_pic2cal_dir +:+ "WISPER_" +:+ date +:+ "_pic2-cal.ict"
              := cal16_frame e raw dD q dO]> (files w))
           (rng w)).
Proof.
  intros Hfile HdD Hq HdO. unfold cal16_flight.
  erewrite run_bind by reflexivity.
  erewrite run_bind by (apply run_read_csv; exact Hfile).
  erewrite run_bind
    by (apply run_getitem; rewrite lookup_replace_flag, HdD; reflexivity).
  erewrite run_bind
    by (apply run_getitem; rewrite lookup_replace_flag, Hq; reflexivity).
  do 2 (erewrite run_bind by apply run_local).
  rewrite q_dep_cal_column. cbn [setitem].
  erewrite run_bind
    by (apply run_getitem; rewrite lookup_insert_ne by done;
        rewrite lookup_replace_flag, HdO; reflexivity).
  erewrite run_bind
    by (apply run_getitem; rewrite lookup_insert_ne by done;
        rewrite lookup_replace_flag, Hq; reflexivity).
  do 2 (erewrite run_bind by apply run_local).
  rewrite q_dep_cal_column. cbn [setitem].
  erewrite run_bind
    by (apply run_getitem; rewrite lookup_insert_ne by done;
        apply lookup_insert_eq).
  do 2 (erewrite run_bind by apply run_local).
  rewrite abscal_column. cbn [setitem].
  erewrite run_bind
    by (apply run_getitem; rewrite lookup_insert_ne by done;
        apply lookup_insert_eq).
  do 2 (erewrite run_bind by apply run_local).
  rewrite abscal_column. cbn [setitem].
  erewrite run_bind
    by (apply run_getitem; rewrite !lookup_insert_ne by done;
        rewrite lookup_replace_flag, Hq; reflexivity).
  do 2 (erewrite run_bind by apply run_local).
  rewrite abscal_column. cbn [setitem].
  reflexivity.
Qed.

Lemma map_zip_with_compose {A B C D} (f : C -> D) (g : A -> B -> C)
    (l : list A) (k : list B) :
  map f (zip_with g l k) = zip_with (fun a b => f (g a b)) l k.
Proof.
  revert k. induction l as [|a l IH]; intros [|b k]; simpl; [done..|].
  by rewrite IH.
Qed.

Lemma cal16_frame_dD e (raw : gmap string Series) dD q dO :
  cal16_frame e raw dD q dO !! "dD_tot2" =
    Some (zip_with (fun dv qv =>
            spec_fullCalibration dv qv (aD e) (bD e) (mD e) (kD e))
          (map flag_to_nan dD) (map flag_to_nan q)).
Proof.
  unfold cal16_frame. rewrite !lookup_insert_ne by done.
  rewrite lookup_insert_eq, map_zip_with_compose. reflexivity.
Qed.

Lemma cal16_frame_d18O e (raw : gmap string Series) dD q dO :
  cal16_frame e raw dD q dO !! "d18O_tot2" =
    Some (zip_with (fun dv qv =>
            spec_fullCalibration dv qv (a18O e) (b18O e) (m18O e) (k18O e))
          (map flag_to_nan dO) (map flag_to_nan q)).
Proof.
  unfold cal16_frame. rewrite lookup_insert_ne by done.
  rewrite lookup_insert_eq, map_zip_with_compose. reflexivity.
Qed.

Lemma cal16_frame_h2o e (raw : gmap string Series) dD q dO :
  cal16_frame e raw dD q dO !! "h2o_tot2" =
    Some (map (fun v => mq e * v + kq e)%flt (map flag_to_nan q)).
Proof. unfold cal16_frame. apply lookup_insert_eq. Qed.

Lemma cal16_frame_other e (raw : gmap string Series) dD q dO name :
  name ≠ "dD_tot2" -> name ≠ "h2o_tot2" -> name ≠ "d18O_tot2" ->
  cal16_frame e raw dD q dO !! name = map flag_to_nan <$> raw !! name.
Proof.
  intros H1 H2 H3. unfold cal16_frame.
  rewrite !lookup_insert_ne by done. apply lookup_replace_flag.
Qed.

Lemma pic1_isoratio_fullcal_eq (d q : operand) (a b m k : float) :
  pic1_isoratio_fullcal d q [a; b; m; k] =
    Returns (pic1_cal.abs_cal (pic1_cal.q_dep_cal d q a b) m k).
Proof. reflexivity. Qed.

Lemma swapped_order_differs :
  spec_fullCalibration (Num 0) (Num 1) (Num 1) (Num 0) (Num 2) (Num 0)
    = Num (-2) /\
  swapped_fullCalibration (Num 0) (Num 1) (Num 1) (Num 0) (Num 2) (Num 0)
    = Num (-1).
Proof.
  unfold spec_fullCalibration, swapped_fullCalibration.
  rewrite fpow_zero. cbn [fmul fsub fadd]. split; f_equal; lra.
Qed.

(** C1: the composite calibration corrects for humidity dependence first
    and calibrates absolutely second.  On single values, and with the
    functions of [pic2_cal16] as with [pic1_isoratio_fullcal], the result is
    [m*(d - a*(ln(50000) - ln(q))^b) + k]; the isotope columns a flight of
    [pic2_cal16] writes hold that value sample by sample; and the result is
    not the one of the swapped order, which differs already at
    [d = 0, q = 1, a = 1, b = 0, m = 2, k = 0]. *)
Theorem C1_humidity_correction_then_absolute_calibration
    (e : locals16) (date : string) (w : world) (raw : gmap string Series)
    (dD q dO : Series) (d0 q0 a b m k : float) :
  files w !! (path_timesync_dir +:+ "WISPER_" +:+ date +:+ "_time-sync.ict")
    = Some raw ->
  raw !! "dD_tot2" = Some dD ->
  raw !! "h2o_tot2" = Some q ->
  raw !! "d18O_tot2" = Some dO ->
  abscal_line (q_dep_cal d0 q0 a b) m k
    = Scalar (spec_fullCalibration d0 q0 a b m k) /\
  pic1_isoratio_fullcal d0 q0 [a; b; m; k]
    = Returns (Scalar (spec_fullCalibration d0 q0 a b m k)) /\
  (exists out,
     cal16_flight (Some e) date w =
       (Returns tt,
        World (stdout w ++ [Text date])
              (<[path_pic2cal_dir +:+ "WISPER_" +:+ date +:+ "_pic2-cal.ict"
                 := out]> (files w))
              (rng w)) /\
     out !! "dD_tot2" =
       Some (zip_with (fun dv qv =>
               spec_fullCalibration dv qv (aD e) (bD e) (mD e) (kD e))
             (map flag_to_nan dD) (map flag_to_nan q)) /\
     out !! "d18O_tot2" =
       Some (zip_with (fun dv qv =>
               spec_fullCalibration dv qv (a18O e) (b18O e) (m18O e) (k18O e))
             (map flag_to_nan dO) (map flag_to_nan q))) /\
  abscal_line (q_dep_cal (Num 0) (Num 1) (Num 1) (Num 0)) (Num 2) (Num 0)
    <> Scalar (swapped_fullCalibration
                 (Num 0) (Num 1) (Num 1) (Num 0) (Num 2) (Num 0)).
Proof.
  intros Hfile HdD Hq HdO. repeat split.
  - exists (cal16_frame e raw dD q dO). split; [|split].
    + by apply cal16_flight_returns.
    + apply cal16_frame_dD.
    + apply cal16_frame_d18O.
  - change (abscal_line (q_dep_cal (Num 0) (Num 1) (Num 1) (Num 0)) (Num 2) (Num 0))
      with (Scalar (spec_fullCalibration
                      (Num 0) (Num 1) (Num 1) (Num 0) (Num 2) (Num 0))).
    destruct swapped_order_differs as [-> ->].
    intros H. injection H as H. lra.
Qed.

Lemma C1_witness :
  exists out,
    cal16_flight (Some mako_block) "20160830" sample_world =
      (Returns tt,
       World [Text "20160830"]
             (<["../WISPER_data/pic2_cal/WISPER_20160830_pic2-cal.ict" := out]>
                (files sample_world))
             0) /\
    out !! "dD_tot2" =
      Some [spec_fullCalibration (Num (-70)) (Num 15000)
              (Num (-0.365)) (Num 3.031) (Num 1.056412) (Num (-5.957469));
            spec_fullCalibration (Num (-100)) NaN
              (Num (-0.365)) (Num 3.031) (Num 1.056412) (Num (-5.957469))].
Proof.
  destruct (C1_humidity_correction_then_absolute_calibration
              mako_block "20160830" sample_world sample_frame
              [Num (-70); Num (-100)] [Num 15000; Num (-9999)]
              [Num (-10); Num (-14)]
              (Num (-70)) (Num 15000) (Num (-0.365)) (Num 3.031)
              (Num 1.056412) (Num (-5.957469)))
    as (_ & _ & (out & Hrun & HdD & _) & _).
  - reflexivity.
  - reflexivity.
  - reflexivity.
  - reflexivity.
  - exists out. split; [exact Hrun |].
    rewrite HdD. cbn [map zip_with flag_to_nan].
    unfold missing_flag.
    destruct (Req_dec_T (-70) (-9999)) as [H|_]; [lra |].
    destruct (Req_dec_T (-100) (-9999)) as [H|_]; [lra |].
    destruct (Req_dec_T 15000 (-9999)) as [H|_]; [lra |].
    destruct (Req_dec_T (-9999) (-9999)) as [_|H]; [|lra].
    reflexivity.
Defined.

(** ** The isotope cross-calibration polynomials *)

Ltac lookup_columns :=
  repeat (rewrite lookup_zip_with || rewrite list_lookup_fmap).

Lemma xcal_dD_columns (logq dD : Series) (p : row_dD) :
  xcal_dD (Vector logq) (Vector dD) p = Vector (zip_with (poly_dD p) logq dD).
Proof.
  unfold xcal_dD. cbn [broadcast]. f_equal.
  apply list_eq. intros i. lookup_columns.
  destruct (logq !! i) as [l|]; destruct (dD !! i) as [d|]; try reflexivity.
  cbn [mbind option_bind fmap option_fmap option_map].
  unfold poly_dD, spec_crossCalibrateIsotopeRatio.
  rewrite !fpow_one. reflexivity.
Qed.

Lemma xcal_d18O_columns (logq d18O : Series) (p : row_d18O) :
  xcal_d18O (Vector logq) (Vector d18O) p =
    Vector (zip_with (poly_d18O p) logq d18O).
Proof.
  unfold xcal_d18O. cbn [broadcast ufunc]. f_equal.
  apply list_eq. intros i. lookup_columns.
  destruct (logq !! i) as [l|]; destruct (d18O !! i) as [d|]; try reflexivity.
  cbn [mbind option_bind fmap option_fmap option_map].
  unfold poly_d18O, spec_crossCalibrateIsotopeRatio, fpos.
  rewrite !fpow_one. reflexivity.
Qed.

(** C2: for every log-humidity, isotope ratio and coefficient row, [xcal_dD]
    and [xcal_d18O] return the ten-term cubic polynomial, on single values
    and sample by sample on columns; the unary plus in front of the cubic
    coefficient of [xcal_d18O] changes nothing. *)
Theorem C2_cross_calibration_polynomial :
  (forall (logQ delta : float) (p : row_dD),
     xcal_dD logQ delta p = Scalar (poly_dD p logQ delta)) /\
  (forall (logQ delta : float) (p : row_d18O),
     xcal_d18O logQ delta p = Scalar (poly_d18O p logQ delta)) /\
  (forall (logq dD : Series) (p : row_dD),
     xcal_dD (Vector logq) (Vector dD) p
       = Vector (zip_with (poly_dD p) logq dD)) /\
  (forall (logq d18O : Series) (p : row_d18O),
     xcal_d18O (Vector logq) (Vector d18O) p
       = Vector (zip_with (poly_d18O p) logq d18O)).
Proof.
  split; [|split; [|split]].
  - intros logQ delta p. unfold xcal_dD. cbn [broadcast].
    unfold poly_dD, spec_crossCalibrateIsotopeRatio.
    rewrite !fpow_one. reflexivity.
  - intros logQ delta p. unfold xcal_d18O. cbn [broadcast ufunc].
    unfold poly_d18O, spec_crossCalibrateIsotopeRatio, fpos.
    rewrite !fpow_one. reflexivity.
  - apply xcal_dD_columns.
  - apply xcal_d18O_columns.
Qed.

(** ** The moving average *)

Lemma Rsum_snoc (xs : list R) (r : R) : Rsum (xs ++ [r]) = Rsum xs + r.
Proof.
  unfold Rsum. induction xs as [|x xs IH]; simpl; [lra |]. rewrite IH. lra.
Qed.

Lemma window_state_snoc (win : Series) (v : float) :
  is_inf v = false ->
  window_state (win ++ [v]) = add_mean v (window_state win).
Proof.
  intros Hv. unfold window_state, observations. rewrite omap_app.
  destruct v as [|r|b]; [| |discriminate]; simpl.
  - rewrite app_nil_r. reflexivity.
  - rewrite length_app, Rsum_snoc. simpl. f_equal. lia.
Qed.

Lemma window_state_cons (win : Series) (u : float) :
  is_inf u = false ->
  remove_mean u (window_state (u :: win)) = window_state win.
Proof.
  intros Hu. destruct u as [|r|b]; [reflexivity | |discriminate].
  unfold window_state.
  change (observations (Num r :: win)) with (r :: observations win).
  unfold Rsum. cbn [foldr length remove_mean nobs sum_x Nat.pred fsub].
  do 2 f_equal. lra.
Qed.

Lemma length_observations (l : Series) :
  (length (observations l) ≤ length l)%nat.
Proof.
  induction l as [|[|r|b] l IH]; simpl; lia.
Qed.

Lemma length_observations_nan (l : Series) :
  NaN ∈ l -> (length (observations l) < length l)%nat.
Proof.
  induction l as [|v l IH]; intros Hin.
  - by apply elem_of_nil in Hin.
  - apply elem_of_cons in Hin as [<- | Hin]; simpl.
    + pose proof (length_observations l). lia.
    + specialize (IH Hin). destruct v; simpl; lia.
Qed.

Lemma observations_map_Num (xs : list R) : observations (map Num xs) = xs.
Proof.
  induction xs as [|x xs IH]; simpl; [reflexivity |]. by rewrite IH.
Qed.

Lemma no_infinity_lookup (s : Series) (i : nat) (v : float) :
  no_infinity s -> s !! i = Some v -> is_inf v = false.
Proof. intros Hs Hv. exact (proj1 (Forall_lookup _ s) Hs i v Hv). Qed.

(** What [_prep_values] leaves. *)
Lemma no_infinity_prep_values (s : Series) : no_infinity (prep_values s).
Proof.
  unfold no_infinity, prep_values. apply Forall_fmap, Forall_forall.
  intros [|r|b] _; reflexivity.
Qed.

Lemma length_prep_values (s : Series) : length (prep_values s) = length s.
Proof. apply length_map. Qed.

Lemma observations_prep_values (s : Series) :
  observations (prep_values s) = observations s.
Proof.
  induction s as [|[|r|b] s IH]; simpl; [reflexivity | exact IH | | exact IH].
  unfold observations in *. cbn. by rewrite IH.
Qed.

Lemma window_prep_values (s : Series) (a b : nat) :
  observations (drop a (take b (prep_values s)))
  = observations (drop a (take b s)).
Proof.
  unfold prep_values.
  change (map (fun v => if is_inf v then NaN else v) s)
    with ((fun v => if is_inf v then NaN else v) <$> s).
  rewrite <- fmap_take, <- fmap_drop. apply observations_prep_values.
Qed.

(** In a column without infinite values, the state carried by the pass is
    the state of the current window. *)
Lemma roll_mean_lookup (values : Series) (window minp : nat) :
  (0 < window)%nat -> no_infinity values ->
  forall (todo pre : Series) (j : nat),
    values = pre ++ todo ->
    roll_mean values window minp (length pre) todo
        (window_state (drop (length pre - window) pre)) !! j =
      if decide (j < length todo)%nat
      then Some (calc_mean minp
             (window_state
                (drop (S (length pre + j) - window)
                      (take (S (length pre + j)) values))))
      else None.
Proof.
  intros Hw Hfin todo. induction todo as [|v todo IH]; intros pre j Hvalues.
  - simpl. destruct (decide (j < 0)%nat); [lia | reflexivity].
  - cbn [roll_mean].
    assert (Hv : is_inf v = false).
    { apply (no_infinity_lookup values (length pre)); [exact Hfin |].
      rewrite Hvalues. by rewrite list_lookup_middle. }
    set (st0 := window_state (drop (length pre - window) pre)).
    set (st1 := if decide (window ≤ length pre)%nat
                then match values !! (length pre - window)%nat with
                     | Some u => remove_mean u st0
                     | None => st0
                     end
                else st0).
    assert (Hst : add_mean v st1 =
                  window_state (drop (S (length pre) - window) (pre ++ [v]))).
    { subst st1 st0. destruct (decide (window ≤ length pre)%nat) as [Hle|Hgt].
      - assert (Hlt : (length pre - window < length pre)%nat) by lia.
        destruct (lookup_lt_is_Some_2 pre _ Hlt) as [u Hu].
        assert (Hu' : is_inf u = false).
        { apply (no_infinity_lookup values (length pre - window));
            [exact Hfin |].
          rewrite Hvalues. by rewrite lookup_app_l. }
        rewrite Hvalues, lookup_app_l, Hu by exact Hlt.
        rewrite (drop_S _ _ _ Hu), window_state_cons by exact Hu'.
        replace (S (length pre) - window)%nat
          with (S (length pre - window)) by lia.
        rewrite drop_app_le by lia. symmetry. by apply window_state_snoc.
      - replace (length pre - window)%nat with 0%nat by lia.
        replace (S (length pre) - window)%nat with 0%nat by lia.
        rewrite !drop_0. symmetry. by apply window_state_snoc. }
    assert (Htake : take (S (length pre)) values = pre ++ [v]).
    { rewrite Hvalues. rewrite (cons_middle v pre todo), app_assoc.
      apply take_app_length'. rewrite length_app. simpl. lia. }
    destruct j as [|j].
    + cbn [lookup list_lookup]. rewrite Hst.
      destruct (decide (0 < length (v :: todo))%nat) as [_|H];
        [| simpl in H; lia].
      rewrite Nat.add_0_r, Htake. reflexivity.
    + cbn [lookup list_lookup]. rewrite Hst.
      specialize (IH (pre ++ [v]) j).
      replace (length (pre ++ [v])) with (S (length pre)) in IH
        by (rewrite length_app; simpl; lia).
      etrans; [apply IH; rewrite Hvalues, <- app_assoc; reflexivity |].
      replace (S (length pre) + j)%nat with (length pre + S j)%nat by lia.
      destruct (decide (j < length todo)%nat);
        destruct (decide (S j < length (v :: todo))%nat);
        simpl in *; try lia; reflexivity.
Qed.

(** Position by position, the moving average is the mean of the window, or
    nothing while the window is short of numbers. *)
Lemma rolling_mean_lookup (window : nat) (s : Series) (i : nat) :
  (0 < window)%nat ->
  rolling_mean window s !! i =
    if decide (i < length s)%nat
    then Some (spec_movingAverage window s i)
    else None.
Proof.
  intros Hw. unfold rolling_mean. cbv zeta.
  pose proof (roll_mean_lookup (prep_values s) window window Hw
                (no_infinity_prep_values s) (prep_values s) [] i eq_refl) as H.
  simpl in H. unfold window_state at 1 in H. simpl in H.
  rewrite H, length_prep_values.
  destruct (decide (i < length s)%nat); [|reflexivity].
  f_equal. unfold calc_mean, spec_movingAverage, window_state.
  cbn [nobs sum_x fdiv_count]. rewrite window_prep_values.
  set (win := drop (S i - window) (take (S i) s)).
  pose proof (length_observations win) as Hobs.
  assert (Hlen : (length win ≤ window)%nat).
  { subst win. rewrite length_drop, length_take. lia. }
  destruct (decide (window ≤ length (observations win)
                    ∧ 0 < length (observations win))%nat) as [[H1 H2]|Hn];
    destruct (decide (length (observations win) = window ∧ 0 < window)%nat)
      as [[H3 H4]|Hm]; try reflexivity; try lia.
  rewrite H3. reflexivity.
Qed.

Lemma length_roll_mean values window minp i todo st :
  length (roll_mean values window minp i todo st) = length todo.
Proof.
  revert i st. induction todo as [|v todo IH]; intros i st; simpl;
    [reflexivity |]. by rewrite IH.
Qed.

Lemma length_rolling_mean window (s : Series) :
  length (rolling_mean window s) = length s.
Proof.
  unfold rolling_mean. cbv zeta.
  rewrite length_roll_mean. apply length_prep_values.
Qed.

Lemma rolling_mean_nan (s : Series) (i j : nat) :
  (i < length s)%nat -> (i - 9 ≤ j ≤ i)%nat -> s !! j = Some NaN ->
  rolling_mean 10 s !! i = Some NaN.
Proof.
  intros Hi Hj Hnan. rewrite rolling_mean_lookup by lia.
  destruct (decide (i < length s)%nat); [|lia]. f_equal.
  unfold spec_movingAverage.
  set (win := drop (S i - 10) (take (S i) s)).
  assert (Hin : NaN ∈ win).
  { apply list_elem_of_lookup. exists (j - (S i - 10))%nat.
    subst win. rewrite lookup_drop, lookup_take_lt by lia.
    rewrite <- Hnan. f_equal. lia. }
  apply length_observations_nan in Hin.
  assert (Hlen : (length win ≤ 10)%nat).
  { subst win. rewrite length_drop, length_take. lia. }
  destruct (decide (length (observations win) = 10 ∧ 0 < 10)%nat);
    [lia | reflexivity].
Qed.

Lemma rolling_mean_first_nine (s : Series) (i : nat) :
  (i < length s)%nat -> (i < 9)%nat -> rolling_mean 10 s !! i = Some NaN.
Proof.
  intros Hi H9. rewrite rolling_mean_lookup by lia.
  destruct (decide (i < length s)%nat); [|lia]. f_equal.
  unfold spec_movingAverage.
  set (win := drop (S i - 10) (take (S i) s)).
  pose proof (length_observations win) as Hobs.
  assert (Hlen : (length win ≤ 9)%nat).
  { subst win. rewrite length_drop, length_take. lia. }
  destruct (decide (length (observations win) = 10 ∧ 0 < 10)%nat);
    [lia | reflexivity].
Qed.

(** The mean of a full window of numbers. *)
Lemma rolling_mean_window (s : Series) (i : nat) (xs : list R) :
  (i < length s)%nat -> (9 ≤ i)%nat ->
  take 10 (drop (i - 9) s) = map Num xs ->
  rolling_mean 10 s !! i = Some (Num (Rsum xs / 10)).
Proof.
  intros Hi Hge Hxs. rewrite rolling_mean_lookup by lia.
  destruct (decide (i < length s)%nat); [|lia]. f_equal.
  unfold spec_movingAverage.
  set (win := drop (S i - 10) (take (S i) s)).
  assert (Hwin : win = map Num xs).
  { subst win. rewrite skipn_firstn_comm.
    replace (S i - (S i - 10))%nat with 10%nat by lia.
    replace (S i - 10)%nat with (i - 9)%nat by lia. exact Hxs. }
  assert (Hlen : length xs = 10%nat).
  { apply (f_equal length) in Hxs.
    rewrite length_take, length_drop, length_map in Hxs. lia. }
  rewrite Hwin, observations_map_Num, Hlen.
  destruct (decide (10 = 10 ∧ 0 < 10)%nat) as [_|H]; [|lia].
  do 2 f_equal. simpl. lra.
Qed.

Lemma flag_to_nan_Num (r : R) :
  r <> missing_flag -> flag_to_nan (Num r) = Num r.
Proof.
  intros Hr. unfold flag_to_nan.
  destruct (Req_dec_T r missing_flag); [contradiction | reflexivity].
Qed.

(** The eleven-sample flight: the moving averages at its last row. *)
Lemma sample_long_clean (s : Series) :
  s = sample_long_dD \/ s = sample_long_d18O ->
  map flag_to_nan s = s.
Proof.
  intros [-> | ->]; unfold sample_long_dD, sample_long_d18O; cbn [map];
    rewrite !flag_to_nan_Num by (unfold missing_flag; lra); reflexivity.
Qed.

Lemma sample_long_smoothed :
  rolling_mean 10 (map flag_to_nan sample_long_dD) !! 10%nat
    = Some (Num (Rsum [-71; -72; -73; -74; -75; -76; -77; -78; -79; -80] / 10))
  /\
  rolling_mean 10 (map flag_to_nan sample_long_d18O) !! 10%nat
    = Some (Num (Rsum [-10.1; -10.2; -10.3; -10.4; -10.5;
                       -10.6; -10.7; -10.8; -10.9; -11] / 10)).
Proof.
  rewrite !sample_long_clean by tauto.
  split; apply rolling_mean_window; try (simpl; lia); reflexivity.
Qed.

(** ** A flight of [pic2_cal1718] *)

Lemma run_loc {A} (params : gmap Z A) year row w :
  params !! year = Some row -> loc params year w = (Returns row, w).
Proof. intros H. unfold loc. rewrite H. reflexivity. Qed.

Lemma xcal_h2o_column (q : Series) (p : row_h2o) :
  xcal_h2o (Vector q) p = Vector (map (fun v => p_h2o_tot2 p * v)%flt q).
Proof. reflexivity. Qed.

Lemma cal1718_flight_returns tables year date w (raw : gmap string Series)
    q dD dO ph pD pO :
  files w !! (path_pic1cal_dir +:+ "WISPER_" +:+ date +:+ "_pic1-cal.ict")
    = Some raw ->
  raw !! "h2o_tot2" = Some q ->
  raw !! "dD_tot2" = Some dD ->
  raw !! "d18O_tot2" = Some dO ->
  params_h2o tables !! year = Some ph ->
  params_dD tables !! year = Some pD ->
  params_d18O tables !! year = Some pO ->
  cal1718_flight tables year false date w =
    (Returns tt,
     World (stdout w ++ [Text date])
           (<[path_pic2cal_dir +:+ "WISPER_" +:+ date +:+ "_pic2-cal.ict"
              := cal1718_columns ph pD pO (map flag_to_nan q)
                   (map flag_to_nan dD) (map flag_to_nan dO)
                   (replace_flag raw)]> (files w))
           (rng w)).
Proof.
  intros Hfile Hq HdD HdO Hph HpD HpO. unfold cal1718_flight.
  erewrite run_bind by reflexivity.
  erewrite run_bind by (apply run_read_csv; exact Hfile).
  erewrite run_bind
    by (apply run_getitem; rewrite lookup_replace_flag, Hq; reflexivity).
  erewrite run_bind by (apply run_loc; exact Hph).
  erewrite run_bind
    by (apply run_getitem; rewrite lookup_replace_flag, Hq; reflexivity).
  erewrite run_bind
    by (apply run_getitem; rewrite lookup_replace_flag, HdD; reflexivity).
  erewrite run_bind by (apply run_loc; exact HpD).
  erewrite run_bind
    by (apply run_getitem; rewrite lookup_replace_flag, Hq; reflexivity).
  erewrite run_bind
    by (apply run_getitem; rewrite lookup_replace_flag, HdO; reflexivity).
  erewrite run_bind by (apply run_loc; exact HpO).
  erewrite run_bind by reflexivity.
  unfold np_log. cbn [ufunc].
  rewrite xcal_h2o_column, xcal_dD_columns, xcal_d18O_columns.
  reflexivity.
Qed.

Lemma cal1718_flight_plots_returns tables year date w
    (raw : gmap string Series) q dD dO q1 dD1 dO1 t ph pD pO :
  files w !! (path_pic1cal_dir +:+ "WISPER_" +:+ date +:+ "_pic1-cal.ict")
    = Some raw ->
  raw !! "h2o_tot2" = Some q ->
  raw !! "dD_tot2" = Some dD ->
  raw !! "d18O_tot2" = Some dO ->
  raw !! "h2o_tot1" = Some q1 ->
  raw !! "dD_tot1" = Some dD1 ->
  raw !! "d18O_tot1" = Some dO1 ->
  raw !! "Start_UTC" = Some t ->
  params_h2o tables !! year = Some ph ->
  params_dD tables !! year = Some pD ->
  params_d18O tables !! year = Some pO ->
  cal1718_flight tables year true date w =
    (Returns tt,
     World (stdout w ++ [Text date])
           (<[path_pic2cal_dir +:+ "WISPER_" +:+ date +:+ "_pic2-cal.ict"
              := cal1718_columns ph pD pO (map flag_to_nan q)
                   (map flag_to_nan dD) (map flag_to_nan dO)
                   (plotted_frame (replace_flag raw)
                      (map flag_to_nan dD1) (map flag_to_nan dD)
                      (map flag_to_nan dO1) (map flag_to_nan dO))]>
              (files w))
           (rng w)).
Proof.
  intros Hfile Hq HdD HdO Hq1 HdD1 HdO1 Ht Hph HpD HpO.
  assert (Hplots : forall w0,
            test_plots (replace_flag raw) w0 =
              (Returns (plotted_frame (replace_flag raw)
                          (map flag_to_nan dD1) (map flag_to_nan dD)
                          (map flag_to_nan dO1) (map flag_to_nan dO)), w0)).
  { intros w0. unfold test_plots, vars2smooth. cbn [getitems].
    erewrite run_bind
      by (apply run_getitem; rewrite lookup_replace_flag, Hq; reflexivity).
    do 2 (erewrite run_bind
      by (apply run_getitem; rewrite lookup_replace_flag, Hq1; reflexivity)).
    erewrite run_bind.
    2: { erewrite run_bind
           by (apply run_getitem; rewrite lookup_replace_flag, HdD1; reflexivity).
         erewrite run_bind; [reflexivity |].
         erewrite run_bind
           by (apply run_getitem; rewrite lookup_replace_flag, HdD; reflexivity).
         erewrite run_bind; [reflexivity |].
         erewrite run_bind
           by (apply run_getitem; rewrite lookup_replace_flag, HdO1; reflexivity).
         erewrite run_bind; [reflexivity |].
         erewrite run_bind
           by (apply run_getitem; rewrite lookup_replace_flag, HdO; reflexivity).
         erewrite run_bind; reflexivity. }
    cbn [setitems zip zip_with map foldl fst snd].
    fold (plotted_frame (replace_flag raw) (map flag_to_nan dD1)
            (map flag_to_nan dD) (map flag_to_nan dO1) (map flag_to_nan dO)).
    assert (HUTC : plotted_frame (replace_flag raw) (map flag_to_nan dD1)
                     (map flag_to_nan dD) (map flag_to_nan dO1)
                     (map flag_to_nan dO) !! "Start_UTC"
                   = Some (map flag_to_nan t)).
    { unfold plotted_frame. rewrite !lookup_insert_ne by done.
      rewrite lookup_replace_flag, Ht. reflexivity. }
    repeat first
      [ erewrite run_bind by (apply run_getitem; exact HUTC)
      | erewrite run_bind
          by (apply run_getitem; unfold plotted_frame;
              rewrite ?lookup_insert_ne by done; apply lookup_insert_eq) ].
    reflexivity. }
  unfold cal1718_flight.
  erewrite run_bind by reflexivity.
  erewrite run_bind by (apply run_read_csv; exact Hfile).
  erewrite run_bind
    by (apply run_getitem; rewrite lookup_replace_flag, Hq; reflexivity).
  erewrite run_bind by (apply run_loc; exact Hph).
  erewrite run_bind
    by (apply run_getitem; rewrite lookup_replace_flag, Hq; reflexivity).
  erewrite run_bind
    by (apply run_getitem; rewrite lookup_replace_flag, HdD; reflexivity).
  erewrite run_bind by (apply run_loc; exact HpD).
  erewrite run_bind
    by (apply run_getitem; rewrite lookup_replace_flag, Hq; reflexivity).
  erewrite run_bind
    by (apply run_getitem; rewrite lookup_replace_flag, HdO; reflexivity).
  erewrite run_bind by (apply run_loc; exact HpO).
  erewrite run_bind by apply Hplots.
  unfold np_log. cbn [ufunc].
  rewrite xcal_h2o_column, xcal_dD_columns, xcal_d18O_columns.
  reflexivity.
Qed.

Lemma cal1718_columns_h2o ph pD pO q dD dO (data : gmap string Series) :
  cal1718_columns ph pD pO q dD dO data !! "h2o_tot2"
    = Some (map (fun v => p_h2o_tot2 ph * v)%flt q).
Proof.
  unfold cal1718_columns. rewrite !lookup_insert_ne by done.
  apply lookup_insert_eq.
Qed.

Lemma cal1718_columns_dD ph pD pO q dD dO (data : gmap string Series) :
  cal1718_columns ph pD pO q dD dO data !! "dD_tot2"
    = Some (zip_with (poly_dD pD) (map flog q) (rolling_mean 10 dD)).
Proof.
  unfold cal1718_columns. rewrite lookup_insert_ne by done.
  apply lookup_insert_eq.
Qed.

Lemma cal1718_columns_d18O ph pD pO q dD dO (data : gmap string Series) :
  cal1718_columns ph pD pO q dD dO data !! "d18O_tot2"
    = Some (zip_with (poly_d18O pO) (map flog q) (rolling_mean 10 dO)).
Proof. unfold cal1718_columns. apply lookup_insert_eq. Qed.

(** What a flight of [pic2_cal1718] writes, with or without test plots. *)
Lemma cal1718_flight_writes tables year testplots date w
    (raw : gmap string Series) q dD dO ph pD pO :
  files w !! (path_pic1cal_dir +:+ "WISPER_" +:+ date +:+ "_pic1-cal.ict")
    = Some raw ->
  raw !! "h2o_tot2" = Some q ->
  raw !! "dD_tot2" = Some dD ->
  raw !! "d18O_tot2" = Some dO ->
  params_h2o tables !! year = Some ph ->
  params_dD tables !! year = Some pD ->
  params_d18O tables !! year = Some pO ->
  (testplots = true ->
   is_Some (raw !! "h2o_tot1") /\ is_Some (raw !! "dD_tot1") /\
   is_Some (raw !! "d18O_tot1") /\ is_Some (raw !! "Start_UTC")) ->
  exists data : gmap string Series,
    cal1718_flight tables year testplots date w =
      (Returns tt,
       World (stdout w ++ [Text date])
             (<[path_pic2cal_dir +:+ "WISPER_" +:+ date +:+ "_pic2-cal.ict"
                := cal1718_columns ph pD pO (map flag_to_nan q)
                     (map flag_to_nan dD) (map flag_to_nan dO) data]>
                (files w))
             (rng w)).
Proof.
  intros Hfile Hq HdD HdO Hph HpD HpO Hplots.
  destruct testplots.
  - destruct (Hplots eq_refl) as ([q1 Hq1] & [dD1 HdD1] & [dO1 HdO1] & [t Ht]).
    eexists. by eapply cal1718_flight_plots_returns.
  - eexists. by eapply cal1718_flight_returns.
Qed.

Lemma cell_lookup (data : gmap string Series) name s i :
  data !! name = Some s -> cell data name i = s !! i.
Proof. intros H. unfold cell. rewrite H. reflexivity. Qed.

(** The polynomial with a log-humidity term, a ratio term and a constant
    only. *)
Lemma crossCalibrate_linear (c1 d1 c0 l m : R) :
  spec_crossCalibrateIsotopeRatio (Num 0) (Num 0) (Num c1) (Num d1) (Num 0)
      (Num 0) (Num 0) (Num 0) (Num 0) (Num c0) (Num l) (Num m)
    = Num (c1 * l + d1 * m + c0).
Proof.
  unfold spec_crossCalibrateIsotopeRatio.
  pose proof (is_finite_fpow_IZR (Num l) 3 ltac:(lia)) as H1.
  pose proof (is_finite_fpow_IZR (Num l) 2 ltac:(lia)) as H2.
  pose proof (is_finite_fpow_IZR (Num m) 2 ltac:(lia)) as H3.
  pose proof (is_finite_fpow_IZR (Num m) 3 ltac:(lia)) as H4.
  pose proof (is_finite_fpow_IZR (Num m * Num l)%flt 2 ltac:(lia)) as H5.
  pose proof (is_finite_fpow_IZR (Num m * Num l)%flt 3 ltac:(lia)) as H6.
  destruct (Num l ** Num 3)%flt; try discriminate.
  destruct (Num l ** Num 2)%flt; try discriminate.
  destruct (Num m ** Num 2)%flt; try discriminate.
  destruct (Num m ** Num 3)%flt; try discriminate.
  destruct ((Num m * Num l) ** Num 2)%flt; try discriminate.
  destruct ((Num m * Num l) ** Num 3)%flt; try discriminate.
  cbn [fmul fadd]. f_equal. lra.
Qed.

(** C3: in a flight of [pic2_cal1718] the isotope columns enter the
    cross-calibration polynomials through [rolling(window=10).mean()]
    (flags replaced first), and that moving average has a trailing window
    of 10 samples.  For every column it keeps the length; its first nine
    samples (positions 0 to 8) are missing; and at a position [i >= 9]
    where the ten samples [i-9 .. i] are all present it is their arithmetic
    mean. *)
Theorem C3_moving_average_window_10 (tables : caltable) (year : Z)
    (testplots : bool) (date : string) (w : world)
    (raw : gmap string Series) (q dD dO : Series)
    (ph : row_h2o) (pD : row_dD) (pO : row_d18O) :
  files w !! (path_pic1cal_dir +:+ "WISPER_" +:+ date +:+ "_pic1-cal.ict")
    = Some raw ->
  raw !! "h2o_tot2" = Some q ->
  raw !! "dD_tot2" = Some dD ->
  raw !! "d18O_tot2" = Some dO ->
  params_h2o tables !! year = Some ph ->
  params_dD tables !! year = Some pD ->
  params_d18O tables !! year = Some pO ->
  (testplots = true ->
   is_Some (raw !! "h2o_tot1") /\ is_Some (raw !! "dD_tot1") /\
   is_Some (raw !! "d18O_tot1") /\ is_Some (raw !! "Start_UTC")) ->
  (exists out : gmap string Series,
     cal1718_flight tables year testplots date w =
       (Returns tt,
        World (stdout w ++ [Text date])
              (<[path_pic2cal_dir +:+ "WISPER_" +:+ date +:+ "_pic2-cal.ict"
                 := out]> (files w))
              (rng w)) /\
     out !! "dD_tot2" =
       Some (zip_with (poly_dD pD) (map flog (map flag_to_nan q))
               (rolling_mean 10 (map flag_to_nan dD))) /\
     out !! "d18O_tot2" =
       Some (zip_with (poly_d18O pO) (map flog (map flag_to_nan q))
               (rolling_mean 10 (map flag_to_nan dO)))) /\
  (forall s : Series,
     length (rolling_mean 10 s) = length s /\
     (forall i, (i < length s)%nat -> (i < 9)%nat ->
        rolling_mean 10 s !! i = Some NaN) /\
     (forall i (xs : list R),
        (i < length s)%nat -> (9 ≤ i)%nat ->
        take 10 (drop (i - 9) s) = map Num xs ->
        rolling_mean 10 s !! i = Some (Num (Rsum xs / 10)))).
Proof.
  intros Hfile Hq HdD HdO Hph HpD HpO Hplots. split.
  - destruct (cal1718_flight_writes tables year testplots date w raw
                q dD dO ph pD pO) as [data Hrun]; try assumption.
    eexists. split; [exact Hrun |].
    split; [apply cal1718_columns_dD | apply cal1718_columns_d18O].
  - intros s. split; [apply length_rolling_mean |]. split.
    + intros i Hi H9. by apply rolling_mean_first_nine.
    + intros i xs Hi H9 Hxs. by apply rolling_mean_window.
Qed.

Lemma C3_witness :
  exists out : gmap string Series,
    cal1718_flight sample_tables_logq 2017 false "20170817" sample_world_long =
      (Returns tt,
       World [Text "20170817"]
             (<["../WISPER_data/pic2_cal/WISPER_20170817_pic2-cal.ict" := out]>
                (files sample_world_long))
             0) /\
    out !! "dD_tot2" =
      Some (zip_with
              (poly_dD (RowDD (Num 0) (Num 0) (Num 1) (Num 1) (Num 0) (Num 0)
                              (Num 0) (Num 0) (Num 0) (Num 2)))
              (map flog (map flag_to_nan sample_long_h2o))
              (rolling_mean 10 (map flag_to_nan sample_long_dD))) /\
    rolling_mean 10 (map flag_to_nan sample_long_dD) !! 8%nat = Some NaN /\
    rolling_mean 10 (map flag_to_nan sample_long_dD) !! 10%nat
      = Some (Num (Rsum [-71; -72; -73; -74; -75; -76; -77; -78; -79; -80]
                   / 10)).
Proof.
  destruct (C3_moving_average_window_10
              sample_tables_logq 2017 false "20170817" sample_world_long
              sample_frame_long sample_long_h2o sample_long_dD
              sample_long_d18O
              (RowH2O (Num 0.9))
              (RowDD (Num 0) (Num 0) (Num 1) (Num 1) (Num 0) (Num 0)
                     (Num 0) (Num 0) (Num 0) (Num 2))
              (RowD18O (Num 0) (Num 0) (Num 1) (Num 1) (Num 0) (Num 0)
                       (Num 0) (Num 0) (Num 0) (Num 0.5)))
    as ((out & Hrun & HD & _) & Hmean); try reflexivity.
  - discriminate.
  - destruct (Hmean (map flag_to_nan sample_long_dD)) as (_ & Hnine & Hwin).
    exists out. split; [exact Hrun |]. split; [exact HD |]. split.
    + apply Hnine; simpl; lia.
    + apply Hwin.
      * simpl. lia.
      * lia.
      * rewrite sample_long_clean by tauto. reflexivity.
Defined.

(** C10: in a flight of [pic2_cal1718], with or without test plots, both
    isotope polynomials are evaluated at the logarithm of the humidity
    column as read (flags replaced), not of the cross-calibrated humidity;
    the cross-calibrated humidity only appears in the [h2o_tot2] column of
    the frame written, next to the two corrected isotope columns. *)
Theorem C10_isotope_xcal_reads_raw_humidity tables year testplots date w
    (raw : gmap string Series) q dD dO ph pD pO :
  files w !! (path_pic1cal_dir +:+ "WISPER_" +:+ date +:+ "_pic1-cal.ict")
    = Some raw ->
  raw !! "h2o_tot2" = Some q ->
  raw !! "dD_tot2" = Some dD ->
  raw !! "d18O_tot2" = Some dO ->
  params_h2o tables !! year = Some ph ->
  params_dD tables !! year = Some pD ->
  params_d18O tables !! year = Some pO ->
  (testplots = true ->
   is_Some (raw !! "h2o_tot1") /\ is_Some (raw !! "dD_tot1") /\
   is_Some (raw !! "d18O_tot1") /\ is_Some (raw !! "Start_UTC")) ->
  exists out : gmap string Series,
    cal1718_flight tables year testplots date w =
      (Returns tt,
       World (stdout w ++ [Text date])
             (<[path_pic2cal_dir +:+ "WISPER_" +:+ date +:+ "_pic2-cal.ict"
                := out]> (files w))
             (rng w)) /\
    out !! "h2o_tot2" =
      Some (map (fun v => p_h2o_tot2 ph * v)%flt (map flag_to_nan q)) /\
    out !! "dD_tot2" =
      Some (zip_with (poly_dD pD) (map flog (map flag_to_nan q))
              (rolling_mean 10 (map flag_to_nan dD))) /\
    out !! "d18O_tot2" =
      Some (zip_with (poly_d18O pO) (map flog (map flag_to_nan q))
              (rolling_mean 10 (map flag_to_nan dO))).
Proof.
  intros Hfile Hq HdD HdO Hph HpD HpO Hplots.
  destruct (cal1718_flight_writes tables year testplots date w raw
              q dD dO ph pD pO) as [data Hrun]; try assumption.
  eexists. split; [exact Hrun |].
  split; [apply cal1718_columns_h2o |].
  split; [apply cal1718_columns_dD | apply cal1718_columns_d18O].
Qed.

Lemma C10_witness :
  exists out : gmap string Series,
    cal1718_flight sample_tables_logq 2017 false "20170817" sample_world_long =
      (Returns tt,
       World [Text "20170817"]
             (<["../WISPER_data/pic2_cal/WISPER_20170817_pic2-cal.ict" := out]>
                (files sample_world_long))
             0) /\
    cell out "h2o_tot2" 10 = Some (Num (0.9 * 16000)) /\
    cell out "dD_tot2" 10 =
      Some (Num (1 * ln 16000
                 + 1 * (Rsum [-71; -72; -73; -74; -75; -76; -77; -78; -79; -80]
                        / 10)
                 + 2)) /\
    cell out "d18O_tot2" 10 =
      Some (Num (1 * ln 16000
                 + 1 * (Rsum [-10.1; -10.2; -10.3; -10.4; -10.5;
                              -10.6; -10.7; -10.8; -10.9; -11] / 10)
                 + 0.5)).
Proof.
  destruct (C10_isotope_xcal_reads_raw_humidity
              sample_tables_logq 2017 false "20170817" sample_world_long
              sample_frame_long sample_long_h2o sample_long_dD
              sample_long_d18O
              (RowH2O (Num 0.9))
              (RowDD (Num 0) (Num 0) (Num 1) (Num 1) (Num 0) (Num 0)
                     (Num 0) (Num 0) (Num 0) (Num 2))
              (RowD18O (Num 0) (Num 0) (Num 1) (Num 1) (Num 0) (Num 0)
                       (Num 0) (Num 0) (Num 0) (Num 0.5)))
    as (out & Hrun & Hh2o & HD & HO); try reflexivity.
  - discriminate.
  - destruct sample_long_smoothed as [HsD HsO].
    assert (Hq : sample_long_h2o !! 10%nat = Some (Num 16000)) by reflexivity.
    assert (Hflag : flag_to_nan (Num 16000) = Num 16000).
    { apply flag_to_nan_Num. unfold missing_flag. lra. }
    exists out. split; [exact Hrun |]. split; [|split].
    + rewrite (cell_lookup _ _ _ _ Hh2o), !list_lookup_fmap, Hq.
      cbn [fmap option_fmap option_map p_h2o_tot2]. by rewrite Hflag.
    + rewrite (cell_lookup _ _ _ _ HD).
      rewrite lookup_zip_with, !list_lookup_fmap, Hq, HsD.
      cbn [fmap option_fmap option_map mbind option_bind].
      rewrite Hflag, flog_pos by lra.
      unfold poly_dD. cbn [pD_logq3 pD_logq2 pD_logq1 pD_dD1 pD_dD2 pD_dD3
                            pD_cross1 pD_cross2 pD_cross3 pD_const].
      by rewrite crossCalibrate_linear.
    + rewrite (cell_lookup _ _ _ _ HO).
      rewrite lookup_zip_with, !list_lookup_fmap, Hq, HsO.
      cbn [fmap option_fmap option_map mbind option_bind].
      rewrite Hflag, flog_pos by lra.
      unfold poly_d18O. cbn [pO_logq3 pO_logq2 pO_logq1 pO_d18O1 pO_d18O2
                              pO_d18O3 pO_cross1 pO_cross2 pO_cross3 pO_const].
      by rewrite crossCalibrate_linear.
Defined.

(** ** Missing values *)

Lemma flag_to_nan_missing (v : float) : is_missing v -> flag_to_nan v = NaN.
Proof.
  intros [-> | ->]; [reflexivity |].
  unfold flag_to_nan. destruct (Req_dec_T missing_flag missing_flag); congruence.
Qed.

Lemma flag_to_nan_present (v : float) : ~ is_missing v -> flag_to_nan v = v.
Proof.
  intros H. destruct v as [|r|b]; [reflexivity | |reflexivity].
  unfold flag_to_nan. destruct (Req_dec_T r missing_flag) as [->|]; [|reflexivity].
  exfalso. apply H. by right.
Qed.

Lemma flag_to_nan_not_flag (v : float) : flag_to_nan v <> Num missing_flag.
Proof.
  destruct v as [|r|b]; [discriminate | |discriminate].
  unfold flag_to_nan. destruct (Req_dec_T r missing_flag); congruence.
Qed.

Lemma fullCalibration_nan_delta (q a b m k : float) :
  spec_fullCalibration NaN q a b m k = NaN.
Proof.
  unfold spec_fullCalibration. rewrite fsub_nan_l, fmul_nan_r. reflexivity.
Qed.

Lemma fullCalibration_nan_humidity (d a m k : float) (b : R) :
  b <> 0 -> spec_fullCalibration d NaN a (Num b) m k = NaN.
Proof.
  intros Hb. unfold spec_fullCalibration. cbn [flog].
  rewrite fsub_nan_r, fpow_nan_l by exact Hb.
  rewrite fmul_nan_r, fsub_nan_r, fmul_nan_r. reflexivity.
Qed.

Lemma crossCalibrate_nan_logQ c3 c2 c1 d1 d2 d3 x1 x2 x3 c0 (delta : float) :
  spec_crossCalibrateIsotopeRatio c3 c2 c1 d1 d2 d3 x1 x2 x3 c0 NaN delta = NaN.
Proof.
  unfold spec_crossCalibrateIsotopeRatio.
  rewrite (fpow_nan_l 3) by lra. rewrite fmul_nan_r. reflexivity.
Qed.

Lemma crossCalibrate_nan_delta c3 c2 c1 d1 d2 d3 x1 x2 x3 c0 (logQ : float) :
  spec_crossCalibrateIsotopeRatio c3 c2 c1 d1 d2 d3 x1 x2 x3 c0 logQ NaN = NaN.
Proof.
  unfold spec_crossCalibrateIsotopeRatio.
  rewrite (fmul_nan_r d1), fadd_nan_r. reflexivity.
Qed.

Lemma bind_parameters_cases (pic : string) (e : locals16) :
  bind_parameters pic = Some e ->
  (pic = "Mako" /\ e = mako_block) \/ (pic = "Gulper" /\ e = gulper_block).
Proof.
  unfold bind_parameters.
  destruct (decide (pic = "Gulper")) as [->|HG].
  - intros [= <-]. by right.
  - destruct (decide (pic = "Mako")) as [->|HM]; [|discriminate].
    intros [= <-]. by left.
Qed.

Lemma bind_parameters_exponents (pic : string) (e : locals16) :
  bind_parameters pic = Some e ->
  exists bD' b18O' : R,
    bD e = Num bD' /\ b18O e = Num b18O' /\ bD' <> 0 /\ b18O' <> 0.
Proof.
  intros H. destruct (bind_parameters_cases pic e H) as [[_ ->] | [_ ->]].
  - exists 3.031, 4.961. repeat split; lra.
  - exists 4.456, 1.889. repeat split; lra.
Qed.

Lemma cal16_missing_flows pic e date w (raw : gmap string Series) dD q dO :
  bind_parameters pic = Some e ->
  files w !! (path_timesync_dir +:+ "WISPER_" +:+ date +:+ "_time-sync.ict")
    = Some raw ->
  raw !! "dD_tot2" = Some dD ->
  raw !! "h2o_tot2" = Some q ->
  raw !! "d18O_tot2" = Some dO ->
  exists out : gmap string Series,
    cal16_flight (bind_parameters pic) date w =
      (Returns tt,
       World (stdout w ++ [Text date])
             (<[path_pic2cal_dir +:+ "WISPER_" +:+ date +:+ "_pic2-cal.ict"
                := out]> (files w))
             (rng w)) /\
    (forall name,
       name ≠ "dD_tot2" -> name ≠ "h2o_tot2" -> name ≠ "d18O_tot2" ->
       out !! name = map flag_to_nan <$> raw !! name) /\
    (forall i dv qv ov,
       dD !! i = Some dv -> q !! i = Some qv -> dO !! i = Some ov ->
       cell out "dD_tot2" i =
         Some (spec_fullCalibration (flag_to_nan dv) (flag_to_nan qv)
                 (aD e) (bD e) (mD e) (kD e)) /\
       cell out "d18O_tot2" i =
         Some (spec_fullCalibration (flag_to_nan ov) (flag_to_nan qv)
                 (a18O e) (b18O e) (m18O e) (k18O e)) /\
       cell out "h2o_tot2" i = Some (mq e * flag_to_nan qv + kq e)%flt /\
       (is_missing dv \/ is_missing qv -> cell out "dD_tot2" i = Some NaN) /\
       (is_missing ov \/ is_missing qv -> cell out "d18O_tot2" i = Some NaN) /\
       (is_missing qv -> cell out "h2o_tot2" i = Some NaN)).
Proof.
  intros Hpar Hfile HdD Hq HdO.
  exists (cal16_frame e raw dD q dO). rewrite Hpar.
  split; [by apply cal16_flight_returns |].
  split; [intros name H1 H2 H3; by apply cal16_frame_other |].
  intros i dv qv ov Hdv Hqv Hov.
  destruct (bind_parameters_exponents pic e Hpar)
    as (bD' & b18O' & HbD & HbO & HbD0 & HbO0).
  assert (EdD : cell (cal16_frame e raw dD q dO) "dD_tot2" i =
            Some (spec_fullCalibration (flag_to_nan dv) (flag_to_nan qv)
                    (aD e) (bD e) (mD e) (kD e))).
  { rewrite (cell_lookup _ _ _ _ (cal16_frame_dD e raw dD q dO)).
    rewrite lookup_zip_with, !list_lookup_fmap, Hdv, Hqv. reflexivity. }
  assert (EdO : cell (cal16_frame e raw dD q dO) "d18O_tot2" i =
            Some (spec_fullCalibration (flag_to_nan ov) (flag_to_nan qv)
                    (a18O e) (b18O e) (m18O e) (k18O e))).
  { rewrite (cell_lookup _ _ _ _ (cal16_frame_d18O e raw dD q dO)).
    rewrite lookup_zip_with, !list_lookup_fmap, Hov, Hqv. reflexivity. }
  assert (Eq : cell (cal16_frame e raw dD q dO) "h2o_tot2" i =
            Some (mq e * flag_to_nan qv + kq e)%flt).
  { rewrite (cell_lookup _ _ _ _ (cal16_frame_h2o e raw dD q dO)).
    rewrite !list_lookup_fmap, Hqv. reflexivity. }
  split; [exact EdD |]. split; [exact EdO |]. split; [exact Eq |].
  split; [|split].
  - intros [Hm | Hm]; rewrite EdD, (flag_to_nan_missing _ Hm); f_equal.
    + apply fullCalibration_nan_delta.
    + rewrite HbD. by apply fullCalibration_nan_humidity.
  - intros [Hm | Hm]; rewrite EdO, (flag_to_nan_missing _ Hm); f_equal.
    + apply fullCalibration_nan_delta.
    + rewrite HbO. by apply fullCalibration_nan_humidity.
  - intros Hm. rewrite Eq, (flag_to_nan_missing _ Hm), fmul_nan_r.
    reflexivity.
Qed.

Lemma cal1718_missing_flows tables year testplots date w
    (raw : gmap string Series) q dD dO ph pD pO :
  files w !! (path_pic1cal_dir +:+ "WISPER_" +:+ date +:+ "_pic1-cal.ict")
    = Some raw ->
  raw !! "h2o_tot2" = Some q ->
  raw !! "dD_tot2" = Some dD ->
  raw !! "d18O_tot2" = Some dO ->
  params_h2o tables !! year = Some ph ->
  params_dD tables !! year = Some pD ->
  params_d18O tables !! year = Some pO ->
  (testplots = true ->
   is_Some (raw !! "h2o_tot1") /\ is_Some (raw !! "dD_tot1") /\
   is_Some (raw !! "d18O_tot1") /\ is_Some (raw !! "Start_UTC")) ->
  exists out : gmap string Series,
    cal1718_flight tables year testplots date w =
      (Returns tt,
       World (stdout w ++ [Text date])
             (<[path_pic2cal_dir +:+ "WISPER_" +:+ date +:+ "_pic2-cal.ict"
                := out]> (files w))
             (rng w)) /\
    (forall i dv qv ov,
       dD !! i = Some dv -> q !! i = Some qv -> dO !! i = Some ov ->
       cell out "h2o_tot2" i = Some (p_h2o_tot2 ph * flag_to_nan qv)%flt /\
       (is_missing qv ->
        cell out "h2o_tot2" i = Some NaN /\
        cell out "dD_tot2" i = Some NaN /\
        cell out "d18O_tot2" i = Some NaN) /\
       (forall j v, (i - 9 ≤ j ≤ i)%nat -> dD !! j = Some v -> is_missing v ->
          cell out "dD_tot2" i = Some NaN) /\
       (forall j v, (i - 9 ≤ j ≤ i)%nat -> dO !! j = Some v -> is_missing v ->
          cell out "d18O_tot2" i = Some NaN)).
Proof.
  intros Hfile Hq HdD HdO Hph HpD HpO Hplots.
  destruct (cal1718_flight_writes tables year testplots date w raw
              q dD dO ph pD pO) as [data Hrun]; try assumption.
  eexists. split; [exact Hrun |].
  intros i dv qv ov Hdv Hqv Hov.
  assert (HiD : (i < length (map flag_to_nan dD))%nat).
  { rewrite length_map. by eapply lookup_lt_Some. }
  assert (HiO : (i < length (map flag_to_nan dO))%nat).
  { rewrite length_map. by eapply lookup_lt_Some. }
  assert (Eq : forall data,
            cell (cal1718_columns ph pD pO (map flag_to_nan q)
                    (map flag_to_nan dD) (map flag_to_nan dO) data)
                 "h2o_tot2" i = Some (p_h2o_tot2 ph * flag_to_nan qv)%flt).
  { intros data'. rewrite (cell_lookup _ _ _ _ (cal1718_columns_h2o _ _ _ _ _ _ _)).
    rewrite !list_lookup_fmap, Hqv. reflexivity. }
  assert (ED : forall data m,
            rolling_mean 10 (map flag_to_nan dD) !! i = Some m ->
            cell (cal1718_columns ph pD pO (map flag_to_nan q)
                    (map flag_to_nan dD) (map flag_to_nan dO) data)
                 "dD_tot2" i =
              Some (poly_dD pD (flog (flag_to_nan qv)) m)).
  { intros data' m Hm.
    rewrite (cell_lookup _ _ _ _ (cal1718_columns_dD _ _ _ _ _ _ _)).
    rewrite lookup_zip_with, !list_lookup_fmap, Hqv, Hm. reflexivity. }
  assert (EO : forall data m,
            rolling_mean 10 (map flag_to_nan dO) !! i = Some m ->
            cell (cal1718_columns ph pD pO (map flag_to_nan q)
                    (map flag_to_nan dD) (map flag_to_nan dO) data)
                 "d18O_tot2" i =
              Some (poly_d18O pO (flog (flag_to_nan qv)) m)).
  { intros data' m Hm.
    rewrite (cell_lookup _ _ _ _ (cal1718_columns_d18O _ _ _ _ _ _ _)).
    rewrite lookup_zip_with, !list_lookup_fmap, Hqv, Hm. reflexivity. }
  destruct (lookup_lt_is_Some_2 (rolling_mean 10 (map flag_to_nan dD)) i)
    as [mD HmD]; [by rewrite length_rolling_mean |].
  destruct (lookup_lt_is_Some_2 (rolling_mean 10 (map flag_to_nan dO)) i)
    as [mO HmO]; [by rewrite length_rolling_mean |].
  assert (Hroll : forall (s : Series) j v,
            (i < length (map flag_to_nan s))%nat ->
            (i - 9 ≤ j ≤ i)%nat -> s !! j = Some v -> is_missing v ->
            rolling_mean 10 (map flag_to_nan s) !! i = Some NaN).
  { intros s j v Hi Hj Hv Hm.
    apply (rolling_mean_nan (map flag_to_nan s) i j Hi Hj).
    rewrite list_lookup_fmap, Hv. simpl.
    by rewrite (flag_to_nan_missing _ Hm). }
  split; [apply Eq |]. split; [|split].
  - intros Hm. rewrite Eq, (ED _ mD HmD), (EO _ mO HmO).
    rewrite (flag_to_nan_missing _ Hm).
    rewrite fmul_nan_r. cbn [flog].
    unfold poly_dD, poly_d18O. rewrite !crossCalibrate_nan_logQ. done.
  - intros j v Hj Hv Hm. rewrite (ED _ NaN (Hroll dD j v HiD Hj Hv Hm)).
    unfold poly_dD. by rewrite crossCalibrate_nan_delta.
  - intros j v Hj Hv Hm. rewrite (EO _ NaN (Hroll dO j v HiO Hj Hv Hm)).
    unfold poly_d18O. by rewrite crossCalibrate_nan_delta.
Qed.

(** C4: both pipelines replace the flag -9999 by not-a-number in every cell
    of the frame they load, and evaluate their formulas on the frame so
    cleaned; a sample whose value is missing comes out missing.  In a flight
    of [pic2_cal16] (either instrument) every column but the three
    calibrated ones is written as read, flags replaced; each calibrated
    cell is the formula of the cleaned cells of its row, and is
    not-a-number when the isotope ratio or the humidity of the row is
    missing.  In a flight of [pic2_cal1718] a missing humidity makes the
    three calibrated cells of its row not-a-number, and a missing isotope
    ratio makes not-a-number the calibrated ratio of every row whose
    ten-sample window contains it. *)
Theorem C4_missing_values_flow_through :
  (flag_to_nan (Num (-9999)) = NaN /\
   (forall v, flag_to_nan v <> Num (-9999)) /\
   (forall v, ~ is_missing v -> flag_to_nan v = v) /\
   (forall (data : gmap string Series) name,
      replace_flag data !! name = map flag_to_nan <$> data !! name)) /\
  (forall pic e date w (raw : gmap string Series) dD q dO,
     bind_parameters pic = Some e ->
     files w !! (path_timesync_dir +:+ "WISPER_" +:+ date +:+ "_time-sync.ict")
       = Some raw ->
     raw !! "dD_tot2" = Some dD ->
     raw !! "h2o_tot2" = Some q ->
     raw !! "d18O_tot2" = Some dO ->
     exists out : gmap string Series,
       cal16_flight (bind_parameters pic) date w =
         (Returns tt,
          World (stdout w ++ [Text date])
                (<[path_pic2cal_dir +:+ "WISPER_" +:+ date +:+ "_pic2-cal.ict"
                   := out]> (files w))
                (rng w)) /\
       (forall name,
          name ≠ "dD_tot2" -> name ≠ "h2o_tot2" -> name ≠ "d18O_tot2" ->
          out !! name = map flag_to_nan <$> raw !! name) /\
       (forall i dv qv ov,
          dD !! i = Some dv -> q !! i = Some qv -> dO !! i = Some ov ->
          cell out "dD_tot2" i =
            Some (spec_fullCalibration (flag_to_nan dv) (flag_to_nan qv)
                    (aD e) (bD e) (mD e) (kD e)) /\
          cell out "d18O_tot2" i =
            Some (spec_fullCalibration (flag_to_nan ov) (flag_to_nan qv)
                    (a18O e) (b18O e) (m18O e) (k18O e)) /\
          cell out "h2o_tot2" i = Some (mq e * flag_to_nan qv + kq e)%flt /\
          (is_missing dv \/ is_missing qv -> cell out "dD_tot2" i = Some NaN) /\
          (is_missing ov \/ is_missing qv -> cell out "d18O_tot2" i = Some NaN) /\
          (is_missing qv -> cell out "h2o_tot2" i = Some NaN))) /\
  (forall tables year testplots date w (raw : gmap string Series)
          q dD dO ph pD pO,
     files w !! (path_pic1cal_dir +:+ "WISPER_" +:+ date +:+ "_pic1-cal.ict")
       = Some raw ->
     raw !! "h2o_tot2" = Some q ->
     raw !! "dD_tot2" = Some dD ->
     raw !! "d18O_tot2" = Some dO ->
     params_h2o tables !! year = Some ph ->
     params_dD tables !! year = Some pD ->
     params_d18O tables !! year = Some pO ->
     (testplots = true ->
      is_Some (raw !! "h2o_tot1") /\ is_Some (raw !! "dD_tot1") /\
      is_Some (raw !! "d18O_tot1") /\ is_Some (raw !! "Start_UTC")) ->
     exists out : gmap string Series,
       cal1718_flight tables year testplots date w =
         (Returns tt,
          World (stdout w ++ [Text date])
                (<[path_pic2cal_dir +:+ "WISPER_" +:+ date +:+ "_pic2-cal.ict"
                   := out]> (files w))
                (rng w)) /\
       (forall i dv qv ov,
          dD !! i = Some dv -> q !! i = Some qv -> dO !! i = Some ov ->
          cell out "h2o_tot2" i = Some (p_h2o_tot2 ph * flag_to_nan qv)%flt /\
          (is_missing qv ->
           cell out "h2o_tot2" i = Some NaN /\
           cell out "dD_tot2" i = Some NaN /\
           cell out "d18O_tot2" i = Some NaN) /\
          (forall j v, (i - 9 ≤ j ≤ i)%nat -> dD !! j = Some v -> is_missing v ->
             cell out "dD_tot2" i = Some NaN) /\
          (forall j v, (i - 9 ≤ j ≤ i)%nat -> dO !! j = Some v -> is_missing v ->
             cell out "d18O_tot2" i = Some NaN))).
Proof.
  split; [|split].
  - split; [apply flag_to_nan_missing; by right |].
    split; [apply flag_to_nan_not_flag |].
    split; [apply flag_to_nan_present | apply lookup_replace_flag].
  - apply cal16_missing_flows.
  - apply cal1718_missing_flows.
Qed.

Lemma C4_witness :
  exists out : gmap string Series,
    cal16_flight (bind_parameters "Mako") "20160830" sample_world =
      (Returns tt,
       World [Text "20160830"]
             (<["../WISPER_data/pic2_cal/WISPER_20160830_pic2-cal.ict" := out]>
                (files sample_world))
             0) /\
    cell out "dD_tot2" 1 = Some NaN /\
    cell out "d18O_tot2" 1 = Some NaN /\
    cell out "h2o_tot2" 1 = Some NaN.
Proof.
  destruct C4_missing_values_flow_through as (_ & H16 & _).
  destruct (H16 "Mako" mako_block "20160830" sample_world sample_frame
              [Num (-70); Num (-100)] [Num 15000; Num (-9999)]
              [Num (-10); Num (-14)])
    as (out & Hrun & _ & Hcells); try reflexivity.
  destruct (Hcells 1%nat (Num (-100)) (Num (-9999)) (Num (-14)))
    as (_ & _ & _ & HD & HO & Hq); try reflexivity.
  exists out. split; [exact Hrun |].
  split; [apply HD; right; by right |].
  split; [apply HO; right; by right |].
  apply Hq. by right.
Defined.

(** ** An instrument without parameters *)

Lemma for_each_cons {A} (body : A -> io unit) x xs :
  for_each body (x :: xs) = (body x ;; for_each body xs).
Proof. reflexivity. Qed.

Lemma cal16_flight_unbound date w :
  cal16_flight None date w =
    (Raises (first_flight_error date w),
     World (stdout w ++ [Text date]) (files w) (rng w)).
Proof.
  unfold cal16_flight, first_flight_error.
  erewrite run_bind by reflexivity.
  set (w1 := World (stdout w ++ [Text date]) (files w) (rng w)).
  change (files w) with (files w1).
  destruct (files w1 !! _) as [raw|] eqn:Hfile.
  - erewrite run_bind by (apply run_read_csv; exact Hfile).
    destruct (raw !! "dD_tot2") as [dD|] eqn:HdD.
    + erewrite run_bind
        by (apply run_getitem; rewrite lookup_replace_flag, HdD; reflexivity).
      destruct (raw !! "h2o_tot2") as [q|] eqn:Hq.
      * erewrite run_bind
          by (apply run_getitem; rewrite lookup_replace_flag, Hq; reflexivity).
        reflexivity.
      * erewrite run_bind_raises; [reflexivity |].
        unfold getitem. rewrite lookup_replace_flag, Hq. reflexivity.
    + erewrite run_bind_raises; [reflexivity |].
      unfold getitem. rewrite lookup_replace_flag, HdD. reflexivity.
  - erewrite run_bind_raises; [reflexivity |].
    unfold read_csv. rewrite Hfile. reflexivity.
Qed.

Lemma bind_parameters_unknown (pic : string) :
  pic ≠ "Mako" -> pic ≠ "Gulper" -> bind_parameters pic = None.
Proof.
  intros HM HG. unfold bind_parameters.
  destruct (decide (pic = "Gulper")); [contradiction |].
  destruct (decide (pic = "Mako")); [contradiction | reflexivity].
Qed.

(** C6, as stated, fails: with an instrument that has no parameters and two
    flights whose files exist, the first flight raises and the second is
    never started: its date is not printed and the files are as before. *)
Lemma C6_counterexample :
  pic2_cal16 ["20160830"; "20160831"] "Pic3" sample_world_two_flights =
    (Raises (UnboundLocalError "aD"),
     World [Text "20160830"] (files sample_world_two_flights) 0) /\
  Text "20160831" ∉ stdout
    (pic2_cal16 ["20160830"; "20160831"] "Pic3" sample_world_two_flights).2.
Proof.
  assert (H : pic2_cal16 ["20160830"; "20160831"] "Pic3"
                sample_world_two_flights =
              (Raises (UnboundLocalError "aD"),
               World [Text "20160830"] (files sample_world_two_flights) 0)).
  { unfold pic2_cal16. rewrite bind_parameters_unknown by done.
    rewrite for_each_cons.
    erewrite run_bind_raises by apply cal16_flight_unbound.
    reflexivity. }
  split; [exact H |].
  rewrite H. simpl. intros Hin.
  apply list_elem_of_singleton in Hin. discriminate.
Qed.

(** C6, amended: an invocation of [pic2_cal16] with an instrument other than
    Mako and Gulper binds no parameter and defaults none.  With no flight
    it returns normally and changes nothing.  With at least one flight it
    stops in the first one with an uncaught error, after printing its date:
    the unbound-name error on [aD] when the flight's file exists and holds
    the columns [dD_tot2] and [h2o_tot2], a file or key error otherwise; no
    file is written and no later flight is started. *)
Theorem C6_unknown_instrument_aborts_run (pic : string) (dates : list string)
    (w : world) :
  pic ≠ "Mako" -> pic ≠ "Gulper" ->
  bind_parameters pic = None /\
  (dates = [] -> pic2_cal16 dates pic w = (Returns tt, w)) /\
  (forall date rest, dates = date :: rest ->
     pic2_cal16 dates pic w =
       (Raises (first_flight_error date w),
        World (stdout w ++ [Text date]) (files w) (rng w))) /\
  files (pic2_cal16 dates pic w).2 = files w.
Proof.
  intros HM HG.
  pose proof (bind_parameters_unknown pic HM HG) as Hnone.
  split; [exact Hnone |].
  assert (Hcons : forall date rest,
            pic2_cal16 (date :: rest) pic w =
              (Raises (first_flight_error date w),
               World (stdout w ++ [Text date]) (files w) (rng w))).
  { intros date rest. unfold pic2_cal16. rewrite Hnone, for_each_cons.
    erewrite run_bind_raises by apply cal16_flight_unbound. reflexivity. }
  split; [intros ->; reflexivity |].
  split; [intros date rest ->; apply Hcons |].
  destruct dates as [|date rest]; [reflexivity |].
  rewrite Hcons. reflexivity.
Qed.

Lemma C6_witness :
  pic2_cal16 ["20160830"; "20160831"] "Pic3" sample_world_two_flights =
    (Raises (first_flight_error "20160830" sample_world_two_flights),
     World [Text "20160830"] (files sample_world_two_flights) 0).
Proof.
  destruct (C6_unknown_instrument_aborts_run
              "Pic3" ["20160830"; "20160831"] sample_world_two_flights)
    as (_ & _ & H & _); [done | done |].
  apply (H "20160830" ["20160831"]). reflexivity.
Defined.

(** ** The parameters of 2016 *)

(** C5: for Mako, the intercept of the d18O absolute calibration is
    [-1.041851 + 3.5], and every other parameter is the literal of the
    source; for Gulper, every parameter is a literal or the offset derived
    from the histogram peaks and the slope, with nothing added.  The
    intercept so bound is the one a Mako flight applies to its d18O
    column. *)
Theorem C5_fudge_factor_on_Mako_d18O_intercept_only :
  bind_parameters "Mako" =
    Some {| aD := Num (-0.365); bD := Num 3.031;
            a18O := Num (-0.00581); b18O := Num 4.961;
            mD := Num 1.056412; kD := Num (-5.957469);
            m18O := Num 1.051851; k18O := Num (-1.041851 + 3.5);
            mq := Num 0.8512; kq := Num 0 |} /\
  bind_parameters "Gulper" =
    Some {| aD := Num 0.035; bD := Num 4.456;
            a18O := Num 0.06707; b18O := Num 1.889;
            mD := Num 1.094037184; kD := Num (-75 - 1.094037184 * -94);
            m18O := Num 1.06831472;
            k18O := Num (-11.5 - 1.06831472 * -16.7);
            mq := Num 0.9085; kq := Num 0 |} /\
  (forall date w (raw : gmap string Series) dD q dO,
     files w !! (path_timesync_dir +:+ "WISPER_" +:+ date +:+ "_time-sync.ict")
       = Some raw ->
     raw !! "dD_tot2" = Some dD ->
     raw !! "h2o_tot2" = Some q ->
     raw !! "d18O_tot2" = Some dO ->
     exists out : gmap string Series,
       pic2_cal16 [date] "Mako" w =
         (Returns tt,
          World (stdout w ++ [Text date])
                (<[path_pic2cal_dir +:+ "WISPER_" +:+ date +:+ "_pic2-cal.ict"
                   := out]> (files w))
                (rng w)) /\
       forall i ov qv, dO !! i = Some ov -> q !! i = Some qv ->
         cell out "d18O_tot2" i =
           Some (Num 1.051851
                 * (flag_to_nan ov
                    - Num (-0.00581)
                      * (flog (Num 50000) - flog (flag_to_nan qv))
                        ** Num 4.961)
                 + Num (-1.041851 + 3.5))%flt).
Proof.
  split; [reflexivity |]. split; [reflexivity |].
  intros date w raw dD q dO Hfile HdD Hq HdO.
  exists (cal16_frame mako_block raw dD q dO). split.
  - unfold pic2_cal16. change (bind_parameters "Mako") with (Some mako_block).
    rewrite for_each_cons.
    erewrite run_bind by (by apply cal16_flight_returns).
    reflexivity.
  - intros i ov qv Hov Hqv.
    rewrite (cell_lookup _ _ _ _ (cal16_frame_d18O mako_block raw dD q dO)).
    rewrite lookup_zip_with, !list_lookup_fmap, Hov, Hqv. reflexivity.
Qed.

Lemma C5_witness :
  exists out : gmap string Series,
    pic2_cal16 ["20160830"] "Mako" sample_world =
      (Returns tt,
       World [Text "20160830"]
             (<["../WISPER_data/pic2_cal/WISPER_20160830_pic2-cal.ict" := out]>
                (files sample_world))
             0) /\
    cell out "d18O_tot2" 0 =
      Some (Num 1.051851
            * (flag_to_nan (Num (-10))
               - Num (-0.00581)
                 * (flog (Num 50000) - flog (flag_to_nan (Num 15000)))
                   ** Num 4.961)
            + Num (-1.041851 + 3.5))%flt.
Proof.
  destruct C5_fudge_factor_on_Mako_d18O_intercept_only as (_ & _ & H).
  destruct (H "20160830" sample_world sample_frame
              [Num (-70); Num (-100)] [Num 15000; Num (-9999)]
              [Num (-10); Num (-14)])
    as (out & Hrun & Hcell); try reflexivity.
  exists out. split; [exact Hrun |].
  apply Hcell; reflexivity.
Defined.

(** ** The surrogate fit *)

Lemma nrows_uniform (data : gmap string Series) (n : nat) :
  map_Forall (fun _ s => length s = n) data -> data ≠ ∅ -> nrows data = n.
Proof.
  intros Hall Hne. unfold nrows.
  destruct (map_to_list data) as [|[k s] l] eqn:E.
  - apply map_to_list_empty_iff in E. contradiction.
  - apply (Hall k s). apply elem_of_map_to_list. rewrite E. left.
Qed.

Lemma compress_map {A B} (keep : A -> bool) (f : A -> B) (l : list A) :
  compress (map keep l) (map f l) = map f (filter (fun x => keep x = true) l).
Proof.
  induction l as [|x l IH]; [reflexivity |].
  cbn [map compress]. rewrite filter_cons.
  destruct (keep x) eqn:E.
  - destruct (decide (true = true)); [|congruence]. cbn [map]. by rewrite IH.
  - destruct (decide (false = true)); [congruence | exact IH].
Qed.

Lemma zip_with_andb_map {A} (g h : A -> bool) (l : list A) :
  zip_with andb (map g l) (map h l) = map (fun x => g x && h x) l.
Proof.
  induction l as [|x l IH]; [reflexivity |]. cbn [map zip_with]. by rewrite IH.
Qed.

Lemma fpow_pinf (b : R) : 0 < b -> (Inf false ** Num b)%flt = Inf false.
Proof.
  intros Hb. unfold fpow. destruct (Req_dec_T b 0); [lra |].
  destruct (Rlt_dec 0 b); [reflexivity | contradiction].
Qed.

(** An even power of an infinity is plus infinity; a power of a number is
    a number. *)
Lemma is_pinf_powers (x : float) :
  is_pinf x || is_pinf (x ** Num 2)%flt || is_pinf (x ** Num 3)%flt
    || is_pinf (x ** Num 4)%flt = is_inf x.
Proof.
  destruct x as [|a|[|]].
  - rewrite !fpow_nan_l by lra. reflexivity.
  - pose proof (is_finite_fpow_IZR (Num a) 2 ltac:(lia)) as H2.
    pose proof (is_finite_fpow_IZR (Num a) 3 ltac:(lia)) as H3.
    pose proof (is_finite_fpow_IZR (Num a) 4 ltac:(lia)) as H4.
    destruct (Num a ** Num 2)%flt, (Num a ** Num 3)%flt,
             (Num a ** Num 4)%flt; try discriminate; reflexivity.
  - assert (H2 : (Inf true ** Num 2)%flt = Inf false).
    { unfold fpow. destruct (Req_dec_T 2 0); [lra |].
      destruct (Rlt_dec 0 2); [|lra].
      rewrite (is_integer_IZR 2), (Int_part_IZR 2). reflexivity. }
    rewrite H2. cbn [is_pinf is_inf orb].
    destruct (is_pinf (Inf true ** Num 3)%flt); reflexivity.
  - reflexivity.
Qed.

Lemma existsb_map_pinf {A} (f : A -> float) (l : list A) :
  existsb is_pinf (map f l) = existsb (fun x => is_pinf (f x)) l.
Proof. induction l as [|x l IH]; [reflexivity |]. cbn. by rewrite IH. Qed.

Lemma existsb_orb {A} (f g : A -> bool) (l : list A) :
  existsb f l || existsb g l = existsb (fun x => f x || g x) l.
Proof.
  induction l as [|x l IH]; [reflexivity |]. cbn. rewrite <- IH.
  destruct (f x), (g x), (existsb f l), (existsb g l); reflexivity.
Qed.

Lemma existsb_pointwise {A} (f g : A -> bool) (l : list A) :
  (forall x, f x = g x) -> existsb f l = existsb g l.
Proof.
  intros H. induction l as [|x l IH]; [reflexivity |]. cbn. by rewrite H, IH.
Qed.

Lemma existsb_never {A} (l : list A) : existsb (fun _ => false) l = false.
Proof. induction l as [|x l IH]; [reflexivity | exact IH]. Qed.

Lemma existsb_Forall_false {A} (f : A -> bool) (l : list A) :
  Forall (fun x => f x = false) l -> existsb f l = false.
Proof.
  induction 1 as [|x l Hx _ IH]; [reflexivity |]. cbn. by rewrite Hx, IH.
Qed.

Lemma existsb_Exists_true {A} (f : A -> bool) (l : list A) :
  Exists (fun x => f x = true) l -> existsb f l = true.
Proof.
  induction 1 as [x l Hx | x l _ IH]; cbn.
  - by rewrite Hx.
  - rewrite IH. by destruct (f x).
Qed.

(** Plus infinity occurs in the design exactly at the points with an
    infinite predictor. *)
Lemma design_has_pinf (iso : string) (points : list fit_point) :
  existsb (fun c => existsb is_pinf c.2) (spec_design iso points)
  = existsb infinite_predictor points.
Proof.
  unfold spec_design. cbn [existsb snd].
  rewrite !existsb_map_pinf. rewrite existsb_never. cbn [orb].
  rewrite orb_false_r, !existsb_orb.
  apply existsb_pointwise. intros r. unfold infinite_predictor.
  rewrite <- (is_pinf_powers (point_logq r)).
  destruct (is_pinf (point_logq r)), (is_pinf (point_logq r ** Num 2)%flt),
    (is_pinf (point_logq r ** Num 3)%flt),
    (is_pinf (point_logq r ** Num 4)%flt), (is_pinf (point_d r));
    reflexivity.
Qed.

Lemma forallb_map_ninf {A} (f : A -> float) (l : list A) :
  forallb is_ninf (map f l) = forallb (fun x => is_ninf (f x)) l.
Proof. induction l as [|x l IH]; [reflexivity |]. cbn. by rewrite IH. Qed.

(** A column of a point and more that is minus infinity throughout is so
    at the first point. *)
Lemma forallb_ninf_head {A} (f : A -> float) (g : A -> bool) (x : A) (l : list A) :
  (forall y, is_ninf (f y) = true -> g y = true) ->
  forallb is_ninf (map f (x :: l)) = true -> existsb g (x :: l) = true.
Proof.
  intros H Hall. cbn in Hall. apply andb_true_iff in Hall as [Hx _].
  cbn. by rewrite (H x Hx).
Qed.

Lemma is_ninf_fpow_IZR (x : float) (p : Z) :
  (0 < p)%Z -> is_ninf (x ** Num (IZR p))%flt = true -> is_inf x = true.
Proof.
  intros Hp H. destruct x as [|a|b]; [| |reflexivity].
  - rewrite fpow_nan_l in H by (apply not_0_IZR; lia). discriminate.
  - pose proof (is_finite_fpow_IZR (Num a) p Hp) as Hfin.
    destruct (Num a ** Num (IZR p))%flt; discriminate.
Qed.

(** The maximum of a predictor is not finite exactly when the points are
    refused. *)
Lemma design_max_not_finite (iso : string) (x : fit_point)
    (points : list fit_point) :
  existsb (fun c => max_not_finite c.2) (spec_design iso (x :: points))
  = refused_points (x :: points).
Proof.
  unfold max_not_finite, refused_points.
  rewrite <- (existsb_orb (fun c : string * Series => existsb is_pinf c.2)
                          (fun c => forallb is_ninf c.2)).
  rewrite design_has_pinf.
  destruct (existsb infinite_predictor (x :: points)) eqn:HP;
    [reflexivity |].
  cbn [orb]. unfold spec_design. cbn [existsb snd].
  assert (Hcol : forall f : fit_point -> float,
            (forall y, is_ninf (f y) = true -> infinite_predictor y = true) ->
            forallb is_ninf (map f (x :: points)) = false).
  { intros f Hf. destruct (forallb is_ninf (map f (x :: points))) eqn:Hall;
      [|reflexivity].
    apply (forallb_ninf_head f infinite_predictor) in Hall; [|exact Hf].
    congruence. }
  rewrite (Hcol (fun _ => Num 1)) by (intros y; discriminate).
  rewrite (Hcol point_logq).
  2: { intros y Hy. unfold infinite_predictor.
       destruct (point_logq y) as [| |[|]]; try discriminate; reflexivity. }
  rewrite (Hcol (fun r => point_logq r ** Num 2)%flt).
  2: { intros y Hy. unfold infinite_predictor.
       by rewrite (is_ninf_fpow_IZR _ 2 ltac:(lia) Hy). }
  rewrite (Hcol (fun r => point_logq r ** Num 3)%flt).
  2: { intros y Hy. unfold infinite_predictor.
       by rewrite (is_ninf_fpow_IZR _ 3 ltac:(lia) Hy). }
  rewrite (Hcol (fun r => point_logq r ** Num 4)%flt).
  2: { intros y Hy. unfold infinite_predictor.
       by rewrite (is_ninf_fpow_IZR _ 4 ltac:(lia) Hy). }
  cbn [orb]. rewrite orb_false_r. apply forallb_map_ninf.
Qed.

(** Points whose predictors are numbers are not refused. *)
Lemma finite_not_refused (x : fit_point) (points : list fit_point) :
  Forall (fun r => finite_predictors r = true) (x :: points) ->
  refused_points (x :: points) = false.
Proof.
  intros Hfin. unfold refused_points.
  rewrite existsb_Forall_false.
  - apply Forall_cons in Hfin as [Hx _]. cbn.
    unfold finite_predictors in Hx. apply andb_true_iff in Hx as [_ Hx].
    destruct (point_d x); try discriminate; reflexivity.
  - eapply Forall_impl; [exact Hfin |]. intros r Hr. cbv beta in *.
    unfold finite_predictors in Hr. apply andb_true_iff in Hr as [H1 H2].
    unfold infinite_predictor.
    destruct (point_logq r), (point_d r); try discriminate; reflexivity.
Qed.

Lemma infinite_refused (points : list fit_point) :
  Exists (fun r => infinite_predictor r = true) points ->
  points <> [] /\ refused_points points = true.
Proof.
  intros Hex. split.
  - intros ->. by apply Exists_nil in Hex.
  - unfold refused_points. by rewrite (existsb_Exists_true _ _ Hex).
Qed.

Lemma zip3_columns (q d sig_d : Series) :
  length d = length q -> length sig_d = length q ->
  q = map (fun r : fit_point => r.1.1) (zip (zip q d) sig_d) /\
  d = map point_d (zip (zip q d) sig_d) /\
  sig_d = map point_sig (zip (zip q d) sig_d).
Proof.
  intros Hd Hs.
  assert (H1 : (zip (zip q d) sig_d).*1 = zip q d).
  { apply fst_zip. rewrite length_zip. lia. }
  assert (H2 : (zip (zip q d) sig_d).*2 = sig_d).
  { apply snd_zip. rewrite length_zip. lia. }
  assert (H3 : (zip q d).*1 = q) by (apply fst_zip; lia).
  assert (H4 : (zip q d).*2 = d) by (apply snd_zip; lia).
  split; [|split].
  - rewrite <- H3 at 1. rewrite <- H1 at 1. rewrite <- list_fmap_compose.
    reflexivity.
  - rewrite <- H4 at 1. rewrite <- H1 at 1. rewrite <- list_fmap_compose.
    reflexivity.
  - rewrite <- H2 at 1. reflexivity.
Qed.

(** Dropping incomplete observations from the six predictors and the
    response keeps exactly the points without a [NaN]; no point left is an
    error, as are points that are refused, and the solver gets the rest. *)
Lemma OLS_drop_fit_design OLS_fit iso (points : list fit_point) :
  OLS_drop_fit OLS_fit (map point_sig points) (spec_design iso points) =
    let kept :=
      filter (fun r => is_nan (point_logq r) = false
                       ∧ is_nan (point_d r) = false
                       ∧ is_nan (point_sig r) = false) points in
    match kept with
    | [] =>
        Raises (ValueError "zero-size array to reduction operation maximum which has no identity")
    | _ :: _ =>
        if refused_points kept
        then Raises (MissingDataError "exog contains inf or nans")
        else
          sol ← OLS_fit (map point_sig kept) (spec_design iso kept);
          mret (OLSResult (fit_params iso sol) (solution_rsquared sol))
    end.
Proof.
  set (keep := fun r : fit_point =>
         negb (is_nan (point_logq r)) && negb (is_nan (point_d r))
         && negb (is_nan (point_sig r))).
  assert (Hmask : complete_cases (map point_sig points) (spec_design iso points)
                  = map keep points).
  { unfold complete_cases, spec_design. cbn [foldr map fst snd].
    rewrite !map_map, !zip_with_andb_map.
    apply map_ext. intros r. subst keep. cbn beta.
    rewrite (is_nan_fpow_IZR _ 2), (is_nan_fpow_IZR _ 3),
            (is_nan_fpow_IZR _ 4) by lia.
    cbn [is_nan negb andb].
    destruct (is_nan (point_logq r)), (is_nan (point_d r)),
             (is_nan (point_sig r)); reflexivity. }
  assert (Hdesign :
            map (fun c : string * Series => (c.1, compress (map keep points) c.2))
                (spec_design iso points)
            = spec_design iso (filter (fun x => keep x = true) points)).
  { unfold spec_design. cbn [map fst snd].
    rewrite !compress_map. reflexivity. }
  assert (Hfilter :
            filter (fun x => keep x = true) points =
            filter (fun r => is_nan (point_logq r) = false
                             ∧ is_nan (point_d r) = false
                             ∧ is_nan (point_sig r) = false) points).
  { apply list_filter_iff. intros r. subst keep. cbn beta.
    destruct (is_nan (point_logq r)), (is_nan (point_d r)),
             (is_nan (point_sig r)); cbn; intuition congruence. }
  unfold OLS_drop_fit. cbv zeta.
  rewrite Hmask, Hdesign, compress_map, Hfilter.
  set (kept := filter _ points).
  destruct kept as [|x kept]; [reflexivity |].
  cbn [map]. change (point_sig x :: map point_sig kept)
    with (map point_sig (x :: kept)).
  rewrite design_max_not_finite.
  destruct (refused_points (x :: kept)); [reflexivity |].
  destruct (OLS_fit _ _) as [sol|e]; reflexivity.
Qed.

Ltac uniform_frame :=
  repeat match goal with
         | |- map_Forall _ (<[_ := _]> _) => apply map_Forall_insert_2
         | |- map_Forall _ ∅ => apply map_Forall_empty
         end.

Lemma run_make_frame3 n1 n2 n3 (c1 c2 c3 : Series) w :
  length c2 = length c1 -> length c3 = length c1 ->
  make_frame [(n1, c1); (n2, c2); (n3, c3)] w =
    (Returns (<[n1 := c1]> (<[n2 := c2]> (<[n3 := c3]> ∅))), w).
Proof.
  intros H2 H3. unfold make_frame.
  destruct (decide _) as [_|Hn]; [reflexivity |].
  exfalso. apply Hn. repeat constructor; assumption.
Qed.

Lemma fpow_column (s : Series) (k : float) :
  (Vector s ** k)%op = Vector (map (fun v => v ** k)%flt s).
Proof. reflexivity. Qed.

(** The run of [fit_poly] on arrays of one length: the regression of the
    standard deviations on the design of all the points. *)
Lemma fit_poly_run OLS_fit (q d sig_d : Series) w :
  length d = length q -> length sig_d = length q ->
  fit_poly OLS_fit q d sig_d w =
    match OLS_drop_fit OLS_fit (map point_sig (zip (zip q d) sig_d))
            (spec_design "d" (zip (zip q d) sig_d)) with
    | Returns fit =>
        (Returns (ols_params fit),
         World (stdout w ++ [Number (np_round (rsquared fit) 2)])
               (files w) (rng w))
    | Raises e => (Raises e, w)
    end.
Proof.
  intros Hd Hs. unfold fit_poly.
  erewrite run_bind by (apply run_make_frame3; rewrite ?length_map; assumption).
  cbn [for_fold].
  set (n := length q).
  set (logq := map flog q).
  set (df0 := <["logq" := logq]> (<["d" := d]> (<["sig_d" := sig_d]> ∅))
        : gmap string Series).
  assert (Hall0 : map_Forall (fun _ s => length s = n) df0).
  { subst df0. uniform_frame; subst logq n; rewrite ?length_map; done. }
  assert (Hones : forall (df : gmap string Series) name s,
            map_Forall (fun _ s => length s = n) df -> length s = n ->
            np_ones (nrows (<[name := s]> df)) = Vector (replicate n (Num 1))).
  { intros df name s Hall Hlen. unfold np_ones. do 2 f_equal.
    apply nrows_uniform.
    - by uniform_frame.
    - apply insert_non_empty. }
  assert (Hpow : forall k, length (map (fun v => v ** k)%flt logq) = n).
  { intros k. subst logq n. by rewrite !length_map. }
  assert (Hrep : length (replicate n (Num 1)) = n) by apply length_replicate.
  assert (Hbody : forall (df : gmap string Series) (name : string) (k : float) w0,
            map_Forall (fun _ s => length s = n) df ->
            df !! "logq" = Some logq ->
            (getitem df "logq" ≫= fun l =>
               mret (setitem "const"
                       (np_ones (nrows (setitem name (Vector l ** k)%op df)))
                       (setitem name (Vector l ** k)%op df))) w0 =
              (Returns (<["const" := replicate n (Num 1)]>
                          (<[name := map (fun v => v ** k)%flt logq]> df)),
               w0)).
  { intros df name k w0 Hall Hl.
    erewrite run_bind by (by apply run_getitem).
    rewrite fpow_column. cbn [setitem].
    rewrite (Hones df) by (exact Hall || apply Hpow). reflexivity. }
  change ("logq^" +:+ str 2) with "logq^2".
  change ("logq^" +:+ str 3) with "logq^3".
  change ("logq^" +:+ str 4) with "logq^4".
  set (df1 := <["const" := replicate n (Num 1)]>
                (<["logq^2" := map (fun v => v ** Num 2)%flt logq]> df0)).
  set (df2 := <["const" := replicate n (Num 1)]>
                (<["logq^3" := map (fun v => v ** Num 3)%flt logq]> df1)).
  set (df3 := <["const" := replicate n (Num 1)]>
                (<["logq^4" := map (fun v => v ** Num 4)%flt logq]> df2)).
  assert (Hall1 : map_Forall (fun _ s => length s = n) df1).
  { subst df1. uniform_frame; auto. }
  assert (Hall2 : map_Forall (fun _ s => length s = n) df2).
  { subst df2. uniform_frame; auto. }
  erewrite run_bind.
  2: { erewrite run_bind by (by apply Hbody).
       erewrite run_bind
         by (apply Hbody; [exact Hall1 |];
             subst df1 df0; by rewrite !lookup_insert_ne by done).
       erewrite run_bind
         by (apply Hbody; [exact Hall2 |];
             subst df2 df1 df0; by rewrite !lookup_insert_ne by done).
       fold df1 df2 df3. reflexivity. }
  (* the regression *)
  assert (Hsig : df3 !! "sig_d" = Some sig_d).
  { subst df3 df2 df1 df0. by rewrite !lookup_insert_ne by done. }
  assert (Hconst : df3 !! "const" = Some (replicate n (Num 1))).
  { subst df3. apply lookup_insert_eq. }
  assert (Hlogq : df3 !! "logq" = Some logq).
  { subst df3 df2 df1 df0. by rewrite !lookup_insert_ne by done. }
  assert (Hq2 : df3 !! "logq^2" = Some (map (fun v => v ** Num 2)%flt logq)).
  { subst df3 df2 df1. rewrite !lookup_insert_ne by done.
    apply lookup_insert_eq. }
  assert (Hq3 : df3 !! "logq^3" = Some (map (fun v => v ** Num 3)%flt logq)).
  { subst df3 df2. rewrite !lookup_insert_ne by done. apply lookup_insert_eq. }
  assert (Hq4 : df3 !! "logq^4" = Some (map (fun v => v ** Num 4)%flt logq)).
  { subst df3. rewrite !lookup_insert_ne by done. apply lookup_insert_eq. }
  assert (Hdd : df3 !! "d" = Some d).
  { subst df3 df2 df1 df0. by rewrite !lookup_insert_ne by done. }
  erewrite run_bind by (apply run_getitem; exact Hsig).
  erewrite run_bind.
  2: { cbn [getitems].
       erewrite run_bind by (apply run_getitem; exact Hconst).
       erewrite run_bind; [reflexivity |].
       erewrite run_bind by (apply run_getitem; exact Hlogq).
       erewrite run_bind; [reflexivity |].
       erewrite run_bind by (apply run_getitem; exact Hq2).
       erewrite run_bind; [reflexivity |].
       erewrite run_bind by (apply run_getitem; exact Hq3).
       erewrite run_bind; [reflexivity |].
       erewrite run_bind by (apply run_getitem; exact Hq4).
       erewrite run_bind; [reflexivity |].
       erewrite run_bind by (apply run_getitem; exact Hdd).
       erewrite run_bind; reflexivity. }
  cbn [zip zip_with].
  destruct (zip3_columns q d sig_d Hd Hs) as (Eq & Ed & Es).
  set (points := zip (zip q d) sig_d) in *.
  assert (Elogq : logq = map point_logq points).
  { subst logq. rewrite Eq at 1. rewrite map_map. reflexivity. }
  assert (Eones : replicate n (Num 1) = map (fun _ => Num 1) points).
  { subst n. rewrite Eq at 1. rewrite length_map.
    clear. induction points; simpl; congruence. }
  assert (Edesign :
    [("const", replicate n (Num 1)); ("logq", logq);
     ("logq^2", map (fun v => v ** Num 2)%flt logq);
     ("logq^3", map (fun v => v ** Num 3)%flt logq);
     ("logq^4", map (fun v => v ** Num 4)%flt logq); ("d", d)]
    = spec_design "d" points).
  { unfold spec_design. rewrite Eones, Elogq, !map_map, <- Ed. reflexivity. }
  assert (Hfit :
    OLS_drop_fit OLS_fit sig_d (spec_design "d" points) =
    OLS_drop_fit OLS_fit (map point_sig points) (spec_design "d" points)).
  { f_equal. exact Es. }
  rewrite Edesign, Hfit. unfold mbind, io_bind, lift.
  destruct (OLS_drop_fit _ _ _) as [fit|e]; reflexivity.
Qed.

Lemma flog_zero : flog (Num 0) = Inf true.
Proof.
  unfold flog. destruct (Rlt_dec 0 0); [lra |].
  destruct (Req_dec_T 0 0); [reflexivity | lra].
Qed.

(** C9, as stated, fails: a point whose values are not finite is not
    always dropped.  With a zero humidity, whose logarithm is minus
    infinity, in a row whose isotope ratio and standard deviation are
    present, the row is kept and the regression refuses the data:
    [fit_poly] raises and returns no coefficient, even with a solver that
    always returns. *)
Lemma C9_counterexample :
  flog (Num 0) = Inf true /\
  (Num 0, Num (-180), Num 6)
    ∈ fit_points [Num 1500; Num 0; Num 22000] sample_d sample_sig /\
  fit_poly sample_OLS [Num 1500; Num 0; Num 22000] sample_d sample_sig
    (World [] ∅ 0)
  = (Raises (MissingDataError "exog contains inf or nans"), World [] ∅ 0) /\
  (forall coefficients w,
     fit_poly sample_OLS [Num 1500; Num 0; Num 22000] sample_d sample_sig
       (World [] ∅ 0) <> (Returns coefficients, w)).
Proof.
  assert (Hin : (Num 0, Num (-180), Num 6)
                ∈ fit_points [Num 1500; Num 0; Num 22000] sample_d sample_sig).
  { apply list_elem_of_filter. split.
    - unfold point_logq, point_d, point_sig. cbn [fst snd].
      rewrite flog_zero. done.
    - unfold sample_d, sample_sig. cbn [zip zip_with].
      right. left. }
  assert (Hrun :
    fit_poly sample_OLS [Num 1500; Num 0; Num 22000] sample_d sample_sig
      (World [] ∅ 0)
    = (Raises (MissingDataError "exog contains inf or nans"), World [] ∅ 0)).
  { rewrite fit_poly_run by reflexivity.
    rewrite OLS_drop_fit_design. cbv zeta.
    fold (fit_points [Num 1500; Num 0; Num 22000] sample_d sample_sig).
    destruct (infinite_refused
                (fit_points [Num 1500; Num 0; Num 22000] sample_d sample_sig))
      as [Hne Hinf].
    { apply Exists_exists.
      exists (Num 0, Num (-180), Num 6). split; [exact Hin |].
      unfold infinite_predictor, point_logq. cbn [fst snd].
      rewrite flog_zero. reflexivity. }
    destruct (fit_points _ _ _) as [|x kept]; [done |].
    rewrite Hinf. reflexivity. }
  split; [apply flog_zero |]. split; [exact Hin |]. split; [exact Hrun |].
  intros coefficients w. rewrite Hrun. discriminate.
Qed.

(** C9, amended: [fit_poly] regresses the standard deviations on exactly
    the six predictors const, ln(q), ln(q)^2, ln(q)^3, ln(q)^4 and the
    isotope ratio, over the points where log-humidity, isotope ratio and
    standard deviation are not [NaN], the others being dropped.  When a
    point is kept, the predictors of the points kept are numbers and the
    solver returns, it prints the coefficient of determination rounded to
    two decimals and returns the six coefficients, labelled by predictor,
    whatever that value is; when the solver raises, so does [fit_poly].  An
    infinite value is not dropped: when a point kept has a predictor that
    is plus infinity, as every row with a zero humidity and a present ratio
    and deviation has, [fit_poly] raises [MissingDataError] and prints
    nothing; and when no point is kept it raises [ValueError]. *)
Theorem C9_surrogate_fit_six_predictors
    (OLS_fit : Series -> list (string * Series) -> outcome ols_solution)
    (q d sig_d : Series) (w : world) :
  length d = length q -> length sig_d = length q ->
  let points := fit_points q d sig_d in
  (spec_design "d" points).*1 =
    ["const"; "logq"; "logq^2"; "logq^3"; "logq^4"; "d"] /\
  (forall r, r ∈ points <->
     r ∈ zip (zip q d) sig_d /\ is_nan (point_logq r) = false
     /\ is_nan (point_d r) = false /\ is_nan (point_sig r) = false) /\
  (points <> [] ->
   Forall (fun r => finite_predictors r = true) points ->
   (forall sol,
      OLS_fit (map point_sig points) (spec_design "d" points) = Returns sol ->
      fit_poly OLS_fit q d sig_d w =
        (Returns (fit_params "d" sol),
         World (stdout w ++ [Number (np_round (solution_rsquared sol) 2)])
               (files w) (rng w)) /\
      (fit_params "d" sol).*1 = (spec_design "d" points).*1 /\
      length (fit_params "d" sol) = 6%nat) /\
   (forall e,
      OLS_fit (map point_sig points) (spec_design "d" points) = Raises e ->
      fit_poly OLS_fit q d sig_d w = (Raises e, w))) /\
  (Exists (fun r => infinite_predictor r = true) points ->
   fit_poly OLS_fit q d sig_d w =
     (Raises (MissingDataError "exog contains inf or nans"), w)) /\
  (forall i dv sv,
     q !! i = Some (Num 0) -> d !! i = Some dv -> sig_d !! i = Some sv ->
     is_nan dv = false -> is_nan sv = false ->
     fit_poly OLS_fit q d sig_d w =
       (Raises (MissingDataError "exog contains inf or nans"), w)) /\
  (points = [] ->
   fit_poly OLS_fit q d sig_d w =
     (Raises (ValueError "zero-size array to reduction operation maximum which has no identity"),
      w)).
Proof.
  intros Hd Hs points.
  assert (Hrun : fit_poly OLS_fit q d sig_d w =
            match (match points with
                   | [] =>
                       Raises (ValueError "zero-size array to reduction operation maximum which has no identity")
                   | _ :: _ =>
                       if refused_points points
                       then Raises (MissingDataError "exog contains inf or nans")
                       else
                         sol ← OLS_fit (map point_sig points)
                                       (spec_design "d" points);
                         mret (OLSResult (fit_params "d" sol)
                                         (solution_rsquared sol))
                   end) with
            | Returns fit =>
                (Returns (ols_params fit),
                 World (stdout w ++ [Number (np_round (rsquared fit) 2)])
                       (files w) (rng w))
            | Raises e => (Raises e, w)
            end).
  { rewrite fit_poly_run by assumption.
    rewrite OLS_drop_fit_design. reflexivity. }
  assert (Hkept : forall r, r ∈ points <->
            r ∈ zip (zip q d) sig_d /\ is_nan (point_logq r) = false
            /\ is_nan (point_d r) = false /\ is_nan (point_sig r) = false).
  { intros r. subst points. unfold fit_points.
    rewrite list_elem_of_filter. tauto. }
  assert (Hraise : Exists (fun r => infinite_predictor r = true) points ->
            fit_poly OLS_fit q d sig_d w =
              (Raises (MissingDataError "exog contains inf or nans"), w)).
  { intros Hex. destruct (infinite_refused points Hex) as [Hne Href].
    rewrite Hrun. destruct points as [|x rest]; [done |].
    rewrite Href. reflexivity. }
  split; [reflexivity |]. split; [exact Hkept |].
  split; [|split; [exact Hraise |split]].
  - intros Hne Hfin. destruct points as [|x rest] eqn:Hpoints; [done |].
    rewrite (finite_not_refused _ _ Hfin) in Hrun. split.
    + intros sol Hsol. rewrite Hsol in Hrun. split; [exact Hrun |].
      split; reflexivity.
    + intros e He. rewrite He in Hrun. exact Hrun.
  - intros i dv sv Hq Hdv Hsv Hnd Hns. apply Hraise.
    apply Exists_exists. exists (Num 0, dv, sv). split.
    + apply Hkept. unfold point_logq, point_d, point_sig. cbn [fst snd].
      rewrite flog_zero. split; [|done].
      apply list_elem_of_lookup. exists i.
      rewrite !lookup_zip_with, Hq, Hdv, Hsv. reflexivity.
    + unfold infinite_predictor, point_logq. cbn [fst snd].
      rewrite flog_zero. reflexivity.
  - intros Hnil. rewrite Hrun, Hnil. reflexivity.
Qed.

Lemma C9_witness :
  fit_poly sample_OLS sample_q sample_d sample_sig (World [] ∅ 0) =
    (Returns [("const", Num 0); ("logq", Num 0); ("logq^2", Num 0);
              ("logq^3", Num 0); ("logq^4", Num 0); ("d", Num 0)],
     World [Number (np_round (Num 0.5) 2)] ∅ 0).
Proof.
  destruct (C9_surrogate_fit_six_predictors
              sample_OLS sample_q sample_d sample_sig (World [] ∅ 0))
    as (_ & Hkept & Hfinite & _); [reflexivity | reflexivity |].
  destruct Hfinite as [Hreturns _].
  - intros Hnil.
    assert (Hin : (Num 1500, Num (-300), Num 9) ∈
                  fit_points sample_q sample_d sample_sig).
    { apply Hkept. unfold point_logq, point_d, point_sig. cbn [fst snd].
      rewrite flog_pos by lra. split; [left | done]. }
    rewrite Hnil in Hin. by apply elem_of_nil in Hin.
  - apply Forall_forall. intros r Hr.
    apply Hkept in Hr as (Hin & Hlog & _).
    unfold sample_q, sample_d, sample_sig in Hin. cbn [zip zip_with] in Hin.
    unfold finite_predictors.
    rewrite !elem_of_cons, elem_of_nil in Hin.
    destruct Hin as [-> | [-> | [-> | []]]];
      unfold point_logq, point_d in *; cbn [fst snd] in *.
    + rewrite flog_pos by lra. reflexivity.
    + discriminate.
    + rewrite flog_pos by lra. reflexivity.
  - destruct (Hreturns (OLSSolution (fun _ => Num 0) (Num 0.5)) eq_refl)
      as (Hrun & _).
    exact Hrun.
Defined.

(** ** The Monte Carlo runs *)

Lemma wisper_uncertainties_MC_call mc_normalsampler d q calparams
    sig_calparams sig_d :
  wisper_uncertainties_MC mc_normalsampler d q calparams sig_calparams sig_d =
    mc_normalsampler
      (SamplerCall pic1_isoratio_fullcal [d; q] calparams sig_calparams 6000
         ((fun s => [s; zeros_like q]) <$> sig_d) (Some true)).
Proof. destruct sig_d; reflexivity. Qed.

(** C8: [sigma_with_fit_dD] and [sigma_with_fit_d18O] name 6000 trials and
    build the humidity 1500..22000 by dD -300..-60, respectively d18O
    -30..-8, grids, but stop before the sampler is called: the calibration
    function they pass, [pic1_isoratio_fullcal], is not a name in their
    scope, and evaluating it raises [NameError], whatever the arguments. *)
Theorem C8_sigma_with_fit_raises_before_sampling
    (mc_normalsampler : sampler_call -> io (list operand))
    (dD_precision_pic1 d18O_precision_pic1 : operand -> operand)
    (OLS_fit : Series -> list (string * Series) -> outcome ols_solution)
    (params sig_params : list float) (sig_inputvars ax_cax : bool) (w : world) :
  sigma_with_fit_dD mc_normalsampler dD_precision_pic1 OLS_fit
      params sig_params sig_inputvars ax_cax w
    = (Raises (NameError "pic1_isoratio_fullcal"), w) /\
  sigma_with_fit_d18O mc_normalsampler d18O_precision_pic1 OLS_fit
      params sig_params sig_inputvars ax_cax w
    = (Raises (NameError "pic1_isoratio_fullcal"), w).
Proof.
  split; destruct sig_inputvars; reflexivity.
Qed.

Lemma linspace_lookup (start stop : R) (num i : nat) :
  (i < num)%nat ->
  linspace start stop num !! i =
    Some (start + INR i * ((stop - start) / INR (num - 1))).
Proof.
  intros Hi. unfold linspace.
  rewrite list_lookup_fmap, lookup_seq_lt by exact Hi. reflexivity.
Qed.

Lemma linspace_bounds (start stop : R) (num : nat) (x : R) :
  start <= stop -> (2 ≤ num)%nat -> x ∈ linspace start stop num ->
  start <= x <= stop.
Proof.
  intros Hle Hnum Hx. unfold linspace in Hx.
  apply list_elem_of_fmap in Hx as (i & -> & Hi).
  apply elem_of_seq in Hi as [_ Hi]. simpl in Hi.
  assert (Hn : 0 < INR (num - 1)) by (apply lt_0_INR; lia).
  assert (Hi' : 0 <= INR i <= INR (num - 1)).
  { split; [apply pos_INR | apply le_INR; lia]. }
  set (n := INR (num - 1)) in *. set (t := INR i) in *.
  assert (Ht : 0 <= t / n <= 1).
  { split.
    - apply Rmult_le_pos; [lra |]. left. by apply Rinv_0_lt_compat.
    - apply (Rmult_le_reg_r n); [exact Hn |].
      unfold Rdiv. rewrite Rmult_assoc, Rinv_l by lra. lra. }
  replace (start + t * ((stop - start) / n))
    with (start + (t / n) * (stop - start)) by (field; lra).
  split; nra.
Qed.

Lemma linspace_ends (start stop : R) (num : nat) :
  (2 ≤ num)%nat ->
  linspace start stop num !! 0%nat = Some start /\
  linspace start stop num !! (num - 1)%nat = Some stop.
Proof.
  intros Hnum.
  assert (Hn : 0 < INR (num - 1)) by (apply lt_0_INR; lia).
  rewrite !linspace_lookup by lia. split; f_equal.
  - simpl. lra.
  - field. lra.
Qed.

Lemma meshgrid_elements (x y : list R) (q d : Series) :
  meshgrid x y = (Vector q, Vector d) ->
  (forall v, v ∈ q -> exists r, v = Num r /\ r ∈ x) /\
  (forall v, v ∈ d -> exists r, v = Num r /\ r ∈ y).
Proof.
  unfold meshgrid. intros [= <- <-]. split; intros v Hv.
  - apply list_elem_of_join in Hv as (row & Hv & Hrow).
    apply list_elem_of_fmap in Hrow as (_ & -> & _).
    apply list_elem_of_fmap in Hv as (r & -> & Hr). eauto.
  - apply list_elem_of_join in Hv as (row & Hv & Hrow).
    apply list_elem_of_fmap in Hrow as (yj & -> & Hyj).
    apply list_elem_of_fmap in Hv as (_ & -> & _). eauto.
Qed.

(** The run that does reach the sampler: [wisper_uncertainties_with_fit]
    asks for 6000 trials of [pic1_isoratio_fullcal] over the humidity
    1500..22000 by dD -300..-60 grid. *)
Lemma wisper_uncertainties_with_fit_samples mc_normalsampler OLS_fit
    table pars sigpars w :
  get_calparams table "D" (Num 1) = Returns (pars, sigpars) ->
  exists q d : Series,
    (forall v, v ∈ q -> exists r, v = Num r /\ 1500 <= r <= 22000) /\
    (forall v, v ∈ d -> exists r, v = Num r /\ -300 <= r <= -60) /\
    wisper_uncertainties_with_fit mc_normalsampler OLS_fit table w =
      (results ← mc_normalsampler
                   (SamplerCall pic1_isoratio_fullcal [Vector d; Vector q]
                      pars sigpars 6000 None (Some true));
       sigWISP2_D ← lift (index results 1);
       parsD_fit2 ← fit_poly OLS_fit q d (flatten sigWISP2_D);
       _ ← lift (wisper_sig_formula (Vector q) (Vector d) parsD_fit2.*2);
       mret tt) w.
Proof.
  intros Hpars. unfold wisper_uncertainties_with_fit.
  set (x := linspace 1500 22000 100). set (y := linspace (-300) (-60) 150).
  destruct (meshgrid_elements x y _ _ eq_refl) as [Hq Hd].
  unfold meshgrid. cbv beta iota.
  eexists _, _. split; [|split].
  - intros v Hv. destruct (Hq v Hv) as (r & -> & Hr). exists r. split; [done |].
    apply (linspace_bounds 1500 22000 100); [lra | lia | exact Hr].
  - intros v Hv. destruct (Hd v Hv) as (r & -> & Hr). exists r. split; [done |].
    apply (linspace_bounds (-300) (-60) 150); [lra | lia | exact Hr].
  - rewrite Hpars. reflexivity.
Qed.

(** * Further properties of the pipelines *)

(** ** File names *)

Lemma string_length_app (s t : string) :
  String.length (s +:+ t) = (String.length s + String.length t)%nat.
Proof. induction s as [|a s IH]; simpl; [done |]. by rewrite IH. Qed.

Lemma string_app_inj_r (t s1 s2 : string) : s1 +:+ t = s2 +:+ t -> s1 = s2.
Proof.
  intros H.
  assert (Hlen : String.length s1 = String.length s2).
  { apply (f_equal String.length) in H. rewrite !string_length_app in H. lia. }
  revert s2 H Hlen. induction s1 as [|a s1 IH]; intros [|b s2] H Hlen;
    simpl in *; try done.
  injection H as -> H. f_equal. apply IH; [done | lia].
Qed.

Lemma pic2cal_file_inj (d d' : string) : pic2cal_file d = pic2cal_file d' -> d = d'.
Proof.
  unfold pic2cal_file. intros H.
  apply (inj (String.append _)) in H. apply (inj (String.append _)) in H.
  by apply string_app_inj_r in H.
Qed.

Lemma timesync_not_pic2cal (d d' : string) : timesync_file d ≠ pic2cal_file d'.
Proof. unfold timesync_file, pic2cal_file. simpl. discriminate. Qed.

Lemma pic1cal_not_pic2cal (d d' : string) : pic1cal_file d ≠ pic2cal_file d'.
Proof. unfold pic1cal_file, pic2cal_file. simpl. discriminate. Qed.

(** ** Loops over flights *)

Lemma for_each_app {A} (body : A -> io unit) (xs ys : list A) (w : world) :
  for_each body (xs ++ ys) w = (for_each body xs ;; for_each body ys) w.
Proof.
  revert w. induction xs as [|x xs IH]; intros w; [reflexivity |].
  cbn [app for_each]. unfold mbind, io_bind.
  destruct (body x w) as [[[]|e] w1]; [|reflexivity].
  rewrite IH. reflexivity.
Qed.

Section Batch.

Variable body : string -> io unit.
Variables infile outfile : string -> string.
Variable result : gmap string Series -> option (gmap string Series).

Hypothesis in_not_out : forall d d', infile d ≠ outfile d'.
Hypothesis out_inj : forall d d', outfile d = outfile d' -> d = d'.
Hypothesis body_returns : forall d w out,
  flight_output infile result w d = Some out ->
  body d w =
    (Returns tt,
     World (stdout w ++ [Text d]) (<[outfile d := out]> (files w)) (rng w)).

Lemma flight_output_frame (w w' : world) (d : string) :
  files w' !! infile d = files w !! infile d ->
  flight_output infile result w' d = flight_output infile result w d.
Proof. intros H. unfold flight_output. by rewrite H. Qed.

(** A run over flights that all have an output: the dates are printed in
    order, each output file holds the output of its flight, and every other
    file is as before. *)
Lemma batch_returns (dates : list string) (w : world) :
  (forall d, d ∈ dates -> is_Some (flight_output infile result w d)) ->
  exists w',
    for_each body dates w = (Returns tt, w') /\
    stdout w' = stdout w ++ map Text dates /\
    rng w' = rng w /\
    (forall d, d ∈ dates ->
       files w' !! outfile d = flight_output infile result w d) /\
    (forall path, (forall d, d ∈ dates -> path ≠ outfile d) ->
       files w' !! path = files w !! path).
Proof.
  revert w. induction dates as [|d0 rest IH]; intros w Hall.
  - exists w. split; [reflexivity |]. split; [by rewrite app_nil_r |].
    split; [reflexivity |]. split; [|done].
    intros d Hd. by apply elem_of_nil in Hd.
  - destruct (Hall d0) as [out Hout]; [left |].
    set (w1 := World (stdout w ++ [Text d0]) (<[outfile d0 := out]> (files w))
                     (rng w)).
    assert (Hsame : forall d,
              flight_output infile result w1 d = flight_output infile result w d).
    { intros d. apply flight_output_frame. subst w1. cbn [files].
      apply lookup_insert_ne. intros E. by apply (in_not_out d d0). }
    destruct (IH w1) as (w' & Hrun & Hout' & Hrng & Hfiles & Hother).
    { intros d Hd. rewrite Hsame. apply Hall. by right. }
    exists w'. split.
    { rewrite for_each_cons. erewrite run_bind by (by apply body_returns).
      exact Hrun. }
    split.
    { rewrite Hout'. subst w1. cbn [stdout map]. by rewrite <- app_assoc. }
    split; [by rewrite Hrng |]. split.
    + intros d Hd. destruct (decide (d ∈ rest)) as [Hin|Hnin].
      * rewrite Hfiles, Hsame by exact Hin. reflexivity.
      * apply elem_of_cons in Hd as [-> | Hd]; [|contradiction].
        rewrite Hother.
        -- subst w1. cbn [files]. rewrite lookup_insert_eq. by rewrite Hout.
        -- intros d Hd E. apply out_inj in E. subst d. contradiction.
    + intros path Hpath. rewrite Hother.
      * subst w1. cbn [files]. apply lookup_insert_ne.
        intros E. apply (Hpath d0); [left | done].
      * intros d Hd. apply Hpath. by right.
Qed.

(** Running the same flights again rewrites the same files. *)
Lemma batch_again (dates : list string) (w : world) :
  (forall d, d ∈ dates -> is_Some (flight_output infile result w d)) ->
  exists w1 w2,
    for_each body dates w = (Returns tt, w1) /\
    for_each body dates w1 = (Returns tt, w2) /\
    files w2 = files w1 /\
    stdout w2 = stdout w ++ map Text dates ++ map Text dates.
Proof.
  intros Hall.
  destruct (batch_returns dates w Hall) as (w1 & Hrun1 & Hout1 & _ & Hf1 & Ho1).
  assert (Hsame : forall d,
            flight_output infile result w1 d = flight_output infile result w d).
  { intros d. apply flight_output_frame. apply Ho1.
    intros d' _. apply in_not_out. }
  destruct (batch_returns dates w1) as (w2 & Hrun2 & Hout2 & _ & Hf2 & Ho2).
  { intros d Hd. rewrite Hsame. by apply Hall. }
  exists w1, w2. split; [exact Hrun1 |]. split; [exact Hrun2 |]. split.
  - apply map_eq. intros path.
    destruct (decide (Exists (fun d => path = outfile d) dates)) as [Hex|Hnex].
    + apply Exists_exists in Hex as (d & Hd & ->).
      rewrite Hf2, Hf1, Hsame by exact Hd. reflexivity.
    + apply Ho2. intros d Hd E. apply Hnex, Exists_exists. eauto.
  - rewrite Hout2, Hout1, <- app_assoc. reflexivity.
Qed.

End Batch.

(** ** Runs of [pic2_cal16] *)

Lemma cal16_flight_output e date w out :
  flight_output timesync_file (calibrated16 e) w date = Some out ->
  cal16_flight (Some e) date w =
    (Returns tt,
     World (stdout w ++ [Text date]) (<[pic2cal_file date := out]> (files w))
           (rng w)).
Proof.
  unfold flight_output, calibrated16. intros H.
  destruct (files w !! timesync_file date) as [raw|] eqn:Hfile; [|done].
  cbn in H.
  destruct (raw !! "dD_tot2") as [dD|] eqn:HdD; [|done].
  destruct (raw !! "h2o_tot2") as [q|] eqn:Hq; [|done].
  destruct (raw !! "d18O_tot2") as [dO|] eqn:HdO; [|done].
  cbn in H. injection H as <-.
  by apply cal16_flight_returns.
Qed.

Lemma cal16_flight_no_output e date w :
  flight_output timesync_file (calibrated16 e) w date = None ->
  cal16_flight (Some e) date w =
    (Raises (flight_error16 w date),
     World (stdout w ++ [Text date]) (files w) (rng w)).
Proof.
  unfold flight_output, calibrated16, flight_error16, cal16_flight. intros H.
  erewrite run_bind by reflexivity.
  change (path_timesync_dir +:+ "WISPER_" +:+ date +:+ "_time-sync.ict")
    with (timesync_file date).
  destruct (files w !! timesync_file date) as [raw|] eqn:Hfile.
  - erewrite run_bind by (apply run_read_csv; exact Hfile).
    cbn in H.
    destruct (raw !! "dD_tot2") as [dD|] eqn:HdD.
    + erewrite run_bind
        by (apply run_getitem; rewrite lookup_replace_flag, HdD; reflexivity).
      destruct (raw !! "h2o_tot2") as [q|] eqn:Hq.
      * erewrite run_bind
          by (apply run_getitem; rewrite lookup_replace_flag, Hq; reflexivity).
        do 2 (erewrite run_bind by apply run_local).
        rewrite q_dep_cal_column. cbn [setitem].
        destruct (raw !! "d18O_tot2") as [dO|] eqn:HdO; [done |].
        erewrite run_bind_raises; [reflexivity |].
        unfold getitem. rewrite lookup_insert_ne by done.
        rewrite lookup_replace_flag, HdO. reflexivity.
      * erewrite run_bind_raises; [reflexivity |].
        unfold getitem. rewrite lookup_replace_flag, Hq. reflexivity.
    + erewrite run_bind_raises; [reflexivity |].
      unfold getitem. rewrite lookup_replace_flag, HdD. reflexivity.
  - erewrite run_bind_raises; [reflexivity |].
    unfold read_csv. cbn [files]. rewrite Hfile. reflexivity.
Qed.

Lemma cal16_flight_effect env date w :
  exists o w',
    cal16_flight env date w = (o, w') /\
    stdout w' = stdout w ++ [Text date] /\
    rng w' = rng w /\
    ((exists err, o = Raises err) /\ files w' = files w \/
     o = Returns tt /\
     exists out, files w' = <[pic2cal_file date := out]> (files w)).
Proof.
  destruct env as [e|].
  - destruct (flight_output timesync_file (calibrated16 e) w date)
      as [out|] eqn:Hout.
    + rewrite (cal16_flight_output e date w out Hout).
      eexists _, _. split; [reflexivity |]. cbn. split; [done |].
      split; [done |]. right. eauto.
    + rewrite (cal16_flight_no_output e date w Hout).
      eexists _, _. split; [reflexivity |]. cbn. split; [done |].
      split; [done |]. left. eauto.
  - rewrite cal16_flight_unbound.
    eexists _, _. split; [reflexivity |]. cbn. split; [done |].
    split; [done |]. left. eauto.
Qed.

(** X1: whatever the instrument, the dates and the files, a run of
    [pic2_cal16] leaves the random generator alone, prints the dates of the
    flights it started, in order and all of them when it returns, and
    changes no file other than the output files of its dates; in particular
    no flight file it reads from. *)
Theorem pic2_cal16_only_writes_outputs (dates : list string) (pic : string)
    (w : world) :
  rng (pic2_cal16 dates pic w).2 = rng w /\
  (exists n, (n ≤ length dates)%nat /\
     stdout (pic2_cal16 dates pic w).2 = stdout w ++ map Text (take n dates) /\
     ((pic2_cal16 dates pic w).1 = Returns tt -> n = length dates)) /\
  (forall path, (forall d, d ∈ dates -> path ≠ pic2cal_file d) ->
     files (pic2_cal16 dates pic w).2 !! path = files w !! path) /\
  (forall date,
     files (pic2_cal16 dates pic w).2 !! timesync_file date
       = files w !! timesync_file date).
Proof.
  unfold pic2_cal16. set (env := bind_parameters pic). clearbody env.
  assert (H : rng (for_each (cal16_flight env) dates w).2 = rng w /\
    (exists n, (n ≤ length dates)%nat /\
       stdout (for_each (cal16_flight env) dates w).2
         = stdout w ++ map Text (take n dates) /\
       ((for_each (cal16_flight env) dates w).1 = Returns tt ->
        n = length dates)) /\
    (forall path, (forall d, d ∈ dates -> path ≠ pic2cal_file d) ->
       files (for_each (cal16_flight env) dates w).2 !! path
         = files w !! path)).
  { revert w. induction dates as [|d rest IH]; intros w.
    - cbn. split; [done |]. split; [|done].
      exists 0%nat. rewrite app_nil_r. done.
    - rewrite for_each_cons. unfold mbind, io_bind.
      destruct (cal16_flight_effect env d w)
        as (o & w1 & -> & Hout & Hrng & Hfiles).
      destruct Hfiles as [[[err ->] Hf] | [-> [out Hf]]].
      + cbn. split; [done |]. split.
        * exists 1%nat. cbn. rewrite take_0. split; [lia |]. done.
        * intros path _. by rewrite Hf.
      + destruct (IH w1) as (Hr & (n & Hn & Hs & Hret) & Hp).
        split; [by rewrite Hr |]. split.
        * exists (S n). cbn [length take map]. split; [lia |].
          rewrite Hs, Hout, <- app_assoc. split; [done |].
          intros E. by rewrite (Hret E).
        * intros path Hpath. rewrite Hp, Hf.
          -- apply lookup_insert_ne. intros E.
             apply (Hpath d); [left | done].
          -- intros d' Hd'. apply Hpath. by right. }
  destruct H as (Hr & Hn & Hp). split; [exact Hr |]. split; [exact Hn |].
  split; [exact Hp |].
  intros date. apply Hp. intros d _. apply timesync_not_pic2cal.
Qed.

Lemma for_each_cal16_returns (e : locals16) (dates : list string) (w : world) :
  (forall d, d ∈ dates ->
     is_Some (flight_output timesync_file (calibrated16 e) w d)) ->
  exists w',
    for_each (cal16_flight (Some e)) dates w = (Returns tt, w') /\
    stdout w' = stdout w ++ map Text dates /\
    rng w' = rng w /\
    (forall d, d ∈ dates ->
       files w' !! pic2cal_file d
         = flight_output timesync_file (calibrated16 e) w d) /\
    (forall path, (forall d, d ∈ dates -> path ≠ pic2cal_file d) ->
       files w' !! path = files w !! path).
Proof.
  apply (batch_returns (cal16_flight (Some e)) timesync_file pic2cal_file
           (calibrated16 e)).
  - apply timesync_not_pic2cal.
  - apply pic2cal_file_inj.
  - intros d w0 out. apply cal16_flight_output.
Qed.

(** X2: with a known instrument and flights whose files hold the three
    Picarro-2 columns, [pic2_cal16] returns, prints every date in order,
    leaves in the output file of each flight the calibrated frame of that
    flight's input, whatever the other flights are and however often a date
    is repeated, and leaves every other file as it was. *)
Theorem pic2_cal16_writes_every_flight (pic : string) (e : locals16)
    (dates : list string) (w : world) :
  bind_parameters pic = Some e ->
  (forall d, d ∈ dates ->
     is_Some (flight_output timesync_file (calibrated16 e) w d)) ->
  exists w',
    pic2_cal16 dates pic w = (Returns tt, w') /\
    stdout w' = stdout w ++ map Text dates /\
    rng w' = rng w /\
    (forall d, d ∈ dates ->
       files w' !! pic2cal_file d
         = flight_output timesync_file (calibrated16 e) w d) /\
    (forall path, (forall d, d ∈ dates -> path ≠ pic2cal_file d) ->
       files w' !! path = files w !! path).
Proof.
  intros Hpar Hall. unfold pic2_cal16. rewrite Hpar.
  by apply for_each_cal16_returns.
Qed.

Lemma pic2_cal16_writes_every_flight_witness :
  exists w',
    pic2_cal16 ["20160830"; "20160831"] "Mako" sample_world_two_flights
      = (Returns tt, w') /\
    stdout w' = [Text "20160830"; Text "20160831"] /\
    files w' !! pic2cal_file "20160831"
      = calibrated16 mako_block sample_frame.
Proof.
  destruct (pic2_cal16_writes_every_flight "Mako" mako_block
              ["20160830"; "20160831"] sample_world_two_flights)
    as (w' & Hrun & Hout & _ & Hfiles & _).
  - reflexivity.
  - intros d Hd.
    apply elem_of_cons in Hd as [-> | Hd]; [by eexists |].
    apply elem_of_cons in Hd as [-> | Hd]; [by eexists |].
    by apply elem_of_nil in Hd.
  - exists w'. split; [exact Hrun |]. split; [exact Hout |].
    rewrite Hfiles by (right; left). reflexivity.
Defined.

(** X3: running [pic2_cal16] a second time over the same flights, after a
    run in which every flight had its file and columns, succeeds again and
    leaves the files exactly as the first run left them; only the dates are
    printed once more. *)
Theorem pic2_cal16_twice_same_files (pic : string) (e : locals16)
    (dates : list string) (w : world) :
  bind_parameters pic = Some e ->
  (forall d, d ∈ dates ->
     is_Some (flight_output timesync_file (calibrated16 e) w d)) ->
  exists w1 w2,
    pic2_cal16 dates pic w = (Returns tt, w1) /\
    pic2_cal16 dates pic w1 = (Returns tt, w2) /\
    files w2 = files w1 /\
    stdout w2 = stdout w ++ map Text dates ++ map Text dates.
Proof.
  intros Hpar Hall. unfold pic2_cal16. rewrite Hpar.
  apply (batch_again (cal16_flight (Some e)) timesync_file pic2cal_file
           (calibrated16 e)).
  - apply timesync_not_pic2cal.
  - apply pic2cal_file_inj.
  - intros d w0 out. apply cal16_flight_output.
  - exact Hall.
Qed.

Lemma pic2_cal16_twice_same_files_witness :
  exists w1 w2,
    pic2_cal16 ["20160830"; "20160831"] "Gulper" sample_world_two_flights
      = (Returns tt, w1) /\
    pic2_cal16 ["20160830"; "20160831"] "Gulper" w1 = (Returns tt, w2) /\
    files w2 = files w1.
Proof.
  destruct (pic2_cal16_twice_same_files "Gulper" gulper_block
              ["20160830"; "20160831"] sample_world_two_flights)
    as (w1 & w2 & H1 & H2 & Hf & _).
  - reflexivity.
  - intros d Hd.
    apply elem_of_cons in Hd as [-> | Hd]; [by eexists |].
    apply elem_of_cons in Hd as [-> | Hd]; [by eexists |].
    by apply elem_of_nil in Hd.
  - exists w1, w2. auto.
Defined.

(** X4: with a known instrument, [pic2_cal16] stops at the first flight
    whose file or one of whose three columns is missing: it raises the file
    or key error of that flight after printing its date, keeps the outputs
    of the flights before it, writes nothing else, and does not start the
    flights after it. *)
Theorem pic2_cal16_stops_at_first_failing_flight (pic : string) (e : locals16)
    (done_ : list string) (date : string) (rest : list string) (w : world) :
  bind_parameters pic = Some e ->
  (forall d, d ∈ done_ ->
     is_Some (flight_output timesync_file (calibrated16 e) w d)) ->
  flight_output timesync_file (calibrated16 e) w date = None ->
  exists w',
    pic2_cal16 (done_ ++ date :: rest) pic w
      = (Raises (flight_error16 w date), w') /\
    stdout w' = stdout w ++ map Text done_ ++ [Text date] /\
    (forall d, d ∈ done_ ->
       files w' !! pic2cal_file d
         = flight_output timesync_file (calibrated16 e) w d) /\
    (forall path, (forall d, d ∈ done_ -> path ≠ pic2cal_file d) ->
       files w' !! path = files w !! path).
Proof.
  intros Hpar Hall Hnone.
  destruct (for_each_cal16_returns e done_ w Hall)
    as (w1 & Hrun & Hout & Hrng & Hfiles & Hother).
  unfold pic2_cal16. rewrite Hpar.
  assert (Hsame : files w1 !! timesync_file date = files w !! timesync_file date).
  { apply Hother. intros d _. apply timesync_not_pic2cal. }
  assert (Hnone1 : flight_output timesync_file (calibrated16 e) w1 date = None).
  { unfold flight_output in *. by rewrite Hsame. }
  assert (Herr : flight_error16 w1 date = flight_error16 w date).
  { unfold flight_error16. by rewrite Hsame. }
  exists (World (stdout w1 ++ [Text date]) (files w1) (rng w1)).
  split; [|split; [|split]].
  - rewrite for_each_app. erewrite run_bind by exact Hrun.
    rewrite for_each_cons.
    erewrite run_bind_raises by (by apply cal16_flight_no_output).
    by rewrite Herr.
  - cbn. rewrite Hout, <- app_assoc. reflexivity.
  - exact Hfiles.
  - exact Hother.
Qed.

Lemma pic2_cal16_stops_at_first_failing_flight_witness :
  exists w',
    pic2_cal16 ["20160830"; "20160901"; "20160831"] "Mako"
        sample_world_two_flights
      = (Raises (FileNotFoundError (timesync_file "20160901")), w') /\
    stdout w' = [Text "20160830"; Text "20160901"] /\
    files w' !! pic2cal_file "20160830"
      = calibrated16 mako_block sample_frame.
Proof.
  destruct (pic2_cal16_stops_at_first_failing_flight "Mako" mako_block
              ["20160830"] "20160901" ["20160831"] sample_world_two_flights)
    as (w' & Hrun & Hout & Hfiles & _).
  - reflexivity.
  - intros d Hd.
    apply elem_of_cons in Hd as [-> | Hd]; [by eexists |].
    by apply elem_of_nil in Hd.
  - reflexivity.
  - exists w'. split; [exact Hrun |]. split; [exact Hout |].
    rewrite Hfiles by left. reflexivity.
Defined.

(** ** The operating range of the humidity-dependence correction *)

Lemma is_integer_between (r : R) (z : Z) :
  IZR z < r < IZR z + 1 -> is_integer r = false.
Proof.
  intros [Hlo Hhi]. unfold is_integer.
  assert (Hz : z = Int_part r) by (apply Int_part_spec; lra).
  rewrite <- Hz. destruct (Req_dec_T (IZR z) r); [lra | reflexivity].
Qed.

Lemma fpow_negative_base (x b : R) :
  x < 0 -> is_integer b = false -> (Num x ** Num b)%flt = NaN.
Proof.
  intros Hx Hb. unfold fpow.
  destruct (Req_dec_T b 0) as [->|_].
  { rewrite (is_integer_IZR 0) in Hb. discriminate. }
  destruct (Rlt_dec 0 x); [lra |].
  destruct (Req_dec_T x 0); [lra |].
  rewrite Hb. reflexivity.
Qed.

Lemma fpow_positive_base (x b : R) :
  0 < x -> b <> 0 -> (Num x ** Num b)%flt = Num (Rpower x b).
Proof.
  intros Hx Hb. unfold fpow.
  destruct (Req_dec_T b 0); [contradiction |].
  destruct (Rlt_dec 0 x); [reflexivity | contradiction].
Qed.

Lemma fpow_zero_base (b : R) : 0 < b -> (Num 0 ** Num b)%flt = Num 0.
Proof.
  intros Hb. unfold fpow.
  destruct (Req_dec_T b 0); [lra |].
  destruct (Rlt_dec 0 0); [lra |].
  destruct (Req_dec_T 0 0); [|lra].
  destruct (Rlt_dec 0 b); [reflexivity | contradiction].
Qed.

Lemma bind_parameters_values (pic : string) (e : locals16) :
  bind_parameters pic = Some e ->
  exists aD' bD' a18O' b18O' mD' kD' m18O' k18O' : R,
    e = Locals16 (Num aD') (Num bD') (Num a18O') (Num b18O')
                 (Num mD') (Num kD') (Num m18O') (Num k18O')
                 (mq e) (kq e) /\
    (0 < bD' /\ 0 < b18O') /\
    (is_integer bD' = false /\ is_integer b18O' = false) /\
    (aD' <> 0 /\ a18O' <> 0) /\ (0 < mD' /\ 0 < m18O').
Proof.
  intros H. destruct (bind_parameters_cases pic e H) as [[_ ->] | [_ ->]].
  - exists (-0.365), 3.031, (-0.00581), 4.961, 1.056412, (-5.957469),
           1.051851, (-1.041851 + 3.5).
    split; [reflexivity |]. split; [lra |]. split; [|lra].
    split; [apply (is_integer_between _ 3) | apply (is_integer_between _ 4)];
      lra.
  - exists 0.035, 4.456, 0.06707, 1.889, 1.094037184,
           (-75 - 1.094037184 * -94), 1.06831472,
           (-11.5 - 1.06831472 * -16.7).
    split; [reflexivity |]. split; [lra |]. split; [|lra].
    split; [apply (is_integer_between _ 4) | apply (is_integer_between _ 1)];
      lra.
Qed.

(** The three regimes of the correction, by the sign of the base
    [ln(50000) - ln(q)] as computed. *)
Lemma fullCalibration_in_range (d q a b m k l0 lq : R) :
  0 < b -> is_integer b = false ->
  flog (Num 50000) = Num l0 -> flog (Num q) = Num lq ->
  (l0 < lq ->
   spec_fullCalibration (Num d) (Num q) (Num a) (Num b) (Num m) (Num k) = NaN) /\
  (lq = l0 ->
   spec_fullCalibration (Num d) (Num q) (Num a) (Num b) (Num m) (Num k)
     = Num (m * (d - a * 0) + k)) /\
  (lq < l0 ->
   spec_fullCalibration (Num d) (Num q) (Num a) (Num b) (Num m) (Num k)
     = Num (m * (d - a * Rpower (l0 - lq) b) + k)).
Proof.
  intros Hb Hint Hl0 Hlq. unfold spec_fullCalibration.
  rewrite Hl0, Hlq. cbn [fsub].
  split; [|split].
  - intros Hq. rewrite fpow_negative_base by (lra || assumption). reflexivity.
  - intros ->. replace (l0 - l0) with 0 by lra.
    rewrite fpow_zero_base by exact Hb. reflexivity.
  - intros Hq. rewrite fpow_positive_base by lra. reflexivity.
Qed.

(** At a zero humidity the logarithm is minus infinity and the calibrated
    value is infinite. *)
Lemma fullCalibration_zero_humidity (d a b m k : R) :
  0 < b -> a <> 0 -> 0 < m ->
  spec_fullCalibration (Num d) (Num 0) (Num a) (Num b) (Num m) (Num k)
    = Inf (negb (is_negative a)).
Proof.
  intros Hb Ha Hm. unfold spec_fullCalibration.
  rewrite (flog_pos 50000) by lra. rewrite flog_zero. cbn [fsub negb].
  rewrite fpow_pinf by exact Hb. cbn [fmul].
  destruct (Req_dec_T a 0); [contradiction |]. cbn [fsub fmul].
  destruct (Req_dec_T m 0); [lra |].
  unfold is_negative at 1. destruct (Rlt_dec m 0); [lra |].
  cbn [xorb fadd]. by destruct (is_negative a).
Qed.

Lemma fullcal_scalar (d q a b m k : float) :
  abscal_line (q_dep_cal d q a b) m k
  = Scalar (spec_fullCalibration d q a b m k).
Proof. reflexivity. Qed.

(** X6: with the parameters of either instrument, the calibration of an
    isotope ratio [d] at a humidity [q] depends on how the logarithm of [q],
    as computed, compares with that of 50000.  When it is larger the result
    is not-a-number: the base of the power is negative and the exponents of
    both instruments are not integers.  When the two are equal the result
    is the absolute calibration [m*d + k] alone; when it is smaller the
    result is a number; and at a zero humidity, whose logarithm is minus
    infinity, the result is infinite. *)
Theorem pic2_cal16_humidity_range (pic : string) (e : locals16)
    (d q l0 lq : R) :
  bind_parameters pic = Some e ->
  flog (Num 50000) = Num l0 ->
  flog (Num q) = Num lq ->
  (l0 < lq ->
   abscal_line (q_dep_cal (Num d) (Num q) (aD e) (bD e)) (mD e) (kD e)
     = Scalar NaN /\
   abscal_line (q_dep_cal (Num d) (Num q) (a18O e) (b18O e)) (m18O e) (k18O e)
     = Scalar NaN) /\
  (lq = l0 ->
   abscal_line (q_dep_cal (Num d) (Num q) (aD e) (bD e)) (mD e) (kD e)
     = Scalar (mD e * Num d + kD e)%flt /\
   abscal_line (q_dep_cal (Num d) (Num q) (a18O e) (b18O e)) (m18O e) (k18O e)
     = Scalar (m18O e * Num d + k18O e)%flt) /\
  (lq < l0 ->
   exists rD rO : R,
     abscal_line (q_dep_cal (Num d) (Num q) (aD e) (bD e)) (mD e) (kD e)
       = Scalar (Num rD) /\
     abscal_line (q_dep_cal (Num d) (Num q) (a18O e) (b18O e)) (m18O e) (k18O e)
       = Scalar (Num rO)) /\
  (exists sD sO : bool,
     abscal_line (q_dep_cal (Num d) (Num 0) (aD e) (bD e)) (mD e) (kD e)
       = Scalar (Inf sD) /\
     abscal_line (q_dep_cal (Num d) (Num 0) (a18O e) (b18O e)) (m18O e) (k18O e)
       = Scalar (Inf sO)).
Proof.
  intros Hpar Hl0 Hlq.
  destruct (bind_parameters_values pic e Hpar)
    as (a1 & b1 & a2 & b2 & m1 & k1 & m2 & k2 & -> & [Hb1 Hb2] & [Hi1 Hi2]
        & [Ha1 Ha2] & [Hm1 Hm2]).
  cbn [aD bD a18O b18O mD kD m18O k18O].
  rewrite !fullcal_scalar.
  destruct (fullCalibration_in_range d q a1 b1 m1 k1 l0 lq Hb1 Hi1 Hl0 Hlq)
    as (HD1 & HD2 & HD3).
  destruct (fullCalibration_in_range d q a2 b2 m2 k2 l0 lq Hb2 Hi2 Hl0 Hlq)
    as (HO1 & HO2 & HO3).
  split; [|split; [|split]].
  - intros Hq. rewrite (HD1 Hq), (HO1 Hq). split; reflexivity.
  - intros Hq. rewrite (HD2 Hq), (HO2 Hq). cbn [fmul fadd].
    split; do 2 f_equal; lra.
  - intros Hq. rewrite (HD3 Hq), (HO3 Hq). eexists _, _. split; reflexivity.
  - rewrite (fullCalibration_zero_humidity d a1 b1 m1 k1) by assumption.
    rewrite (fullCalibration_zero_humidity d a2 b2 m2 k2) by assumption.
    eexists _, _. split; reflexivity.
Qed.

Lemma pic2_cal16_humidity_range_witness :
  abscal_line (q_dep_cal (Num (-70)) (Num 60000)
                 (aD mako_block) (bD mako_block))
              (mD mako_block) (kD mako_block) = Scalar NaN.
Proof.
  destruct (pic2_cal16_humidity_range "Mako" mako_block (-70) 60000
              (ln 50000) (ln 60000))
    as (H & _).
  - reflexivity.
  - apply flog_pos. lra.
  - apply flog_pos. lra.
  - apply H. apply ln_increasing; lra.
Defined.

(** ** Runs of [pic2_cal1718] *)

Lemma cal1718_flight_output tables year testplots ph pD pO date w out :
  params_h2o tables !! year = Some ph ->
  params_dD tables !! year = Some pD ->
  params_d18O tables !! year = Some pO ->
  flight_output pic1cal_file (calibrated1718 ph pD pO testplots) w date
    = Some out ->
  cal1718_flight tables year testplots date w =
    (Returns tt,
     World (stdout w ++ [Text date]) (<[pic2cal_file date := out]> (files w))
           (rng w)).
Proof.
  intros Hph HpD HpO. unfold flight_output, calibrated1718. intros H.
  destruct (files w !! pic1cal_file date) as [raw|] eqn:Hfile; [|done].
  cbn in H.
  destruct (raw !! "h2o_tot2") as [q|] eqn:Hq; [|done].
  destruct (raw !! "dD_tot2") as [dD|] eqn:HdD; [|done].
  destruct (raw !! "d18O_tot2") as [dO|] eqn:HdO; [|done].
  cbn in H. destruct testplots.
  - destruct (raw !! "h2o_tot1") as [q1|] eqn:Hq1; [|done].
    destruct (raw !! "dD_tot1") as [dD1|] eqn:HdD1; [|done].
    destruct (raw !! "d18O_tot1") as [dO1|] eqn:HdO1; [|done].
    destruct (raw !! "Start_UTC") as [t|] eqn:Ht; [|done].
    cbn in H. injection H as <-.
    by eapply cal1718_flight_plots_returns.
  - cbn in H. injection H as <-.
    by eapply cal1718_flight_returns.
Qed.

(** X7: when the year has a row in each of the three sheets and every
    flight file holds the columns a flight reads, [pic2_cal1718] returns,
    prints every date in order, leaves in the output file of each flight the
    cross-calibrated frame of that flight's input, and leaves every other
    file, the Picarro-1 files it reads from included, as it was. *)
Theorem pic2_cal1718_writes_every_flight (tables : caltable) (year : Z)
    (testplots : bool) (ph : row_h2o) (pD : row_dD) (pO : row_d18O)
    (dates : list string) (w : world) :
  params_h2o tables !! year = Some ph ->
  params_dD tables !! year = Some pD ->
  params_d18O tables !! year = Some pO ->
  (forall d, d ∈ dates ->
     is_Some (flight_output pic1cal_file
                (calibrated1718 ph pD pO testplots) w d)) ->
  exists w',
    pic2_cal1718 tables year dates testplots w = (Returns tt, w') /\
    stdout w' = stdout w ++ map Text dates /\
    rng w' = rng w /\
    (forall d, d ∈ dates ->
       files w' !! pic2cal_file d
         = flight_output pic1cal_file (calibrated1718 ph pD pO testplots) w d) /\
    (forall path, (forall d, d ∈ dates -> path ≠ pic2cal_file d) ->
       files w' !! path = files w !! path) /\
    (forall d, files w' !! pic1cal_file d = files w !! pic1cal_file d).
Proof.
  intros Hph HpD HpO Hall. unfold pic2_cal1718.
  destruct (batch_returns (cal1718_flight tables year testplots)
              pic1cal_file pic2cal_file (calibrated1718 ph pD pO testplots)
              pic1cal_not_pic2cal pic2cal_file_inj
              (fun d w0 out => cal1718_flight_output tables year testplots
                                 ph pD pO d w0 out Hph HpD HpO)
              dates w Hall)
    as (w' & Hrun & Hout & Hrng & Hfiles & Hother).
  exists w'. repeat (split; [assumption |]).
  intros d. apply Hother. intros d' _. apply pic1cal_not_pic2cal.
Qed.

Lemma pic2_cal1718_writes_every_flight_witness :
  exists w',
    pic2_cal1718 sample_tables 2017 ["20170815"] false sample_world_2017
      = (Returns tt, w') /\
    stdout w' = [Text "20170815"] /\
    files w' !! pic2cal_file "20170815"
      = calibrated1718 (RowH2O (Num 0.9))
          (RowDD (Num 0) (Num 0) (Num 0) (Num 1) (Num 0) (Num 0)
                 (Num 0) (Num 0) (Num 0) (Num 2))
          (RowD18O (Num 0) (Num 0) (Num 0) (Num 1) (Num 0) (Num 0)
                   (Num 0) (Num 0) (Num 0) (Num 0.5))
          false sample_frame.
Proof.
  destruct (pic2_cal1718_writes_every_flight sample_tables 2017 false
              (RowH2O (Num 0.9))
              (RowDD (Num 0) (Num 0) (Num 0) (Num 1) (Num 0) (Num 0)
                     (Num 0) (Num 0) (Num 0) (Num 2))
              (RowD18O (Num 0) (Num 0) (Num 0) (Num 1) (Num 0) (Num 0)
                       (Num 0) (Num 0) (Num 0) (Num 0.5))
              ["20170815"] sample_world_2017)
    as (w' & Hrun & Hout & _ & Hfiles & _).
  - reflexivity.
  - reflexivity.
  - reflexivity.
  - intros d Hd.
    apply elem_of_cons in Hd as [-> | Hd]; [by eexists |].
    by apply elem_of_nil in Hd.
  - exists w'. split; [exact Hrun |]. split; [exact Hout |].
    rewrite Hfiles by left. reflexivity.
Defined.

(** X8: running [pic2_cal1718] a second time over the same flights, after
    a run in which every flight had its file and columns, succeeds again
    and leaves the files exactly as the first run left them: the outputs are
    not calibrated twice. *)
Theorem pic2_cal1718_twice_same_files (tables : caltable) (year : Z)
    (testplots : bool) (ph : row_h2o) (pD : row_dD) (pO : row_d18O)
    (dates : list string) (w : world) :
  params_h2o tables !! year = Some ph ->
  params_dD tables !! year = Some pD ->
  params_d18O tables !! year = Some pO ->
  (forall d, d ∈ dates ->
     is_Some (flight_output pic1cal_file
                (calibrated1718 ph pD pO testplots) w d)) ->
  exists w1 w2,
    pic2_cal1718 tables year dates testplots w = (Returns tt, w1) /\
    pic2_cal1718 tables year dates testplots w1 = (Returns tt, w2) /\
    files w2 = files w1 /\
    stdout w2 = stdout w ++ map Text dates ++ map Text dates.
Proof.
  intros Hph HpD HpO Hall. unfold pic2_cal1718.
  apply (batch_again (cal1718_flight tables year testplots)
           pic1cal_file pic2cal_file (calibrated1718 ph pD pO testplots)
           pic1cal_not_pic2cal pic2cal_file_inj
           (fun d w0 out => cal1718_flight_output tables year testplots
                              ph pD pO d w0 out Hph HpD HpO)
           dates w Hall).
Qed.

Lemma pic2_cal1718_twice_same_files_witness :
  exists w1 w2,
    pic2_cal1718 sample_tables 2017 ["20170815"] true sample_world_plots
      = (Returns tt, w1) /\
    pic2_cal1718 sample_tables 2017 ["20170815"] true w1 = (Returns tt, w2) /\
    files w2 = files w1.
Proof.
  destruct (pic2_cal1718_twice_same_files sample_tables 2017 true
              (RowH2O (Num 0.9))
              (RowDD (Num 0) (Num 0) (Num 0) (Num 1) (Num 0) (Num 0)
                     (Num 0) (Num 0) (Num 0) (Num 2))
              (RowD18O (Num 0) (Num 0) (Num 0) (Num 1) (Num 0) (Num 0)
                       (Num 0) (Num 0) (Num 0) (Num 0.5))
              ["20170815"] sample_world_plots)
    as (w1 & w2 & Hrun1 & Hrun2 & Hfiles & _).
  - reflexivity.
  - reflexivity.
  - reflexivity.
  - intros d Hd.
    apply elem_of_cons in Hd as [-> | Hd]; [by eexists |].
    by apply elem_of_nil in Hd.
  - exists w1, w2. split; [exact Hrun1 |]. split; [exact Hrun2 |]. exact Hfiles.
Defined.

(** X9: the test plots are not free of effect on the data.  With
    [testplots=True] the file a flight of [pic2_cal1718] saves holds the
    Picarro-1 columns [dD_tot1] and [d18O_tot1] as their 10-sample moving
    averages, while with [testplots=False] it holds them as read (flags
    replaced); every other column is saved the same in both modes. *)
Theorem pic2_cal1718_testplots_smooths_saved_pic1_columns
    (tables : caltable) (year : Z) (date : string) (w : world)
    (raw : gmap string Series) (q dD dO q1 dD1 dO1 t : Series)
    (ph : row_h2o) (pD : row_dD) (pO : row_d18O) :
  files w !! pic1cal_file date = Some raw ->
  raw !! "h2o_tot2" = Some q ->
  raw !! "dD_tot2" = Some dD ->
  raw !! "d18O_tot2" = Some dO ->
  raw !! "h2o_tot1" = Some q1 ->
  raw !! "dD_tot1" = Some dD1 ->
  raw !! "d18O_tot1" = Some dO1 ->
  raw !! "Start_UTC" = Some t ->
  params_h2o tables !! year = Some ph ->
  params_dD tables !! year = Some pD ->
  params_d18O tables !! year = Some pO ->
  exists out_plain out_plots : gmap string Series,
    cal1718_flight tables year false date w =
      (Returns tt,
       World (stdout w ++ [Text date])
             (<[pic2cal_file date := out_plain]> (files w)) (rng w)) /\
    cal1718_flight tables year true date w =
      (Returns tt,
       World (stdout w ++ [Text date])
             (<[pic2cal_file date := out_plots]> (files w)) (rng w)) /\
    out_plain !! "dD_tot1" = Some (map flag_to_nan dD1) /\
    out_plots !! "dD_tot1" = Some (rolling_mean 10 (map flag_to_nan dD1)) /\
    out_plain !! "d18O_tot1" = Some (map flag_to_nan dO1) /\
    out_plots !! "d18O_tot1" = Some (rolling_mean 10 (map flag_to_nan dO1)) /\
    (forall name, name ≠ "dD_tot1" -> name ≠ "d18O_tot1" ->
       out_plots !! name = out_plain !! name).
Proof.
  intros Hfile Hq HdD HdO Hq1 HdD1 HdO1 Ht Hph HpD HpO.
  eexists _, _.
  split; [by eapply cal1718_flight_returns |].
  split; [by eapply cal1718_flight_plots_returns |].
  unfold cal1718_columns, plotted_frame.
  split.
  { rewrite !lookup_insert_ne by done.
    rewrite lookup_replace_flag, HdD1. reflexivity. }
  split.
  { rewrite !lookup_insert_ne by done. apply lookup_insert_eq. }
  split.
  { rewrite !lookup_insert_ne by done.
    rewrite lookup_replace_flag, HdO1. reflexivity. }
  split.
  { rewrite !lookup_insert_ne by done. apply lookup_insert_eq. }
  intros name HnD HnO.
  destruct (decide (name = "d18O_tot2")) as [->|H1];
    [by rewrite !lookup_insert_eq |].
  rewrite !(lookup_insert_ne _ "d18O_tot2") by done.
  destruct (decide (name = "dD_tot2")) as [->|H2];
    [by rewrite !lookup_insert_eq |].
  rewrite !(lookup_insert_ne _ "dD_tot2") by done.
  destruct (decide (name = "h2o_tot2")) as [->|H3];
    [by rewrite !lookup_insert_eq |].
  rewrite !(lookup_insert_ne _ "h2o_tot2") by done.
  rewrite !lookup_insert_ne by done. reflexivity.
Qed.

Lemma pic2_cal1718_testplots_smooths_saved_pic1_columns_witness :
  exists out_plain out_plots : gmap string Series,
    (cal1718_flight sample_tables 2017 false "20170815" sample_world_plots).1
      = Returns tt /\
    (cal1718_flight sample_tables 2017 true "20170815" sample_world_plots).1
      = Returns tt /\
    out_plain !! "dD_tot1" = Some (map flag_to_nan [Num (-71); Num (-99)]) /\
    out_plots !! "dD_tot1"
      = Some (rolling_mean 10 (map flag_to_nan [Num (-71); Num (-99)])).
Proof.
  destruct (pic2_cal1718_testplots_smooths_saved_pic1_columns
              sample_tables 2017 "20170815" sample_world_plots
              sample_frame_plots
              [Num 15000; Num (-9999)] [Num (-70); Num (-100)]
              [Num (-10); Num (-14)] [Num 15100; Num 14000]
              [Num (-71); Num (-99)] [Num (-10.5); Num (-13.5)]
              [Num 36000; Num 36001]
              (RowH2O (Num 0.9))
              (RowDD (Num 0) (Num 0) (Num 0) (Num 1) (Num 0) (Num 0)
                     (Num 0) (Num 0) (Num 0) (Num 2))
              (RowD18O (Num 0) (Num 0) (Num 0) (Num 1) (Num 0) (Num 0)
                       (Num 0) (Num 0) (Num 0) (Num 0.5)))
    as (o0 & o1 & H0 & H1 & HD0 & HD1 & _); try reflexivity.
  exists o0, o1. rewrite H0, H1. split; [reflexivity |].
  split; [reflexivity |]. split; [exact HD0 | exact HD1].
Defined.

(** X10: [pic2_cal1718] looks the year up inside the loop.  When the year
    has no row in one of the three sheets and the list of dates is not
    empty, the run stops in its first flight with a key error on the year,
    once that flight's file is loaded and the columns read before the
    look-up are found; the date is printed, nothing is written and no later
    flight is started. *)
Theorem pic2_cal1718_unknown_year (tables : caltable) (year : Z)
    (testplots : bool) (date : string) (rest : list string) (w : world)
    (raw : gmap string Series) (q dD dO : Series) :
  files w !! pic1cal_file date = Some raw ->
  raw !! "h2o_tot2" = Some q ->
  raw !! "dD_tot2" = Some dD ->
  raw !! "d18O_tot2" = Some dO ->
  params_h2o tables !! year = None \/ params_dD tables !! year = None
    \/ params_d18O tables !! year = None ->
  pic2_cal1718 tables year (date :: rest) testplots w =
    (Raises (KeyError (KInt year)),
     World (stdout w ++ [Text date]) (files w) (rng w)).
Proof.
  intros Hfile Hq HdD HdO Hyear.
  unfold pic2_cal1718. rewrite for_each_cons.
  erewrite run_bind_raises; [reflexivity |].
  unfold cal1718_flight.
  erewrite run_bind by reflexivity.
  erewrite run_bind by (apply run_read_csv; exact Hfile).
  erewrite run_bind
    by (apply run_getitem; rewrite lookup_replace_flag, Hq; reflexivity).
  destruct (params_h2o tables !! year) as [ph|] eqn:Hph.
  2: { erewrite run_bind_raises; [reflexivity |].
       unfold loc. rewrite Hph. reflexivity. }
  erewrite run_bind by (apply run_loc; exact Hph).
  erewrite run_bind
    by (apply run_getitem; rewrite lookup_replace_flag, Hq; reflexivity).
  erewrite run_bind
    by (apply run_getitem; rewrite lookup_replace_flag, HdD; reflexivity).
  destruct (params_dD tables !! year) as [pD|] eqn:HpD.
  2: { erewrite run_bind_raises; [reflexivity |].
       unfold loc. rewrite HpD. reflexivity. }
  erewrite run_bind by (apply run_loc; exact HpD).
  erewrite run_bind
    by (apply run_getitem; rewrite lookup_replace_flag, Hq; reflexivity).
  erewrite run_bind
    by (apply run_getitem; rewrite lookup_replace_flag, HdO; reflexivity).
  destruct (params_d18O tables !! year) as [pO|] eqn:HpO.
  2: { erewrite run_bind_raises; [reflexivity |].
       unfold loc. rewrite HpO. reflexivity. }
  destruct Hyear as [H | [H | H]]; discriminate.
Qed.

Lemma pic2_cal1718_unknown_year_witness :
  pic2_cal1718 sample_tables 2018 ["20170815"; "20170817"] false
    sample_world_2017 =
    (Raises (KeyError (KInt 2018)),
     World [Text "20170815"] (files sample_world_2017) 0).
Proof.
  apply (pic2_cal1718_unknown_year sample_tables 2018 false "20170815"
           ["20170817"] sample_world_2017 sample_frame
           [Num 15000; Num (-9999)] [Num (-70); Num (-100)]
           [Num (-10); Num (-14)]); try reflexivity.
  left. reflexivity.
Defined.

(** ** Which cross-calibrated samples are numbers *)

Lemma is_finite_fadd (x y : float) :
  is_finite (x + y)%flt = is_finite x && is_finite y.
Proof. destruct x as [|a|s], y as [|b|t]; try reflexivity. cbn. by destruct (Bool.eqb s t). Qed.

Lemma is_finite_fmul (x y : float) :
  is_finite (x * y)%flt = is_finite x && is_finite y.
Proof.
  destruct x as [|a|s], y as [|b|t]; try reflexivity; cbn;
    by destruct (Req_dec_T _ 0).
Qed.

Lemma is_finite_crossCalibrate c3 c2 c1 d1 d2 d3 x1 x2 x3 c0 (logQ delta : float) :
  Forall (fun c => is_finite c = true) [c3; c2; c1; d1; d2; d3; x1; x2; x3; c0] ->
  is_finite (spec_crossCalibrateIsotopeRatio c3 c2 c1 d1 d2 d3 x1 x2 x3 c0
               logQ delta)
    = is_finite logQ && is_finite delta.
Proof.
  intros H. repeat (apply Forall_cons in H as [? H]).
  unfold spec_crossCalibrateIsotopeRatio.
  rewrite !is_finite_fadd, !is_finite_fmul.
  rewrite !(is_finite_fpow_IZR _ 3), !(is_finite_fpow_IZR _ 2) by lia.
  rewrite is_finite_fmul.
  repeat match goal with E : is_finite _ = true |- _ => rewrite E; clear E end.
  destruct (is_finite logQ), (is_finite delta); reflexivity.
Qed.

Lemma length_observations_full (l : Series) :
  length (observations l) = length l <-> Forall (fun v => is_finite v = true) l.
Proof.
  induction l as [|v l IH]; [by split |].
  pose proof (length_observations l) as Hle. rewrite Forall_cons.
  destruct v as [|r|b]; simpl.
  - split; [lia | intros [? _]; discriminate].
  - rewrite <- IH. split; [intros H; split; [done | lia] | intros [_ H]; lia].
  - split; [lia | intros [? _]; discriminate].
Qed.

(** The mean of the window is a number exactly from the tenth sample on,
    where the ten samples of the window are numbers. *)
Lemma spec_movingAverage_present (s : Series) (i : nat) :
  (i < length s)%nat ->
  is_finite (spec_movingAverage 10 s i) = true <->
  (9 ≤ i)%nat /\
  forall j, (i - 9 ≤ j ≤ i)%nat -> exists r, s !! j = Some (Num r).
Proof.
  intros Hi. unfold spec_movingAverage.
  set (win := drop (S i - 10) (take (S i) s)).
  assert (Hlen : length win = (S i - (S i - 10))%nat).
  { subst win. rewrite length_drop, length_take. lia. }
  assert (Hwin : forall j, (S i - 10 ≤ j ≤ i)%nat ->
            win !! (j - (S i - 10))%nat = s !! j).
  { intros j Hj. subst win. rewrite lookup_drop, lookup_take_lt by lia.
    f_equal. lia. }
  pose proof (length_observations win) as Hobs.
  destruct (decide (length (observations win) = 10 ∧ 0 < 10)%nat)
    as [[H _]|Hn]; cbn [is_finite].
  - split; [intros _ | done].
    assert (Hfull : Forall (fun v => is_finite v = true) win).
    { apply length_observations_full. lia. }
    split; [lia |]. intros j Hj.
    destruct (lookup_lt_is_Some_2 s j) as [v Hv]; [lia |].
    assert (Hfv : is_finite v = true).
    { apply (proj1 (Forall_lookup _ win) Hfull (j - (S i - 10))%nat).
      rewrite Hwin by lia. exact Hv. }
    destruct v as [|r|b]; try discriminate. eauto.
  - split; [done |]. intros [H9 Hall]. exfalso. apply Hn. split; [|lia].
    rewrite (proj2 (length_observations_full win)); [lia |].
    apply Forall_lookup. intros k v Hk.
    assert (Hklt : (k < length win)%nat) by (by eapply lookup_lt_Some).
    destruct (Hall (k + (S i - 10))%nat) as [r Hr]; [lia |].
    rewrite <- Hwin in Hr by lia.
    replace (k + (S i - 10) - (S i - 10))%nat with k in Hr by lia.
    rewrite Hk in Hr. injection Hr as ->. reflexivity.
Qed.

Lemma flag_to_nan_number (v : float) (r : R) :
  flag_to_nan v = Num r <-> v = Num r /\ r <> missing_flag.
Proof.
  destruct v as [|x|b]; cbn [flag_to_nan].
  - split; [discriminate | intros [? _]; discriminate].
  - destruct (Req_dec_T x missing_flag) as [->|Hx].
    + split; [discriminate | intros [[= <-] H]; contradiction].
    + split; [intros [= <-]; done | intros [[= <-] _]; reflexivity].
  - split; [discriminate | intros [? _]; discriminate].
Qed.

Lemma flog_flag_present (v : float) :
  is_finite (flog (flag_to_nan v)) = true <-> exists x, v = Num x /\ 0 < x.
Proof.
  destruct v as [|r|[|]]; cbn [flag_to_nan flog is_finite].
  - split; [done | intros (x & H & _); done].
  - destruct (Req_dec_T r missing_flag) as [->|Hne]; cbn [flog is_finite].
    + split; [done |]. intros (x & [= <-] & Hx). unfold missing_flag in Hx. lra.
    + destruct (Rlt_dec 0 r); cbn [is_finite].
      * split; eauto.
      * destruct (Req_dec_T r 0); cbn [is_finite];
          (split; [done |]; intros (x & [= <-] & Hx); lra).
  - split; [done | intros (x & H & _); done].
  - split; [done | intros (x & H & _); done].
Qed.

Lemma xcal_cell_present (f : float -> float -> float) (q s : Series) (i : nat) :
  (forall l d, is_finite (f l d) = is_finite l && is_finite d) ->
  length s = length q -> (i < length q)%nat ->
  exists v,
    zip_with f (map flog (map flag_to_nan q))
      (rolling_mean 10 (map flag_to_nan s)) !! i = Some v /\
    (is_finite v = true <-> humidity_present q i /\ window_present s i).
Proof.
  intros Hf Hlen Hi.
  destruct (lookup_lt_is_Some_2 q i Hi) as [qv Hqv].
  assert (His : (i < length (map flag_to_nan s))%nat)
    by (rewrite length_map; lia).
  eexists. split.
  { rewrite lookup_zip_with, !list_lookup_fmap, Hqv.
    rewrite rolling_mean_lookup by lia.
    destruct (decide (i < length (map flag_to_nan s))%nat); [|lia].
    reflexivity. }
  rewrite Hf, andb_true_iff, flog_flag_present.
  rewrite (spec_movingAverage_present _ _ His).
  unfold humidity_present, window_present.
  split.
  - intros [(x & -> & Hx) [H9 Hall]]. split; [eauto |]. split; [exact H9 |].
    intros j Hj. destruct (Hall j Hj) as [r Hr].
    rewrite list_lookup_fmap in Hr.
    destruct (s !! j) as [v|] eqn:Hv; [|done].
    cbn in Hr. injection Hr as Hr.
    apply flag_to_nan_number in Hr as [-> Hr]. eauto.
  - intros [(x & Hq & Hx) [H9 Hall]]. split.
    + exists x. split; [congruence | exact Hx].
    + split; [exact H9 |]. intros j Hj.
      destruct (Hall j Hj) as (r & Hv & Hr).
      exists r. rewrite list_lookup_fmap, Hv.
      cbn [fmap option_fmap option_map]. by rewrite flag_to_nan_Num.
Qed.

(** X11: which samples of a flight of [pic2_cal1718] come out as numbers.
    With coefficients that are numbers, the cross-calibrated [dD_tot2]
    (likewise [d18O_tot2]) of row [i] is a finite number exactly when the
    humidity of the row is a positive number and the ten isotope samples
    [i-9 .. i] are all numbers other than the flag; so the first nine rows
    of every flight never hold a number, nor does a row whose humidity is
    missing, zero, negative or infinite. *)
Theorem pic2_cal1718_sample_present_iff (tables : caltable) (year : Z)
    (testplots : bool) (date : string) (w : world)
    (raw : gmap string Series) (q dD dO : Series)
    (ph : row_h2o) (pD : row_dD) (pO : row_d18O) (i : nat) :
  files w !! pic1cal_file date = Some raw ->
  raw !! "h2o_tot2" = Some q ->
  raw !! "dD_tot2" = Some dD ->
  raw !! "d18O_tot2" = Some dO ->
  params_h2o tables !! year = Some ph ->
  params_dD tables !! year = Some pD ->
  params_d18O tables !! year = Some pO ->
  (testplots = true ->
   is_Some (raw !! "h2o_tot1") /\ is_Some (raw !! "dD_tot1") /\
   is_Some (raw !! "d18O_tot1") /\ is_Some (raw !! "Start_UTC")) ->
  Forall (fun c => is_finite c = true) (coefficients_dD pD) ->
  Forall (fun c => is_finite c = true) (coefficients_d18O pO) ->
  length dD = length q -> length dO = length q -> (i < length q)%nat ->
  exists (out : gmap string Series) (vD vO : float),
    cal1718_flight tables year testplots date w =
      (Returns tt,
       World (stdout w ++ [Text date])
             (<[pic2cal_file date := out]> (files w)) (rng w)) /\
    cell out "dD_tot2" i = Some vD /\
    cell out "d18O_tot2" i = Some vO /\
    (is_finite vD = true <-> humidity_present q i /\ window_present dD i) /\
    (is_finite vO = true <-> humidity_present q i /\ window_present dO i) /\
    ((i < 9)%nat -> is_finite vD = false /\ is_finite vO = false).
Proof.
  intros Hfile Hq HdD HdO Hph HpD HpO Hplots HcD HcO HlD HlO Hi.
  destruct (cal1718_flight_writes tables year testplots date w raw
              q dD dO ph pD pO) as [data Hrun]; try assumption.
  destruct (xcal_cell_present (poly_dD pD) q dD i) as (vD & HvD & HiffD);
    [| assumption | assumption |].
  { intros l d. unfold poly_dD. by apply is_finite_crossCalibrate. }
  destruct (xcal_cell_present (poly_d18O pO) q dO i) as (vO & HvO & HiffO);
    [| assumption | assumption |].
  { intros l d. unfold poly_d18O. by apply is_finite_crossCalibrate. }
  eexists _, vD, vO. split; [exact Hrun |].
  split.
  { rewrite (cell_lookup _ _ _ _ (cal1718_columns_dD _ _ _ _ _ _ _)).
    exact HvD. }
  split.
  { rewrite (cell_lookup _ _ _ _ (cal1718_columns_d18O _ _ _ _ _ _ _)).
    exact HvO. }
  split; [exact HiffD |]. split; [exact HiffO |].
  intros H9. split.
  - destruct (is_finite vD) eqn:E; [|reflexivity].
    destruct HiffD as [HD _]. destruct (HD eq_refl) as [_ [Hge _]]. lia.
  - destruct (is_finite vO) eqn:E; [|reflexivity].
    destruct HiffO as [HO _]. destruct (HO eq_refl) as [_ [Hge _]]. lia.
Qed.

Lemma pic2_cal1718_sample_present_iff_witness :
  exists (out : gmap string Series) (vD : float),
    cal1718_flight sample_tables_logq 2017 false "20170817" sample_world_long =
      (Returns tt,
       World [Text "20170817"]
             (<[pic2cal_file "20170817" := out]> (files sample_world_long)) 0)
    /\
    cell out "dD_tot2" 10 = Some vD /\ is_finite vD = true.
Proof.
  destruct (pic2_cal1718_sample_present_iff sample_tables_logq 2017 false
              "20170817" sample_world_long sample_frame_long
              sample_long_h2o sample_long_dD sample_long_d18O
              (RowH2O (Num 0.9))
              (RowDD (Num 0) (Num 0) (Num 1) (Num 1) (Num 0) (Num 0)
                     (Num 0) (Num 0) (Num 0) (Num 2))
              (RowD18O (Num 0) (Num 0) (Num 1) (Num 1) (Num 0) (Num 0)
                       (Num 0) (Num 0) (Num 0) (Num 0.5)) 10%nat)
    as (out & vD & vO & Hrun & HD & _ & HiffD & _);
    try reflexivity.
  - discriminate.
  - repeat constructor.
  - repeat constructor.
  - simpl. lia.
  - exists out, vD. split; [exact Hrun |]. split; [exact HD |].
    apply HiffD. split.
    + exists 16000. split; [reflexivity | lra].
    + split; [lia |]. intros j Hj.
      assert (Hcases : j = 1%nat \/ j = 2%nat \/ j = 3%nat \/ j = 4%nat
                       \/ j = 5%nat \/ j = 6%nat \/ j = 7%nat \/ j = 8%nat
                       \/ j = 9%nat \/ j = 10%nat) by lia.
      unfold missing_flag.
      destruct Hcases as [-> | [-> | [-> | [-> | [-> | [-> | [-> | [-> |
                          [-> | ->]]]]]]]]];
        eexists; (split; [reflexivity | lra]).
Defined.

(** ** The script body *)

Lemma dates2016_disjoint (d : string) :
  d ∈ dates2016_good_mako -> d ∈ dates2016_good_gulper -> False.
Proof.
  unfold dates2016_good_mako, dates2016_good_gulper.
  rewrite !elem_of_cons, !elem_of_nil.
  intros H1 H2.
  repeat (destruct H1 as [-> | H1]);
    repeat (destruct H2 as [H2 | H2]); try discriminate; contradiction.
Qed.

(** X12: the script as shipped calibrates the flights of 2016 only.  When
    the files of its eleven flights hold the three Picarro-2 columns, it
    returns; it prints the banner of 2016, the four Mako dates, the seven
    Gulper dates and the banners of 2017 and 2018; each Mako flight is
    calibrated with the Mako parameters and each Gulper flight with the
    Gulper parameters; and no other file is written: the two later years
    get a banner and no output. *)
Theorem main_calibrates_2016_only (w : world) :
  (forall d, d ∈ dates2016_good_mako ->
     is_Some (flight_output timesync_file (calibrated16 mako_block) w d)) ->
  (forall d, d ∈ dates2016_good_gulper ->
     is_Some (flight_output timesync_file (calibrated16 gulper_block) w d)) ->
  exists w',
    main w = (Returns tt, w') /\
    stdout w' =
      stdout w ++ [Text (banner "2016")] ++ map Text dates2016_good_mako
        ++ map Text dates2016_good_gulper
        ++ [Text (banner "2017"); Text (banner "2018")] /\
    rng w' = rng w /\
    (forall d, d ∈ dates2016_good_mako ->
       files w' !! pic2cal_file d
         = flight_output timesync_file (calibrated16 mako_block) w d) /\
    (forall d, d ∈ dates2016_good_gulper ->
       files w' !! pic2cal_file d
         = flight_output timesync_file (calibrated16 gulper_block) w d) /\
    (forall path,
       (forall d, d ∈ dates2016_good_mako ++ dates2016_good_gulper ->
          path ≠ pic2cal_file d) ->
       files w' !! path = files w !! path).
Proof.
  intros HM HG.
  set (w0 := World (stdout w ++ [Text (banner "2016")]) (files w) (rng w)).
  destruct (for_each_cal16_returns mako_block dates2016_good_mako w0 HM)
    as (w1 & Hrun1 & Hout1 & Hrng1 & Hfiles1 & Hother1).
  assert (Hsame : forall d,
            flight_output timesync_file (calibrated16 gulper_block) w1 d
            = flight_output timesync_file (calibrated16 gulper_block) w d).
  { intros d. unfold flight_output. rewrite Hother1; [reflexivity |].
    intros d' _. apply timesync_not_pic2cal. }
  destruct (for_each_cal16_returns gulper_block dates2016_good_gulper w1)
    as (w2 & Hrun2 & Hout2 & Hrng2 & Hfiles2 & Hother2).
  { intros d Hd. rewrite Hsame. by apply HG. }
  exists (World (stdout w2 ++ [Text (banner "2017")] ++ [Text (banner "2018")])
                (files w2) (rng w2)).
  split.
  { unfold main.
    erewrite run_bind by reflexivity.
    erewrite run_bind by exact Hrun1.
    erewrite run_bind by exact Hrun2.
    erewrite run_bind by reflexivity.
    unfold print. cbn [stdout files rng]. by rewrite <- app_assoc. }
  cbn [stdout files rng]. split.
  { rewrite Hout2, Hout1. subst w0. cbn [stdout].
    rewrite <- !app_assoc. reflexivity. }
  split; [by rewrite Hrng2, Hrng1 |].
  split; [|split].
  - intros d Hd. rewrite Hother2; [by rewrite Hfiles1 |].
    intros d' Hd' E. apply pic2cal_file_inj in E. subst d'.
    exact (dates2016_disjoint d Hd Hd').
  - intros d Hd. rewrite Hfiles2, Hsame by done. reflexivity.
  - intros path Hpath. rewrite Hother2, Hother1; [reflexivity | |].
    + intros d Hd. apply Hpath. apply elem_of_app. by left.
    + intros d Hd. apply Hpath. apply elem_of_app. by right.
Qed.

Lemma main_calibrates_2016_only_witness :
  exists w',
    main sample_world_2016 = (Returns tt, w') /\
    files w' !! pic2cal_file "20160910"
      = calibrated16 gulper_block sample_frame /\
    files w' !! pic2cal_file "20170815" = None.
Proof.
  destruct (main_calibrates_2016_only sample_world_2016)
    as (w' & Hrun & _ & _ & _ & HG & Hother).
  - unfold dates2016_good_mako. intros d Hd.
    rewrite !elem_of_cons, elem_of_nil in Hd.
    repeat (destruct Hd as [-> | Hd]); [by eexists .. | contradiction].
  - unfold dates2016_good_gulper. intros d Hd.
    rewrite !elem_of_cons, elem_of_nil in Hd.
    repeat (destruct Hd as [-> | Hd]); [by eexists .. | contradiction].
  - exists w'. split; [exact Hrun |]. split.
    + rewrite HG; [reflexivity |].
      unfold dates2016_good_gulper. left.
    + rewrite Hother; [reflexivity |].
      intros d Hd E. apply pic2cal_file_inj in E. subst d.
      unfold dates2016_good_mako, dates2016_good_gulper in Hd.
      rewrite elem_of_app, !elem_of_cons, !elem_of_nil in Hd.
      destruct Hd as [Hd | Hd];
        repeat (destruct Hd as [Hd | Hd]; [discriminate |]); contradiction.
Defined.

(** ** The surrogate formula and the calibration parameters *)

Lemma fadd_0_l (x : float) : (Num 0 + x)%flt = x.
Proof.
  destruct x as [|r|b]; [reflexivity | | reflexivity]. cbn. f_equal. lra.
Qed.

Lemma fmul_1_r (x : float) : (x * Num 1)%flt = x.
Proof.
  destruct x as [|r|b]; [reflexivity | |].
  - cbn. f_equal. lra.
  - cbn. destruct (Req_dec_T 1 0); [lra |].
    unfold is_negative. destruct (Rlt_dec 1 0); [lra |].
    by destruct b.
Qed.

(** X13: [wisper_sig_formula] evaluates the model that [fit_poly] fits.
    At every observation its value is the sum of the parameters times the
    six predictors of the fit, in the order the fit lists them (constant,
    the first four powers of the log-humidity, the isotope ratio);
    parameters beyond the sixth are ignored. *)
Theorem wisper_sig_formula_evaluates_the_fit (points : list fit_point)
    (pars : list float) (i : nat) :
  (6 ≤ length pars)%nat -> (i < length points)%nat ->
  exists out : operand,
    wisper_sig_formula (Vector (map (fun r : fit_point => r.1.1) points))
                       (Vector (map point_d points)) pars = Returns out /\
    at_index out i
      = Some (model_value pars (design_row (spec_design "d" points) i)).
Proof.
  intros Hpars Hi.
  destruct pars as [|p0 [|p1 [|p2 [|p3 [|p4 [|p5 more]]]]]];
    try (simpl in Hpars; lia).
  destruct (lookup_lt_is_Some_2 points i Hi) as [r Hr].
  eexists. split; [reflexivity |].
  unfold np_log.
  rewrite !at_index_broadcast, !at_index_ufunc. cbn [at_index].
  rewrite !list_lookup_fmap, Hr.
  unfold model_value, design_row, spec_design.
  cbn [map zip zip_with foldl fst snd].
  rewrite !list_lookup_fmap, Hr.
  cbn [fmap option_fmap option_map mbind option_bind default].
  rewrite fmul_1_r, fadd_0_l. destruct more; reflexivity.
Qed.

Lemma wisper_sig_formula_evaluates_the_fit_witness :
  exists out : operand,
    wisper_sig_formula (Vector [Num 1500; Num 22000])
                       (Vector [Num (-300); Num (-60)])
                       [Num 1; Num 0; Num 0; Num 0; Num 0; Num 2]
      = Returns out /\
    at_index out 1
      = Some (model_value [Num 1; Num 0; Num 0; Num 0; Num 0; Num 2]
                (design_row
                   (spec_design "d" [(Num 1500, Num (-300), Num 9);
                                     (Num 22000, Num (-60), Num 3)]) 1)).
Proof.
  apply (wisper_sig_formula_evaluates_the_fit
           [(Num 1500, Num (-300), Num 9); (Num 22000, Num (-60), Num 3)]
           [Num 1; Num 0; Num 0; Num 0; Num 0; Num 2] 1).
  - simpl. lia.
  - simpl. lia.
Defined.

Lemma select_values_rows (t : qdep_table) (rs : list fit_row) (n1 n2 : string)
    (vals : list (list float)) (row : list float) :
  select_values t rs [n1; n2] = Returns vals ->
  index vals 0 = Returns row ->
  exists x y, row = [x; y].
Proof.
  unfold select_values, index. intros Hv Hr.
  destruct (list_find _ _) as [[? ?]|]; [discriminate |].
  injection Hv as <-.
  destruct rs as [|r0 rs]; [discriminate |].
  cbn in Hr. injection Hr as <-. eauto.
Qed.

(** X14: the standard deviations that [get_calparams] returns for the two
    humidity-dependence parameters do not depend on the isotopologue: for
    ['18O'] as for ['D'] they are read from the columns [sig_aD] and
    [sig_bD].  Both calls return four means and four standard deviations,
    the last one being the [sig_absoffset] passed. *)
Theorem get_calparams_18O_sigmas_from_dD_columns (t : qdep_table)
    (s s' : float) (parsD sigD parsO sigO : list float) :
  get_calparams t "D" s = Returns (parsD, sigD) ->
  get_calparams t "18O" s' = Returns (parsO, sigO) ->
  take 2 sigO = take 2 sigD /\
  length parsD = 4%nat /\ length parsO = 4%nat /\
  drop 2 sigD = [Num (0.0564 / 2); s] /\
  drop 2 sigO = [Num (0.05185 / 2); s'].
Proof.
  unfold get_calparams.
  set (L := filter _ (rows t)).
  change ("a" +:+ "D") with "aD". change ("b" +:+ "D") with "bD".
  change ("a" +:+ "18O") with "a18O". change ("b" +:+ "18O") with "b18O".
  destruct (select_values t L ["aD"; "bD"]) as [vD|] eqn:EvD;
    [|discriminate].
  destruct (select_values t L ["a18O"; "b18O"]) as [vO|] eqn:EvO;
    [|intros _; discriminate].
  destruct (select_values t L ["sig_aD"; "sig_bD"]) as [vS|] eqn:EvS.
  2: { cbn. destruct (index vD 0); discriminate. }
  cbn [mbind outcome_bind].
  destruct (index vD 0) as [rD|] eqn:ErD; [|discriminate].
  destruct (index vO 0) as [rO|] eqn:ErO; [|intros _; discriminate].
  destruct (index vS 0) as [rS|] eqn:ErS; [|discriminate].
  destruct (select_values_rows t L _ _ vD rD EvD ErD) as (x1 & y1 & ->).
  destruct (select_values_rows t L _ _ vO rO EvO ErO) as (x2 & y2 & ->).
  destruct (select_values_rows t L _ _ vS rS EvS ErS) as (x3 & y3 & ->).
  cbn. intros [= <- <-] [= <- <-]. done.
Qed.

Lemma get_calparams_18O_sigmas_from_dD_columns_witness :
  exists parsO sigO : list float,
    get_calparams sample_qdep_table "18O" (Num 1) = Returns (parsO, sigO) /\
    take 2 sigO = [Num 0.02; Num 0.1].
Proof.
  destruct (get_calparams_18O_sigmas_from_dD_columns sample_qdep_table
              (Num 1) (Num 1)
              [Num (-0.365); Num 3.031; Num 1.0564; Num (-5.957469671)]
              [Num 0.02; Num 0.1; Num (0.0564 / 2); Num 1]
              [Num (-0.00581); Num 4.961; Num 1.051851852; Num (-1.041851852)]
              [Num 0.02; Num 0.1; Num (0.05185 / 2); Num 1])
    as (Htake & _).
  - reflexivity.
  - reflexivity.
  - eexists _, _. split; [reflexivity |]. exact Htake.
Defined.

Lemma filter_none {A} (P : A -> Prop) `{!forall x, Decision (P x)} (l : list A) :
  (forall x, x ∈ l -> ~ P x) -> filter P l = [].
Proof.
  induction l as [|x l IH]; intros Hnone; [reflexivity |].
  rewrite filter_cons. destruct (decide (P x)) as [HP|_].
  - exfalso. apply (Hnone x); [left | exact HP].
  - apply IH. intros y Hy. apply Hnone. by right.
Qed.

(** X15: [wisper_uncertainties_with_fit] needs a line for Mako in 2016 in
    the fit table.  When the table has the columns [aD] and [bD] but no
    such line, reading the calibration parameters raises an index error,
    and the run ends there: no sample is drawn, nothing is printed and the
    regression is not run, whatever the sampler and the regression are. *)
Theorem wisper_uncertainties_with_fit_needs_mako_2016
    (mc_normalsampler : sampler_call -> io (list operand))
    (OLS_fit : Series -> list (string * Series) -> outcome ols_solution)
    (t : qdep_table) (w : world) :
  "aD" ∈ header t -> "bD" ∈ header t ->
  (forall r, r ∈ rows t -> picarro r = "Mako" -> year r ≠ 2016%Z) ->
  get_calparams t "D" (Num 1) = Raises IndexError /\
  wisper_uncertainties_with_fit mc_normalsampler OLS_fit t w
    = (Raises IndexError, w).
Proof.
  intros Ha Hb Hrows.
  assert (Hpars : get_calparams t "D" (Num 1) = Raises IndexError).
  { unfold get_calparams.
    rewrite (filter_none _ (rows t)) by (intros r Hr [HM Hy]; by apply (Hrows r)).
    change ("a" +:+ "D") with "aD". change ("b" +:+ "D") with "bD".
    assert (Hsel : select_values t [] ["aD"; "bD"] = Returns []).
    { unfold select_values.
      destruct (list_find (fun n => n ∉ header t) ["aD"; "bD"])
        as [[k n]|] eqn:Hfind; [|reflexivity].
      apply list_find_Some in Hfind as (Hk & Hn & _). exfalso. apply Hn.
      destruct k as [|[|k]]; cbn in Hk; [| |discriminate];
        injection Hk as <-; assumption. }
    rewrite Hsel. reflexivity. }
  split; [exact Hpars |].
  unfold wisper_uncertainties_with_fit, meshgrid. cbv beta iota.
  rewrite Hpars. reflexivity.
Qed.

Lemma wisper_uncertainties_with_fit_needs_mako_2016_witness :
  wisper_uncertainties_with_fit
    (fun _ w => (Returns [], World (stdout w) (files w) (rng w + 1)))
    sample_OLS sample_qdep_table_gulper (World [] ∅ 0)
    = (Raises IndexError, World [] ∅ 0).
Proof.
  apply (wisper_uncertainties_with_fit_needs_mako_2016
           (fun _ w => (Returns [], World (stdout w) (files w) (rng w + 1)))
           sample_OLS sample_qdep_table_gulper (World [] ∅ 0)).
  - cbn. rewrite !elem_of_cons. tauto.
  - cbn. rewrite !elem_of_cons. tauto.
  - intros r Hr. cbn in Hr. apply list_elem_of_singleton in Hr as ->.
    cbn. discriminate.
Defined.

(** ** The shape of the frames written *)

Lemma calibrated16_shape (e : locals16) (raw out : gmap string Series) (n : nat) :
  calibrated16 e raw = Some out ->
  dom out = dom raw /\ (has_rows n raw -> has_rows n out).
Proof.
  unfold calibrated16. intros H.
  destruct (raw !! "dD_tot2") as [dD|] eqn:HdD; [|done].
  destruct (raw !! "h2o_tot2") as [q|] eqn:Hq; [|done].
  destruct (raw !! "d18O_tot2") as [dO|] eqn:HdO; [|done].
  cbn in H. injection H as <-. unfold cal16_frame, replace_flag. split.
  - rewrite !dom_insert_L, dom_fmap_L.
    apply elem_of_dom_2 in HdD, Hq, HdO.
      apply set_eq. intros x. rewrite !elem_of_union, !elem_of_singleton.
      intuition congruence.
  - unfold has_rows. intros Hn.
    pose proof (Hn _ _ HdD) as LD. pose proof (Hn _ _ Hq) as Lq.
    pose proof (Hn _ _ HdO) as LO. cbn beta in LD, Lq, LO.
    repeat apply map_Forall_insert_2;
      rewrite ?length_map, ?length_zip_with, ?length_map; try lia.
    apply map_Forall_fmap. unfold compose.
    intros k s Hs. cbn. rewrite length_map. exact (Hn k s Hs).
Qed.

Lemma calibrated1718_shape ph pD pO testplots (raw out : gmap string Series)
    (n : nat) :
  calibrated1718 ph pD pO testplots raw = Some out ->
  dom out = dom raw /\ (has_rows n raw -> has_rows n out).
Proof.
  unfold calibrated1718. intros H.
  destruct (raw !! "h2o_tot2") as [q|] eqn:Hq; [|done].
  destruct (raw !! "dD_tot2") as [dD|] eqn:HdD; [|done].
  destruct (raw !! "d18O_tot2") as [dO|] eqn:HdO; [|done].
  cbn in H.
  assert (Hflag : forall m, has_rows m raw -> has_rows m (replace_flag raw)).
  { intros m Hm. unfold has_rows, replace_flag. apply map_Forall_fmap.
    unfold compose. intros k s Hs. cbn. rewrite length_map. exact (Hm k s Hs). }
  destruct testplots.
  - destruct (raw !! "h2o_tot1") as [q1|] eqn:Hq1; [|done].
    destruct (raw !! "dD_tot1") as [dD1|] eqn:HdD1; [|done].
    destruct (raw !! "d18O_tot1") as [dO1|] eqn:HdO1; [|done].
    destruct (raw !! "Start_UTC") as [t|] eqn:Ht; [|done].
    cbn in H. injection H as <-.
    unfold cal1718_columns, plotted_frame. split.
    + rewrite !dom_insert_L. unfold replace_flag. rewrite dom_fmap_L.
      apply elem_of_dom_2 in HdD, Hq, HdO, HdD1, HdO1.
      apply set_eq. intros x. rewrite !elem_of_union, !elem_of_singleton.
      intuition congruence.
    + intros Hn.
      pose proof (Hn _ _ HdD) as LD. pose proof (Hn _ _ Hq) as Lq.
      pose proof (Hn _ _ HdO) as LO. pose proof (Hn _ _ HdD1) as LD1.
      pose proof (Hn _ _ HdO1) as LO1. cbn beta in LD, Lq, LO, LD1, LO1.
      unfold has_rows.
      repeat apply map_Forall_insert_2;
        rewrite ?length_zip_with, ?length_rolling_mean, ?length_map;
        try lia.
      by apply Hflag.
  - cbn in H. injection H as <-. unfold cal1718_columns. split.
    + rewrite !dom_insert_L. unfold replace_flag. rewrite dom_fmap_L.
      apply elem_of_dom_2 in HdD, Hq, HdO.
      apply set_eq. intros x. rewrite !elem_of_union, !elem_of_singleton.
      intuition congruence.
    + intros Hn.
      pose proof (Hn _ _ HdD) as LD. pose proof (Hn _ _ Hq) as Lq.
      pose proof (Hn _ _ HdO) as LO. cbn beta in LD, Lq, LO.
      unfold has_rows.
      repeat apply map_Forall_insert_2;
        rewrite ?length_zip_with, ?length_rolling_mean, ?length_map;
        try lia.
      by apply Hflag.
Qed.

(** X16: a run of [pic2_cal16] keeps the shape of every flight's frame:
    the frame saved for a flight has exactly the columns of the frame
    loaded, and as many rows when the columns loaded all have [n] cells.
    (The row index that [to_csv] writes next to the columns is not part of
    the frame.) *)
Theorem pic2_cal16_keeps_shape (pic : string) (e : locals16)
    (dates : list string) (w : world) :
  bind_parameters pic = Some e ->
  (forall d, d ∈ dates ->
     is_Some (flight_output timesync_file (calibrated16 e) w d)) ->
  exists w',
    pic2_cal16 dates pic w = (Returns tt, w') /\
    forall d, d ∈ dates ->
      exists raw out : gmap string Series,
        files w !! timesync_file d = Some raw /\
        files w' !! pic2cal_file d = Some out /\
        dom out = dom raw /\
        forall n, has_rows n raw -> has_rows n out.
Proof.
  intros Hpar Hall. unfold pic2_cal16. rewrite Hpar.
  destruct (for_each_cal16_returns e dates w Hall)
    as (w' & Hrun & _ & _ & Hfiles & _).
  exists w'. split; [exact Hrun |].
  intros d Hd. specialize (Hfiles d Hd). destruct (Hall d Hd) as [out Hout].
  rewrite Hout in Hfiles. unfold flight_output in Hout.
  destruct (files w !! timesync_file d) as [raw|]; [|done]. cbn in Hout.
  exists raw, out. split; [reflexivity |]. split; [exact Hfiles |].
  split; [apply (calibrated16_shape e raw out 0 Hout) |].
  intros n. apply (calibrated16_shape e raw out n Hout).
Qed.

Lemma pic2_cal16_keeps_shape_witness :
  exists w',
    pic2_cal16 ["20160830"] "Gulper" sample_world = (Returns tt, w') /\
    exists out : gmap string Series,
      files w' !! pic2cal_file "20160830" = Some out /\
      dom out = dom sample_frame.
Proof.
  destruct (pic2_cal16_keeps_shape "Gulper" gulper_block ["20160830"]
              sample_world) as (w' & Hrun & Hshape).
  - reflexivity.
  - intros d Hd.
    apply elem_of_cons in Hd as [-> | Hd]; [by eexists |].
    by apply elem_of_nil in Hd.
  - exists w'. split; [exact Hrun |].
    destruct (Hshape "20160830") as (raw & out & Hraw & Hout & Hdom & _);
      [left |].
    exists out. split; [exact Hout |]. rewrite Hdom.
    injection Hraw as <-. reflexivity.
Defined.

(** X17: a run of [pic2_cal1718] keeps the shape of every flight's frame,
    with or without test plots: the frame saved has the columns of the
    frame loaded, and the same number of rows when the columns loaded all
    have [n] cells; the moving average blanks the first rows, it does not
    drop them. *)
Theorem pic2_cal1718_keeps_shape (tables : caltable) (year : Z)
    (testplots : bool) (ph : row_h2o) (pD : row_dD) (pO : row_d18O)
    (dates : list string) (w : world) :
  params_h2o tables !! year = Some ph ->
  params_dD tables !! year = Some pD ->
  params_d18O tables !! year = Some pO ->
  (forall d, d ∈ dates ->
     is_Some (flight_output pic1cal_file
                (calibrated1718 ph pD pO testplots) w d)) ->
  exists w',
    pic2_cal1718 tables year dates testplots w = (Returns tt, w') /\
    forall d, d ∈ dates ->
      exists raw out : gmap string Series,
        files w !! pic1cal_file d = Some raw /\
        files w' !! pic2cal_file d = Some out /\
        dom out = dom raw /\
        forall n, has_rows n raw -> has_rows n out.
Proof.
  intros Hph HpD HpO Hall. unfold pic2_cal1718.
  destruct (batch_returns (cal1718_flight tables year testplots)
              pic1cal_file pic2cal_file (calibrated1718 ph pD pO testplots)
              pic1cal_not_pic2cal pic2cal_file_inj
              (fun d w0 out => cal1718_flight_output tables year testplots
                                 ph pD pO d w0 out Hph HpD HpO)
              dates w Hall)
    as (w' & Hrun & _ & _ & Hfiles & _).
  exists w'. split; [exact Hrun |].
  intros d Hd. specialize (Hfiles d Hd). destruct (Hall d Hd) as [out Hout].
  rewrite Hout in Hfiles. unfold flight_output in Hout.
  destruct (files w !! pic1cal_file d) as [raw|]; [|done]. cbn in Hout.
  exists raw, out. split; [reflexivity |]. split; [exact Hfiles |].
  split; [apply (calibrated1718_shape ph pD pO testplots raw out 0 Hout) |].
  intros n. apply (calibrated1718_shape ph pD pO testplots raw out n Hout).
Qed.

Lemma pic2_cal1718_keeps_shape_witness :
  exists w',
    pic2_cal1718 sample_tables 2017 ["20170815"] true sample_world_plots
      = (Returns tt, w') /\
    exists out : gmap string Series,
      files w' !! pic2cal_file "20170815" = Some out /\
      dom out = dom sample_frame_plots.
Proof.
  destruct (pic2_cal1718_keeps_shape sample_tables 2017 true
              (RowH2O (Num 0.9))
              (RowDD (Num 0) (Num 0) (Num 0) (Num 1) (Num 0) (Num 0)
                     (Num 0) (Num 0) (Num 0) (Num 2))
              (RowD18O (Num 0) (Num 0) (Num 0) (Num 1) (Num 0) (Num 0)
                       (Num 0) (Num 0) (Num 0) (Num 0.5))
              ["20170815"] sample_world_plots) as (w' & Hrun & Hshape).
  - reflexivity.
  - reflexivity.
  - reflexivity.
  - intros d Hd.
    apply elem_of_cons in Hd as [-> | Hd]; [by eexists |].
    by apply elem_of_nil in Hd.
  - exists w'. split; [exact Hrun |].
    destruct (Hshape "20170815") as (raw & out & Hraw & Hout & Hdom & _);
      [left |].
    exists out. split; [exact Hout |]. rewrite Hdom.
    injection Hraw as <-. reflexivity.
Defined.
